(** * ai-coworker: UI code generator and theme store

    A shallow embedding of
      - backend/app/services/ui/framework_adapter.py
      - backend/app/services/ui/theme_manager.py
    and the properties of the design document checked against them.

    Conventions of the embedding.
      - A Python [str] is a [string]; its characters are the code points
        below 256.
      - A value of type [Any] that comes from a JSON document is a [json];
        floating point numbers are left out.
      - A Python [dict] is the list of its items in insertion order.
      - A call that may raise returns a [result]. *)

From Stdlib Require Import String Ascii List ZArith Bool Lia.
From Stdlib Require Import Decimal DecimalString DecimalFacts DecimalPos DecimalZ.
Import ListNotations.
Open Scope list_scope.
Open Scope string_scope.

Set Implicit Arguments.

(* ================================================================== *)
(** * Text *)
(* ================================================================== *)

Definition chr (n : nat) : string := String (ascii_of_nat n) "".

(** The double quote, the line feed and the backslash. *)
Definition dquote : string := chr 34.
Definition squote : string := "'".
Definition nl : string := chr 10.
Definition backslash : string := chr 92.

(** [sep.join(parts)] *)
Definition join (sep : string) (parts : list string) : string :=
  String.concat sep parts.

(** [sub in s] *)
Fixpoint contains (sub s : string) : bool :=
  if String.prefix sub s then true
  else match s with
       | EmptyString => false
       | String _ s' => contains sub s'
       end.

(** [s.endswith(c)] for a single character [c]. *)
Fixpoint ends_with_char (c : ascii) (s : string) : bool :=
  match s with
  | EmptyString => false
  | String a EmptyString => Ascii.eqb a c
  | String _ s' => ends_with_char c s'
  end.

(** [str.lower()]: the capital letters below code point 256 are A to Z and
    192 to 222 without the multiplication sign, 215. *)
Definition lower_char (c : ascii) : ascii :=
  let n := nat_of_ascii c in
  if ((65 <=? n)%nat && (n <=? 90)%nat)
     || ((192 <=? n)%nat && (n <=? 222)%nat && negb (n =? 215)%nat)
  then ascii_of_nat (n + 32)
  else c.

Fixpoint lower (s : string) : string :=
  match s with
  | EmptyString => EmptyString
  | String c s' => String (lower_char c) (lower s')
  end.

(* ================================================================== *)
(** * Exceptions *)
(* ================================================================== *)

Inductive exn : Type :=
| KeyError (key : string)          (* d[key], key missing *)
| TypeError                        (* wrong kind of value, bad keyword arguments, unhashable key *)
| AttributeError                   (* e.g. [.items()] on something that is no dict *)
| ValueError (msg : string)        (* raise ValueError(msg) *)
| EnumValueError (value : string)  (* ValueError of an Enum lookup: value is no member *)
| JSONDecodeError                  (* json.load on malformed text *)
| FileNotFoundError                (* a path with a component that is not there *)
| NotADirectoryError               (* a path that goes through a regular file *)
| SyntaxError                      (* source text that is not Python *)
| Unmodelled.                      (* no exception: the code goes on with a value or a file
                                      the model does not hold (a float, a character above
                                      255, a file outside the themes directory) *)

Inductive result (A : Type) : Type :=
| Ok (a : A)
| Raise (e : exn).
Arguments Ok {A} a.
Arguments Raise {A} e.

Definition bind {A B} (r : result A) (k : A -> result B) : result B :=
  match r with
  | Ok a => k a
  | Raise e => Raise e
  end.

Notation "x <- r ;; k" := (bind r (fun x => k))
  (at level 61, r at next level, right associativity).

(** A list comprehension [[f(x) for x in l]] whose body may raise. *)
Definition mapM {A B} (f : A -> result B) : list A -> result (list B) :=
  fix go (l : list A) : result (list B) :=
    match l with
    | [] => Ok []
    | x :: l' => y <- f x ;; ys <- go l' ;; Ok (y :: ys)
    end.

(* ================================================================== *)
(** * JSON values and their Python text *)
(* ================================================================== *)

Unset Elimination Schemes.
Inductive json : Type :=
| JNull
| JBool (b : bool)
| JNum (z : Z)
| JStr (s : string)
| JArr (items : list json)
| JObj (items : list (string * json)).
Set Elimination Schemes.

Definition dict : Type := list (string * json).

Section json_induction.
Variable P : json -> Prop.
Hypothesis Hnull : P JNull.
Hypothesis Hbool : forall b, P (JBool b).
Hypothesis Hnum : forall z, P (JNum z).
Hypothesis Hstr : forall s, P (JStr s).
Hypothesis Harr : forall l, Forall P l -> P (JArr l).
Hypothesis Hobj : forall kv, Forall (fun p => P (snd p)) kv -> P (JObj kv).

Fixpoint json_ind (v : json) : P v :=
  match v with
  | JNull => Hnull
  | JBool b => Hbool b
  | JNum z => Hnum z
  | JStr s => Hstr s
  | JArr l =>
      Harr ((fix go (l : list json) : Forall P l :=
               match l with
               | [] => Forall_nil _
               | x :: l' => Forall_cons x (json_ind x) (go l')
               end) l)
  | JObj kv =>
      Hobj ((fix go (kv : list (string * json)) : Forall (fun p => P (snd p)) kv :=
               match kv with
               | [] => Forall_nil _
               | p :: kv' => Forall_cons p (json_ind (snd p)) (go kv')
               end) kv)
  end.
End json_induction.

(** [str(z)] for an [int]. *)
Definition str_int (z : Z) : string := NilZero.string_of_int (Z.to_int z).

Definition hex_digit (n : nat) : string :=
  match n with
  | 0 => "0" | 1 => "1" | 2 => "2" | 3 => "3" | 4 => "4" | 5 => "5" | 6 => "6" | 7 => "7"
  | 8 => "8" | 9 => "9" | 10 => "a" | 11 => "b" | 12 => "c" | 13 => "d" | 14 => "e" | _ => "f"
  end.

Definition hex2 (n : nat) : string := hex_digit (n / 16) ++ hex_digit (n mod 16).

(** [repr(s)] for a [str]: single quotes unless the text has a single quote
    and no double quote; backslash, the chosen quote, tab, line feed and
    carriage return are escaped, every other character that is not printable
    is written [\xNN]. *)
Definition printable (n : nat) : bool :=
  ((32 <=? n)%nat && (n <=? 126)%nat) || ((161 <=? n)%nat && negb (n =? 173)%nat).

Definition repr_char (quote : ascii) (c : ascii) : string :=
  let n := nat_of_ascii c in
  if Ascii.eqb c quote then backslash ++ String c ""
  else if (n =? 92)%nat then backslash ++ backslash
  else if (n =? 9)%nat then backslash ++ "t"
  else if (n =? 10)%nat then backslash ++ "n"
  else if (n =? 13)%nat then backslash ++ "r"
  else if printable n then String c ""
  else backslash ++ "x" ++ hex2 n.

Fixpoint repr_body (quote : ascii) (s : string) : string :=
  match s with
  | EmptyString => ""
  | String c s' => repr_char quote c ++ repr_body quote s'
  end.

Definition repr_str (s : string) : string :=
  if contains squote s && negb (contains dquote s)
  then dquote ++ repr_body (ascii_of_nat 34) s ++ dquote
  else squote ++ repr_body (ascii_of_nat 39) s ++ squote.

(** [repr(v)] and [str(v)]: they differ on a [str] at the top only. *)
Fixpoint py_repr (v : json) : string :=
  match v with
  | JNull => "None"
  | JBool true => "True"
  | JBool false => "False"
  | JNum z => str_int z
  | JStr s => repr_str s
  | JArr l => "[" ++ join ", " (map py_repr l) ++ "]"
  | JObj kv =>
      "{" ++ join ", " (map (fun p => repr_str (fst p) ++ ": " ++ py_repr (snd p)) kv) ++ "}"
  end.

Definition py_str (v : json) : string :=
  match v with
  | JStr s => s
  | _ => py_repr v
  end.

(* ================================================================== *)
(** * f-strings *)
(* ================================================================== *)

(** An f-string is a sequence of literal text and replacement fields.  A
    doubled brace in the source is the literal brace.  The text between the
    braces of a replacement field must be an expression; [Bad] is a field
    whose text is none. *)
Inductive chunk : Type :=
| Lit (text : string)
| Val (value : string)
| Bad (source : string).

(** The lines of a triple-quoted f-string, as one sequence of chunks. *)
Fixpoint flatten (lines : list (list chunk)) : list chunk :=
  match lines with
  | [] => []
  | [l] => l
  | l :: ls => (l ++ Lit nl :: flatten ls)%list
  end.

Fixpoint fstring_chunks (cs : list chunk) : result string :=
  match cs with
  | [] => Ok ""
  | Lit s :: cs' => r <- fstring_chunks cs' ;; Ok (s ++ r)
  | Val s :: cs' => r <- fstring_chunks cs' ;; Ok (s ++ r)
  | Bad _ :: _ => Raise SyntaxError
  end.

(** The value of a triple-quoted f-string given line by line: what the body
    of a function computes when it reaches the f-string.  Python parses the
    replacement fields when it compiles the module, so that one malformed
    field stops the import of the whole module, before any call: that is
    [framework_adapter.compile] below, and the entry points of the module as
    it is shipped are [framework_adapter.generate_component] and
    [framework_adapter.generate_project_structure]. *)
Definition fstring (lines : list (list chunk)) : result string :=
  fstring_chunks (flatten lines).

(* ================================================================== *)
(** * framework_adapter.py *)
(* ================================================================== *)

Inductive UIFramework : Type := REACT | VUE | SVELTE | NEXTJS.

Definition UIFramework_eqb (a b : UIFramework) : bool :=
  match a, b with
  | REACT, REACT | VUE, VUE | SVELTE, SVELTE | NEXTJS, NEXTJS => true
  | _, _ => false
  end.

Unset Elimination Schemes.
Inductive ComponentDefinition : Type :=
  Component (name : string) (props : dict) (children : list ComponentDefinition)
            (styles : dict) (framework_specific : dict).
Set Elimination Schemes.

Definition name_of (d : ComponentDefinition) : string :=
  match d with Component n _ _ _ _ => n end.
Definition props_of (d : ComponentDefinition) : dict :=
  match d with Component _ p _ _ _ => p end.
Definition children_of (d : ComponentDefinition) : list ComponentDefinition :=
  match d with Component _ _ c _ _ => c end.
Definition styles_of (d : ComponentDefinition) : dict :=
  match d with Component _ _ _ s _ => s end.

Section component_induction.
Variable P : ComponentDefinition -> Prop.
Hypothesis Hnode : forall n p c s f, Forall P c -> P (Component n p c s f).

Fixpoint ComponentDefinition_ind (d : ComponentDefinition) : P d :=
  match d with
  | Component n p c s f =>
      Hnode n p s f
        ((fix go (c : list ComponentDefinition) : Forall P c :=
            match c with
            | [] => Forall_nil _
            | x :: c' => Forall_cons x (ComponentDefinition_ind x) (go c')
            end) c)
  end.
End component_induction.

(** class FrameworkAdapter(ABC): the three abstract methods. *)
Module FrameworkAdapter.
Record t : Type := {
  generate_component : ComponentDefinition -> result string;
  generate_styles : dict -> string;
  generate_props : dict -> string
}.
End FrameworkAdapter.

Module ReactAdapter.

Definition generate_styles (styles : dict) : string :=
  let css_rules := map (fun '(prop, value) => prop ++ ": " ++ py_str value ++ ";") styles in
  join (nl ++ "    ") css_rules.

Definition generate_props (props : dict) : string :=
  let prop_list := map (fun '(name, type_info) => name ++ ": " ++ py_str type_info) props in
  "{ " ++ join ", " prop_list ++ " }".

(** The f-string of [generate_component], source lines 46 to 61. *)
Definition template (name props styles : string) (children : list string)
  : list (list chunk) :=
  [ [];
    [Lit "import React from 'react';"];
    [Lit "import styled from 'styled-components';"];
    [];
    [Lit "const Styled"; Val name; Lit " = styled.div`"];
    [Lit "    "; Val styles];
    [Lit "`;"];
    [];
    [Lit "export const "; Val name; Lit " = ("; Val props; Lit ") => {"];
    [Lit "    return ("];
    [Lit "        <Styled"; Val name; Lit " "; Bad "...props"; Lit ">"];
    [Lit "            "; Lit "{"; Lit (dquote ++ dquote ++ ".join(children)"); Lit "}"];
    [Lit "        </Styled"; Val name; Lit ">"];
    [Lit "    );"];
    [Lit "}"; Lit ";"];
    [] ].

Fixpoint generate_component (definition : ComponentDefinition) : result string :=
  match definition with
  | Component name props children styles _ =>
      let props := generate_props props in
      let styles := generate_styles styles in
      children <- mapM generate_component children ;;
      fstring (template name props styles children)
  end.

Definition adapter : FrameworkAdapter.t :=
  {| FrameworkAdapter.generate_component := generate_component;
     FrameworkAdapter.generate_styles := generate_styles;
     FrameworkAdapter.generate_props := generate_props |}.

End ReactAdapter.

Module VueAdapter.

Definition generate_styles (styles : dict) : string :=
  let css_rules := map (fun '(prop, value) => "    " ++ prop ++ ": " ++ py_str value ++ ";") styles in
  join nl css_rules.

Definition generate_props (props : dict) : string :=
  let prop_list :=
    map (fun '(name, type_info) => "    " ++ name ++ ": { type: " ++ py_str type_info ++ " }") props in
  "{" ++ nl ++ join ("," ++ nl) prop_list ++ nl ++ "}".

(** The f-string of [generate_component], source lines 84 to 103. *)
Definition template (name props styles : string) (children : list string)
  : list (list chunk) :=
  [ [];
    [Lit "<template>"];
    [Lit ("    <div class=" ++ dquote); Val (lower name); Lit (dquote ++ ">")];
    [Lit "        "; Val (join "" children)];
    [Lit "    </div>"];
    [Lit "</template>"];
    [];
    [Lit "<script>"];
    [Lit "export default "; Lit "{"];
    [Lit "    name: '"; Val name; Lit "',"];
    [Lit "    props: "; Val props];
    [Lit "}"];
    [Lit "</script>"];
    [];
    [Lit "<style scoped>"];
    [Lit "."; Val (lower name); Lit " "; Lit "{"];
    [Lit "    "; Val styles];
    [Lit "}"];
    [Lit "</style>"];
    [] ].

Fixpoint generate_component (definition : ComponentDefinition) : result string :=
  match definition with
  | Component name props children styles _ =>
      let props := generate_props props in
      let styles := generate_styles styles in
      children <- mapM generate_component children ;;
      fstring (template name props styles children)
  end.

Definition adapter : FrameworkAdapter.t :=
  {| FrameworkAdapter.generate_component := generate_component;
     FrameworkAdapter.generate_styles := generate_styles;
     FrameworkAdapter.generate_props := generate_props |}.

End VueAdapter.

Module SvelteAdapter.

Definition generate_styles (styles : dict) : string :=
  let css_rules :=
    map (fun '(prop, value) => "        " ++ prop ++ ": " ++ py_str value ++ ";") styles in
  join nl css_rules.

Definition generate_props (props : dict) : string :=
  let prop_list := map (fun '(name, type_info) => "export let " ++ name ++ ";") props in
  join (nl ++ "    ") prop_list.

(** The f-string of [generate_component], source lines 126 to 140. *)
Definition template (name props styles : string) (children : list string)
  : list (list chunk) :=
  [ [];
    [Lit "<script>"];
    [Lit "    "; Val props];
    [Lit "</script>"];
    [];
    [Lit ("<div class=" ++ dquote); Val (lower name); Lit (dquote ++ ">")];
    [Lit "    "; Val (join "" children)];
    [Lit "</div>"];
    [];
    [Lit "<style>"];
    [Lit "    ."; Val (lower name); Lit " "; Lit "{"];
    [Lit "        "; Val styles];
    [Lit "    "; Lit "}"];
    [Lit "</style>"];
    [] ].

Fixpoint generate_component (definition : ComponentDefinition) : result string :=
  match definition with
  | Component name props children styles _ =>
      let props := generate_props props in
      let styles := generate_styles styles in
      children <- mapM generate_component children ;;
      fstring (template name props styles children)
  end.

Definition adapter : FrameworkAdapter.t :=
  {| FrameworkAdapter.generate_component := generate_component;
     FrameworkAdapter.generate_styles := generate_styles;
     FrameworkAdapter.generate_props := generate_props |}.

End SvelteAdapter.

Module NextJSAdapter.

Definition generate_styles (styles : dict) : string :=
  let css_rules := map (fun '(prop, value) => "    " ++ prop ++ ": " ++ py_str value ++ ";") styles in
  join nl css_rules.

Definition generate_props (props : dict) : string :=
  let prop_list := map (fun '(name, type_info) => name) props in
  "{ " ++ join ", " prop_list ++ " }".

(** The f-string of [generate_component], source lines 163 to 179. *)
Definition template (name props styles : string) (children : list string)
  : list (list chunk) :=
  [ [];
    [Lit "'use client';"];
    [];
    [Lit "import styled from 'styled-components';"];
    [];
    [Lit "const Styled"; Val name; Lit " = styled.div`"];
    [Lit "    "; Val styles];
    [Lit "`;"];
    [];
    [Lit "export default function "; Val name; Lit "("; Val props; Lit ") "; Lit "{"];
    [Lit "    return ("];
    [Lit "        <Styled"; Val name; Lit ">"];
    [Lit "            "; Lit "{"; Lit (dquote ++ dquote ++ ".join(children)"); Lit "}"];
    [Lit "        </Styled"; Val name; Lit ">"];
    [Lit "    );"];
    [Lit "}"];
    [] ].

Fixpoint generate_component (definition : ComponentDefinition) : result string :=
  match definition with
  | Component name props children styles _ =>
      let props := generate_props props in
      let styles := generate_styles styles in
      children <- mapM generate_component children ;;
      fstring (template name props styles children)
  end.

Definition adapter : FrameworkAdapter.t :=
  {| FrameworkAdapter.generate_component := generate_component;
     FrameworkAdapter.generate_styles := generate_styles;
     FrameworkAdapter.generate_props := generate_props |}.

End NextJSAdapter.

(** The [framework] argument of the generator: a member of [UIFramework], or
    any other value a caller passes. *)
Inductive target : Type :=
| Member (f : UIFramework)
| Other (v : json).

Definition hashable (v : json) : bool :=
  match v with
  | JArr _ | JObj _ => false
  | _ => true
  end.

Module UIGenerator.

(** [self.adapters], built by [__init__]. *)
Definition adapters : list (UIFramework * FrameworkAdapter.t) :=
  [ (REACT, ReactAdapter.adapter);
    (VUE, VueAdapter.adapter);
    (SVELTE, SvelteAdapter.adapter);
    (NEXTJS, NextJSAdapter.adapter) ].

Fixpoint lookup (f : UIFramework) (l : list (UIFramework * FrameworkAdapter.t))
  : option FrameworkAdapter.t :=
  match l with
  | [] => None
  | (k, a) :: l' => if UIFramework_eqb k f then Some a else lookup f l'
  end.

(** [self.adapters.get(framework)]: no member of the enumeration equals a
    value of another type; a list or a dict cannot be hashed. *)
Definition adapters_get (framework : target) : result (option FrameworkAdapter.t) :=
  match framework with
  | Member f => Ok (lookup f adapters)
  | Other v => if hashable v then Ok None else Raise TypeError
  end.

Definition target_str (framework : target) : string :=
  match framework with
  | Member REACT => "UIFramework.REACT"
  | Member VUE => "UIFramework.VUE"
  | Member SVELTE => "UIFramework.SVELTE"
  | Member NEXTJS => "UIFramework.NEXTJS"
  | Other v => py_str v
  end.

Definition generate_component (definition : ComponentDefinition) (framework : target)
  : result string :=
  adapter <- adapters_get framework ;;
  match adapter with
  | None => Raise (ValueError ("Unsupported framework: " ++ target_str framework))
  | Some adapter => FrameworkAdapter.generate_component adapter definition
  end.

End UIGenerator.

(* ================================================================== *)
(** * Dictionaries *)
(* ================================================================== *)

Section dicts.
Variable V : Type.

(** [d.get(key)] *)
Fixpoint dict_get (key : string) (d : list (string * V)) : option V :=
  match d with
  | [] => None
  | (k, v) :: d' => if String.eqb k key then Some v else dict_get key d'
  end.

(** [d[key] = value]: a key already present keeps its place. *)
Fixpoint dict_set (key : string) (value : V) (d : list (string * V)) : list (string * V) :=
  match d with
  | [] => [(key, value)]
  | (k, v) :: d' =>
      if String.eqb k key then (k, value) :: d' else (k, v) :: dict_set key value d'
  end.

(** [del d[key]] *)
Fixpoint dict_del (key : string) (d : list (string * V)) : list (string * V) :=
  match d with
  | [] => []
  | (k, v) :: d' => if String.eqb k key then d' else (k, v) :: dict_del key d'
  end.

Definition keys (d : list (string * V)) : list string := map fst d.
End dicts.

Definition mem (s : string) (l : list string) : bool := existsb (String.eqb s) l.

(** [v[key]] *)
Definition getitem (v : json) (key : string) : result json :=
  match v with
  | JObj d =>
      match dict_get key d with
      | Some x => Ok x
      | None => Raise (KeyError key)
      end
  | _ => Raise TypeError
  end.

(** [v.items()] *)
Definition items (v : json) : result dict :=
  match v with
  | JObj d => Ok d
  | _ => Raise AttributeError
  end.

(** [for x in v]: a list yields its elements, a [str] its characters, a
    dict its keys; nothing else can be iterated. *)
Fixpoint chars (s : string) : list json :=
  match s with
  | EmptyString => []
  | String c s' => JStr (String c "") :: chars s'
  end.

Definition iterate (v : json) : result (list json) :=
  match v with
  | JArr l => Ok l
  | JStr s => Ok (chars s)
  | JObj d => Ok (map (fun p => JStr (fst p)) d)
  | _ => Raise TypeError
  end.

(** The keyword arguments of a dataclass call that unpacks [v] with a double
    star: [v] must be a mapping and name no field the class lacks. *)
Definition keywords (fields : list string) (v : json) : result dict :=
  match v with
  | JObj d => if forallb (fun k => mem k fields) (keys d) then Ok d else Raise TypeError
  | _ => Raise TypeError
  end.

(** One field of the call: a field without a default must be given. *)
Definition kwarg (d : dict) (field : string) : result json :=
  match dict_get field d with
  | Some x => Ok x
  | None => Raise TypeError
  end.

(* ================================================================== *)
(** * theme_manager.py: the data model *)
(* ================================================================== *)

Inductive ColorScheme : Type := LIGHT | DARK.

Definition ColorScheme_eqb (a b : ColorScheme) : bool :=
  match a, b with
  | LIGHT, LIGHT | DARK, DARK => true
  | _, _ => false
  end.

(** [scheme.value] *)
Definition ColorScheme_value (scheme : ColorScheme) : string :=
  match scheme with
  | LIGHT => "light"
  | DARK => "dark"
  end.

(** [ColorScheme(value)] *)
Definition ColorScheme_of (value : string) : result ColorScheme :=
  if String.eqb value "light" then Ok LIGHT
  else if String.eqb value "dark" then Ok DARK
  else Raise (EnumValueError value).

Record ColorPalette : Type := {
  primary : json;
  secondary : json;
  accent : json;
  background : json;
  text : json;
  error : json;
  warning : json;
  success : json;
  info : json
}.

Definition ColorPalette_fields : list string :=
  ["primary"; "secondary"; "accent"; "background"; "text"; "error"; "warning"; "success"; "info"].

(** [ColorPalette] called with [colors] unpacked as keyword arguments. *)
Definition ColorPalette_new (colors : json) : result ColorPalette :=
  kw <- keywords ColorPalette_fields colors ;;
  primary <- kwarg kw "primary" ;;
  secondary <- kwarg kw "secondary" ;;
  accent <- kwarg kw "accent" ;;
  background <- kwarg kw "background" ;;
  text <- kwarg kw "text" ;;
  error <- kwarg kw "error" ;;
  warning <- kwarg kw "warning" ;;
  success <- kwarg kw "success" ;;
  info <- kwarg kw "info" ;;
  Ok {| primary := primary; secondary := secondary; accent := accent;
        background := background; text := text; error := error;
        warning := warning; success := success; info := info |}.

(** [palette.__dict__.items()] *)
Definition ColorPalette_dict (p : ColorPalette) : dict :=
  [ ("primary", primary p); ("secondary", secondary p); ("accent", accent p);
    ("background", background p); ("text", text p); ("error", error p);
    ("warning", warning p); ("success", success p); ("info", info p) ].

Record Typography : Type := {
  font_family : json;
  font_size_base : json;
  line_height_base : json;
  headings : json;
  body : json
}.

Record Spacing : Type := {
  unit : json;
  scale : json;
  spacing_custom : json
}.

Record Breakpoints : Type := {
  xs : json;
  sm : json;
  md : json;
  lg : json;
  xl : json;
  xxl : json
}.

Definition Breakpoints_fields : list string := ["xs"; "sm"; "md"; "lg"; "xl"; "xxl"].

(** [Breakpoints] called with [v] unpacked as keyword arguments. *)
Definition Breakpoints_new (v : json) : result Breakpoints :=
  kw <- keywords Breakpoints_fields v ;;
  xs <- kwarg kw "xs" ;;
  sm <- kwarg kw "sm" ;;
  md <- kwarg kw "md" ;;
  lg <- kwarg kw "lg" ;;
  xl <- kwarg kw "xl" ;;
  xxl <- kwarg kw "xxl" ;;
  Ok {| xs := xs; sm := sm; md := md; lg := lg; xl := xl; xxl := xxl |}.

(** [breakpoints.__dict__.items()] *)
Definition Breakpoints_dict (b : Breakpoints) : dict :=
  [ ("xs", xs b); ("sm", sm b); ("md", md b); ("lg", lg b); ("xl", xl b); ("xxl", xxl b) ].

Record Theme : Type := {
  name : json;
  color_schemes : list (ColorScheme * ColorPalette);
  typography : Typography;
  spacing : Spacing;
  breakpoints : Breakpoints;
  custom : json
}.

(** [d[scheme] = palette] on a dict keyed by [ColorScheme]. *)
Fixpoint scheme_set (scheme : ColorScheme) (palette : ColorPalette)
  (d : list (ColorScheme * ColorPalette)) : list (ColorScheme * ColorPalette) :=
  match d with
  | [] => [(scheme, palette)]
  | (k, v) :: d' =>
      if ColorScheme_eqb k scheme then (k, palette) :: d' else (k, v) :: scheme_set scheme palette d'
  end.

(* ================================================================== *)
(** * The json module: [json.dump(v, f, indent=2)] and [json.load(f)] *)
(* ================================================================== *)

(** The values are those of [json]: integers and no floats, strings of
    characters up to 255.  Where a text holds something else that
    [json.load] reads, [json_load] says so with [Unmodelled].  The limits of
    the interpreter (the depth of recursion, the number of digits of an
    integer) are left out. *)

(** [encode_basestring_ascii]: the characters from the space to the tilde
    stand for themselves, except the double quote and the backslash. *)
Definition encode_char (c : ascii) : string :=
  let n := nat_of_ascii c in
  if (n =? 34)%nat then backslash ++ dquote
  else if (n =? 92)%nat then backslash ++ backslash
  else if (n =? 10)%nat then backslash ++ "n"
  else if (n =? 13)%nat then backslash ++ "r"
  else if (n =? 9)%nat then backslash ++ "t"
  else if (n =? 12)%nat then backslash ++ "f"
  else if (n =? 8)%nat then backslash ++ "b"
  else if (32 <=? n)%nat && (n <=? 126)%nat then String c ""
  else backslash ++ "u00" ++ hex2 n.

Fixpoint encode_body (s : string) : string :=
  match s with
  | EmptyString => ""
  | String c s' => encode_char c ++ encode_body s'
  end.

Definition encode_basestring_ascii (s : string) : string :=
  dquote ++ encode_body s ++ dquote.

Fixpoint spaces (n : nat) : string :=
  match n with
  | 0 => ""
  | S n' => " " ++ spaces n'
  end.

(** [_iterencode] with [indent=2] at the given nesting level; the item
    separator is the comma, the key separator a colon and a space. *)
Fixpoint iterencode (level : nat) (v : json) : string :=
  let newline_indent := nl ++ spaces (2 * S level) in
  match v with
  | JNull => "null"
  | JBool true => "true"
  | JBool false => "false"
  | JNum z => str_int z
  | JStr s => encode_basestring_ascii s
  | JArr [] => "[]"
  | JArr l =>
      "[" ++ newline_indent
          ++ join ("," ++ newline_indent) (map (iterencode (S level)) l)
          ++ nl ++ spaces (2 * level) ++ "]"
  | JObj [] => "{}"
  | JObj d =>
      "{" ++ newline_indent
          ++ join ("," ++ newline_indent)
               (map (fun p => encode_basestring_ascii (fst p) ++ ": " ++ iterencode (S level) (snd p)) d)
          ++ nl ++ spaces (2 * level) ++ "}"
  end.

Definition json_dump (v : json) : string := iterencode 0 v.

(** The decoder. *)
Definition is_ws (c : ascii) : bool :=
  let n := nat_of_ascii c in
  (n =? 32)%nat || (n =? 9)%nat || (n =? 10)%nat || (n =? 13)%nat.

Fixpoint skip_ws (s : string) : string :=
  match s with
  | EmptyString => EmptyString
  | String c s' => if is_ws c then skip_ws s' else s
  end.

Definition hex_value (c : ascii) : option nat :=
  let n := nat_of_ascii c in
  if (48 <=? n)%nat && (n <=? 57)%nat then Some (n - 48)
  else if (97 <=? n)%nat && (n <=? 102)%nat then Some (n - 87)
  else if (65 <=? n)%nat && (n <=? 70)%nat then Some (n - 55)
  else None.

(** The four hexadecimal digits of a [\u] escape. *)
Definition decode_uXXXX (a b c d : ascii) : option nat :=
  match hex_value a, hex_value b, hex_value c, hex_value d with
  | Some x, Some y, Some z, Some w => Some (((x * 16 + y) * 16 + z) * 16 + w)
  | _, _, _, _ => None
  end.

(** The character a backslash escape other than [\u] stands for. *)
Definition unescape (c : ascii) : option ascii :=
  let n := nat_of_ascii c in
  if (n =? 34)%nat then Some c
  else if (n =? 92)%nat then Some c
  else if (n =? 47)%nat then Some c
  else if (n =? 98)%nat then Some (ascii_of_nat 8)
  else if (n =? 102)%nat then Some (ascii_of_nat 12)
  else if (n =? 110)%nat then Some (ascii_of_nat 10)
  else if (n =? 114)%nat then Some (ascii_of_nat 13)
  else if (n =? 116)%nat then Some (ascii_of_nat 9)
  else None.

(** [scanstring], strict, from the character after the opening quote: the
    text and what follows the closing quote.  An escape for a code point
    above 255 is read by [json.load] and gives a character the model does
    not hold. *)
Fixpoint scanstring (s : string) : result (string * string) :=
  match s with
  | EmptyString => Raise JSONDecodeError
  | String c rest =>
      let n := nat_of_ascii c in
      if (n =? 34)%nat then Ok ("", rest)
      else if (n =? 92)%nat then
        match rest with
        | EmptyString => Raise JSONDecodeError
        | String e rest1 =>
            if (nat_of_ascii e =? 117)%nat then
              match rest1 with
              | String h1 (String h2 (String h3 (String h4 rest2))) =>
                  match decode_uXXXX h1 h2 h3 h4 with
                  | Some u =>
                      if (u <? 256)%nat then
                        r <- scanstring rest2 ;;
                        Ok (String (ascii_of_nat u) (fst r), snd r)
                      else Raise Unmodelled
                  | None => Raise JSONDecodeError
                  end
              | _ => Raise JSONDecodeError
              end
            else
              match unescape e with
              | Some ch => r <- scanstring rest1 ;; Ok (String ch (fst r), snd r)
              | None => Raise JSONDecodeError
              end
        end
      else if (n <? 32)%nat then Raise JSONDecodeError
      else r <- scanstring rest ;; Ok (String c (fst r), snd r)
  end.

Definition digit_value (c : ascii) : option nat :=
  let n := nat_of_ascii c in
  if (48 <=? n)%nat && (n <=? 57)%nat then Some (n - 48) else None.

Definition digit_cons (n : nat) (d : Decimal.uint) : Decimal.uint :=
  match n with
  | 0 => Decimal.D0 d | 1 => Decimal.D1 d | 2 => Decimal.D2 d | 3 => Decimal.D3 d
  | 4 => Decimal.D4 d | 5 => Decimal.D5 d | 6 => Decimal.D6 d | 7 => Decimal.D7 d
  | 8 => Decimal.D8 d | _ => Decimal.D9 d
  end.

(** The longest run of decimal digits at the head of [s]. *)
Fixpoint scan_digits (s : string) : Decimal.uint * string :=
  match s with
  | EmptyString => (Decimal.Nil, EmptyString)
  | String c s' =>
      match digit_value c with
      | Some n => let r := scan_digits s' in (digit_cons n (fst r), snd r)
      | None => (Decimal.Nil, s)
      end
  end.

Definition starts_fraction (s : string) : bool :=
  match s with
  | String c _ =>
      let n := nat_of_ascii c in (n =? 46)%nat || (n =? 101)%nat || (n =? 69)%nat
  | EmptyString => false
  end.

Definition starts_digit (s : string) : bool :=
  match s with
  | String c _ => match digit_value c with Some _ => true | None => false end
  | EmptyString => false
  end.

(** What follows the digits of an integer makes the number a float: a point
    and a digit, or an exponent, that is [e] or [E], a sign or none, and a
    digit. *)
Definition float_tail (s : string) : bool :=
  match s with
  | String c rest =>
      let n := nat_of_ascii c in
      if (n =? 46)%nat then starts_digit rest
      else if (n =? 101)%nat || (n =? 69)%nat then
        match rest with
        | String c1 rest1 =>
            let n1 := nat_of_ascii c1 in
            if (n1 =? 43)%nat || (n1 =? 45)%nat then starts_digit rest1 else starts_digit rest
        | EmptyString => false
        end
      else false
  | EmptyString => false
  end.

(** The digits of a number, after its sign.  After a leading zero the
    number is over, and a digit there fits nowhere in the text.  When a
    fraction or an exponent follows, the number is a float, which
    [json.load] reads and the model does not hold. *)
Definition scan_natural (s : string) : result (Decimal.uint * string) :=
  match scan_digits s with
  | (Decimal.Nil, _) => Raise JSONDecodeError
  | (Decimal.D0 Decimal.Nil, rest) =>
      if starts_fraction rest then
        if float_tail rest then Raise Unmodelled else Ok (Decimal.D0 Decimal.Nil, rest)
      else Ok (Decimal.D0 Decimal.Nil, rest)
  | (Decimal.D0 _, _) => Raise JSONDecodeError
  | (d, rest) =>
      if starts_fraction rest then
        if float_tail rest then Raise Unmodelled else Ok (d, rest)
      else Ok (d, rest)
  end.

(** A number, or one of the constants [NaN], [Infinity] and [-Infinity],
    which [json.load] reads as floats. *)
Definition scan_number (s : string) : result (json * string) :=
  match s with
  | String "-" s' =>
      if String.prefix "Infinity" s' then Raise Unmodelled
      else r <- scan_natural s' ;; Ok (JNum (Z.of_int (Decimal.Neg (fst r))), snd r)
  | _ =>
      if String.prefix "NaN" s || String.prefix "Infinity" s then Raise Unmodelled
      else r <- scan_natural s ;; Ok (JNum (Z.of_int (Decimal.Pos (fst r))), snd r)
  end.

(** [s] without the prefix [p], when it starts with it. *)
Fixpoint strip_prefix (p s : string) : option string :=
  match p, s with
  | EmptyString, _ => Some s
  | String a p', String b s' => if Ascii.eqb a b then strip_prefix p' s' else None
  | String _ _, EmptyString => None
  end.

(** [dict(pairs)] *)
Definition dict_of_pairs (pairs : list (string * json)) : dict :=
  fold_left (fun d p => dict_set (fst p) (snd p) d) pairs [].

(** [scan_once], [JSONArray] after the first element is due and
    [JSONObject] after the opening quote of a key.  The fuel bounds the
    number of nested calls; [json_load] gives more than the text is long. *)
Fixpoint scan_once (fuel : nat) (s : string) : result (json * string) :=
  match fuel with
  | 0 => Raise JSONDecodeError
  | S fuel' =>
      match s with
      | EmptyString => Raise JSONDecodeError
      | String c rest =>
          let n := nat_of_ascii c in
          if (n =? 34)%nat then r <- scanstring rest ;; Ok (JStr (fst r), snd r)
          else if (n =? 123)%nat then
            match skip_ws rest with
            | String "}" rest1 => Ok (JObj [], rest1)
            | String c1 rest1 =>
                if (nat_of_ascii c1 =? 34)%nat then
                  r <- scan_members fuel' rest1 ;; Ok (JObj (dict_of_pairs (fst r)), snd r)
                else Raise JSONDecodeError
            | EmptyString => Raise JSONDecodeError
            end
          else if (n =? 91)%nat then
            match skip_ws rest with
            | String "]" rest1 => Ok (JArr [], rest1)
            | rest1 => r <- scan_elements fuel' rest1 ;; Ok (JArr (fst r), snd r)
            end
          else
            match strip_prefix "null" s, strip_prefix "true" s, strip_prefix "false" s with
            | Some rest1, _, _ => Ok (JNull, rest1)
            | _, Some rest1, _ => Ok (JBool true, rest1)
            | _, _, Some rest1 => Ok (JBool false, rest1)
            | None, None, None => scan_number s
            end
      end
  end
with scan_elements (fuel : nat) (s : string) : result (list json * string) :=
  match fuel with
  | 0 => Raise JSONDecodeError
  | S fuel' =>
      r <- scan_once fuel' s ;;
      match skip_ws (snd r) with
      | String "]" rest => Ok ([fst r], rest)
      | String "," rest =>
          r' <- scan_elements fuel' (skip_ws rest) ;; Ok (fst r :: fst r', snd r')
      | _ => Raise JSONDecodeError
      end
  end
with scan_members (fuel : nat) (s : string) : result (list (string * json) * string) :=
  match fuel with
  | 0 => Raise JSONDecodeError
  | S fuel' =>
      k <- scanstring s ;;
      match skip_ws (snd k) with
      | String ":" rest =>
          r <- scan_once fuel' (skip_ws rest) ;;
          match skip_ws (snd r) with
          | String "}" rest1 => Ok ([(fst k, fst r)], rest1)
          | String "," rest1 =>
              match skip_ws rest1 with
              | String c rest2 =>
                  if (nat_of_ascii c =? 34)%nat then
                    r' <- scan_members fuel' rest2 ;; Ok ((fst k, fst r) :: fst r', snd r')
                  else Raise JSONDecodeError
              | EmptyString => Raise JSONDecodeError
              end
          | _ => Raise JSONDecodeError
          end
      | _ => Raise JSONDecodeError
      end
  end.

(** [json.load]: one value between white space, and nothing after it. *)
Definition json_load (content : string) : result json :=
  r <- scan_once (S (String.length content)) (skip_ws content) ;;
  match skip_ws (snd r) with
  | EmptyString => Ok (fst r)
  | _ => Raise JSONDecodeError
  end.

(* ================================================================== *)
(** * theme_manager.py: ThemeManager *)
(* ================================================================== *)

(** [open(themes_dir / f"{stem}.json", "w")]: the file of the directory
    that is opened.  The directory holds regular files only, so that a path
    cannot go down from it: a component before a slash that is empty or a
    point stays in the directory, any other name is a regular file or is
    not there, and two points leave the directory, as a path that starts
    with a slash does, for a place the model does not hold.  A null
    character is refused by [open] before the path is looked at.  The limits
    a file system puts on the length of a name are left out. *)
Fixpoint has_char (c : ascii) (s : string) : bool :=
  match s with
  | EmptyString => false
  | String a s' => Ascii.eqb a c || has_char c s'
  end.

Fixpoint walk (dir : list (string * string)) (component stem : string) : result string :=
  match stem with
  | EmptyString => Ok (component ++ ".json")
  | String c stem' =>
      if Ascii.eqb c "/" then
        if String.eqb component "" || String.eqb component "." then walk dir "" stem'
        else if String.eqb component ".." then Raise Unmodelled
        else match dict_get component dir with
             | Some _ => Raise NotADirectoryError
             | None => Raise FileNotFoundError
             end
      else walk dir (component ++ String c "") stem'
  end.

(** [themes_dir / p] is [p] when [p] starts with a slash. *)
Definition absolute (p : string) : bool :=
  match p with
  | String c _ => Ascii.eqb c "/"
  | EmptyString => false
  end.

Definition open_w (dir : list (string * string)) (stem : string) : result string :=
  if has_char Ascii.zero stem then Raise (ValueError "embedded null byte")
  else if absolute stem then Raise Unmodelled
  else walk dir "" stem.

(** A name that is a file name as it stands: no slash and no null
    character. *)
Definition plain_name (n : string) : bool :=
  negb (has_char "/" n) && negb (has_char Ascii.zero n).

Module ThemeManager.

(** The manager: the files of [themes_dir], by file name, and the index
    [self.themes].  The directory is flat and reading, writing and removing
    a file that is there does not fail. *)
Record t : Type := {
  themes_dir : list (string * string);
  themes : list (json * Theme)
}.

(** Equality of two keys of [self.themes]: [True] and [1], and [False] and
    [0], are one key. *)
Definition key_eqb (a b : json) : bool :=
  match a, b with
  | JNull, JNull => true
  | JBool x, JBool y => Bool.eqb x y
  | JNum x, JNum y => Z.eqb x y
  | JStr x, JStr y => String.eqb x y
  | JBool x, JNum y | JNum y, JBool x => Z.eqb y (if x then 1 else 0)
  | _, _ => false
  end.

Fixpoint themes_get (key : json) (d : list (json * Theme)) : option Theme :=
  match d with
  | [] => None
  | (k, v) :: d' => if key_eqb k key then Some v else themes_get key d'
  end.

Fixpoint themes_set (key : json) (value : Theme) (d : list (json * Theme))
  : list (json * Theme) :=
  match d with
  | [] => [(key, value)]
  | (k, v) :: d' =>
      if key_eqb k key then (k, value) :: d' else (k, v) :: themes_set key value d'
  end.

Fixpoint themes_del (key : json) (d : list (json * Theme)) : list (json * Theme) :=
  match d with
  | [] => []
  | (k, v) :: d' => if key_eqb k key then d' else (k, v) :: themes_del key d'
  end.

(** One round of the dict comprehension of [_parse_theme]: the key is
    built before the value. *)
Definition add_scheme (acc : result (list (ColorScheme * ColorPalette))) (item : string * json)
  : result (list (ColorScheme * ColorPalette)) :=
  let '(scheme, colors) := item in
  d <- acc ;;
  scheme <- ColorScheme_of scheme ;;
  palette <- ColorPalette_new colors ;;
  Ok (scheme_set scheme palette d).

Definition _parse_theme (theme_data : dict) : result Theme :=
  let theme_data := JObj theme_data in
  schemes <- getitem theme_data "color_schemes" ;;
  schemes <- items schemes ;;
  color_schemes <- fold_left add_scheme schemes (Ok []) ;;
  font_family <- (t <- getitem theme_data "typography" ;; getitem t "font_family") ;;
  font_size_base <- (t <- getitem theme_data "typography" ;; getitem t "font_size_base") ;;
  line_height_base <- (t <- getitem theme_data "typography" ;; getitem t "line_height_base") ;;
  headings <- (t <- getitem theme_data "typography" ;; getitem t "headings") ;;
  body <- (t <- getitem theme_data "typography" ;; getitem t "body") ;;
  let typography :=
    {| font_family := font_family; font_size_base := font_size_base;
       line_height_base := line_height_base; headings := headings; body := body |} in
  unit <- (s <- getitem theme_data "spacing" ;; getitem s "unit") ;;
  scale <- (s <- getitem theme_data "spacing" ;; getitem s "scale") ;;
  custom <- (s <- getitem theme_data "spacing" ;; getitem s "custom") ;;
  let spacing := {| unit := unit; scale := scale; spacing_custom := custom |} in
  breakpoints <- (b <- getitem theme_data "breakpoints" ;; Breakpoints_new b) ;;
  name <- getitem theme_data "name" ;;
  Ok {| name := name;
        color_schemes := color_schemes;
        typography := typography;
        spacing := spacing;
        breakpoints := breakpoints;
        custom := match theme_data with
                  | JObj d => match dict_get "custom" d with Some c => c | None => JObj [] end
                  | _ => JObj []
                  end |}.

(** [self.themes_dir.glob("*.json")] *)
Fixpoint ends_with (suffix s : string) : bool :=
  if String.eqb s suffix then true
  else match s with
       | EmptyString => false
       | String _ s' => ends_with suffix s'
       end.

Definition glob_json (dir : list (string * string)) : list (string * string) :=
  filter (fun f => ends_with ".json" (fst f)) dir.

(** [_load_themes]: the index built from the files, in the order the
    directory lists them. *)
Definition _load_themes (dir : list (string * string)) : result (list (json * Theme)) :=
  fold_left
    (fun acc theme_file =>
       themes <- acc ;;
       theme_data <- json_load (snd theme_file) ;;
       theme <- match theme_data with
                | JObj d => _parse_theme d
                | _ => Raise TypeError
                end ;;
       name <- getitem theme_data "name" ;;
       if hashable name then Ok (themes_set name theme themes) else Raise TypeError)
    (glob_json dir) (Ok []).

(** [ThemeManager(themes_dir)] *)
Definition __init__ (dir : list (string * string)) : result t :=
  themes <- _load_themes dir ;;
  Ok {| themes_dir := dir; themes := themes |}.

(** [create_theme]: the outcome and the manager after the call.  The record
    is written before the index is assigned to. *)
Definition create_theme (self : t) (theme_data : dict) : result Theme * t :=
  match _parse_theme theme_data with
  | Raise e => (Raise e, self)
  | Ok theme =>
      match open_w (themes_dir self) (py_str (name theme)) with
      | Raise e => (Raise e, self)
      | Ok theme_file =>
          let self1 :=
            {| themes_dir := dict_set theme_file (json_dump (JObj theme_data)) (themes_dir self);
               themes := themes self |} in
          if hashable (name theme) then
            (Ok theme,
             {| themes_dir := themes_dir self1;
                themes := themes_set (name theme) theme (themes self1) |})
          else (Raise TypeError, self1)
      end
  end.

Definition get_theme (self : t) (name : string) : option Theme :=
  themes_get (JStr name) (themes self).

Definition not_found (name : string) : exn :=
  ValueError ("Theme '" ++ name ++ "' not found").

Definition update_theme (self : t) (name : string) (theme_data : dict) : result Theme * t :=
  match themes_get (JStr name) (themes self) with
  | None => (Raise (not_found name), self)
  | Some _ =>
      match _parse_theme theme_data with
      | Raise e => (Raise e, self)
      | Ok theme =>
          match open_w (themes_dir self) name with
          | Raise e => (Raise e, self)
          | Ok theme_file =>
              (Ok theme,
               {| themes_dir :=
                    dict_set theme_file (json_dump (JObj theme_data)) (themes_dir self);
                  themes := themes_set (JStr name) theme (themes self) |})
          end
      end
  end.

Definition delete_theme (self : t) (name : string) : result Datatypes.unit * t :=
  match themes_get (JStr name) (themes self) with
  | None => (Raise (not_found name), self)
  | Some _ =>
      let theme_file := name ++ ".json" in
      match dict_get theme_file (themes_dir self) with
      | None => (Raise FileNotFoundError, self)
      | Some _ =>
          (Ok tt,
           {| themes_dir := dict_del theme_file (themes_dir self);
              themes := themes_del (JStr name) (themes self) |})
      end
  end.

(** The list [css] of [_export_css] before it is joined. *)
Definition _export_css_lines (theme : Theme) : result (list string) :=
  let colors :=
    flat_map
      (fun '(scheme, palette) =>
         map (fun '(color_name, color_value) =>
                "  --color-" ++ ColorScheme_value scheme ++ "-" ++ color_name ++ ": "
                  ++ py_str color_value ++ ";")
             (ColorPalette_dict palette))
      (color_schemes theme) in
  let fonts :=
    [ "  --font-family: " ++ py_str (font_family (typography theme)) ++ ";";
      "  --font-size-base: " ++ py_str (font_size_base (typography theme)) ++ ";";
      "  --line-height-base: " ++ py_str (line_height_base (typography theme)) ++ ";" ] in
  hs <- items (headings (typography theme)) ;;
  heading_lines <-
    mapM (fun '(heading, props) =>
            props <- items props ;;
            Ok (map (fun '(prop_name, prop_value) =>
                       "  --typography-" ++ heading ++ "-" ++ prop_name ++ ": "
                         ++ py_str prop_value ++ ";")
                    props))
         hs ;;
  let spacing_unit := "  --spacing-unit: " ++ py_str (unit (spacing theme)) ++ ";" in
  values <- iterate (scale (spacing theme)) ;;
  let spacing_lines :=
    map (fun '(i, value) => "  --spacing-" ++ str_int (Z.of_nat i) ++ ": " ++ py_str value ++ ";")
        (combine (seq 0 (length values)) values) in
  let breakpoint_lines :=
    map (fun '(breakpoint, value) => "  --breakpoint-" ++ breakpoint ++ ": " ++ py_str value ++ ";")
        (Breakpoints_dict (breakpoints theme)) in
  Ok ([":root {"] ++ colors ++ fonts ++ concat heading_lines ++ [spacing_unit]
        ++ spacing_lines ++ breakpoint_lines ++ ["}"])%list.

Definition _export_css (theme : Theme) : result string :=
  css <- _export_css_lines theme ;; Ok (join nl css).

(** The list [scss] of [_export_scss] before it is joined. *)
Definition _export_scss_lines (theme : Theme) : result (list string) :=
  let colors :=
    flat_map
      (fun '(scheme, palette) =>
         map (fun '(color_name, color_value) =>
                "$color-" ++ ColorScheme_value scheme ++ "-" ++ color_name ++ ": "
                  ++ py_str color_value ++ ";")
             (ColorPalette_dict palette))
      (color_schemes theme) in
  let fonts :=
    [ "$font-family: " ++ py_str (font_family (typography theme)) ++ ";";
      "$font-size-base: " ++ py_str (font_size_base (typography theme)) ++ ";";
      "$line-height-base: " ++ py_str (line_height_base (typography theme)) ++ ";" ] in
  hs <- items (headings (typography theme)) ;;
  heading_lines <-
    mapM (fun '(heading, props) =>
            props <- items props ;;
            let opening := "  " ++ heading ++ ": (" in
            let entries :=
              map (fun '(prop_name, prop_value) =>
                     "    " ++ prop_name ++ ": " ++ py_str prop_value ++ ",")
                  props in
            Ok ([opening] ++ entries ++ ["  ),"])%list)
         hs ;;
  let spacing_unit := "$spacing-unit: " ++ py_str (unit (spacing theme)) ++ ";" in
  values <- iterate (scale (spacing theme)) ;;
  let spacing_lines :=
    map (fun '(i, value) => "  " ++ str_int (Z.of_nat i) ++ ": " ++ py_str value ++ ",")
        (combine (seq 0 (length values)) values) in
  let breakpoint_lines :=
    map (fun '(breakpoint, value) => "  " ++ breakpoint ++ ": " ++ py_str value ++ ",")
        (Breakpoints_dict (breakpoints theme)) in
  Ok (colors ++ fonts ++ ["$typography: ("] ++ concat heading_lines ++ [");"]
        ++ [spacing_unit] ++ ["$spacing: ("] ++ spacing_lines ++ [");"]
        ++ ["$breakpoints: ("] ++ breakpoint_lines ++ [");"])%list.

Definition _export_scss (theme : Theme) : result string :=
  scss <- _export_scss_lines theme ;; Ok (join nl scss).

Definition unsupported_format (format : string) : exn :=
  ValueError ("Unsupported format: " ++ format).

Definition export_theme (self : t) (name : string) (format : string) : result string :=
  match get_theme self name with
  | None => Raise (not_found name)
  | Some theme =>
      if String.eqb format "css" then _export_css theme
      else if String.eqb format "scss" then _export_scss theme
      else Raise (unsupported_format format)
  end.

End ThemeManager.

(* ================================================================== *)
(** * Notions of the design document *)
(* ================================================================== *)

(** The exceptions [_parse_theme] can raise: the document's
    ValidationFailure. *)
Definition validation_error (e : exn) : Prop :=
  match e with
  | KeyError _ | TypeError | AttributeError | EnumValueError _ => True
  | _ => False
  end.

Definition ValidationFailure (r : result Theme) : Prop :=
  exists e, r = Raise e /\ validation_error e.

(** The value a payload holds under a path of keys, if every key is there. *)
Fixpoint lookup_path (v : json) (path : list string) : option json :=
  match path with
  | [] => Some v
  | key :: path' =>
      match v with
      | JObj d =>
          match dict_get key d with
          | Some x => lookup_path x path'
          | None => None
          end
      | _ => None
      end
  end.

(** The keys [_parse_theme] subscripts. *)
Definition required_paths : list (list string) :=
  [ ["name"];
    ["color_schemes"];
    ["typography"];
    ["typography"; "font_family"];
    ["typography"; "font_size_base"];
    ["typography"; "line_height_base"];
    ["typography"; "headings"];
    ["typography"; "body"];
    ["spacing"];
    ["spacing"; "unit"];
    ["spacing"; "scale"];
    ["spacing"; "custom"];
    ["breakpoints"] ].

(** A mapping whose keys are exactly the given names. *)
Definition supplies_exactly (fields : list string) (v : json) : bool :=
  match v with
  | JObj d => forallb (fun k => mem k fields) (keys d) && forallb (fun f => mem f (keys d)) fields
  | _ => false
  end.

(** A line of an export that declares a value: a name, a colon and a space,
    a value, and a semicolon (a variable) or a comma (an entry of a map). *)
Definition is_entry (line : string) : bool :=
  contains ": " line && (ends_with_char ";" line || ends_with_char "," line).

Definition entries (lines : list string) : nat := length (filter is_entry lines).

(** A headings table as the dataclass declares it: a mapping from heading
    level to a mapping of style properties. *)
Definition headings_json (hs : list (string * dict)) : json :=
  JObj (map (fun h => (fst h, JObj (snd h))) hs).

Definition heading_entries (hs : list (string * dict)) : nat :=
  list_sum (map (fun h => length (snd h)) hs).

(** The index keys agree with the names of the themes they hold. *)
Definition index_keys_are_names (self : ThemeManager.t) : Prop :=
  Forall (fun p => fst p = name (snd p)) (ThemeManager.themes self).

(** The name a persisted record holds in its payload. *)
Definition record_name (content : string) : option json :=
  match json_load content with
  | Ok v => lookup_path v ["name"]
  | Raise _ => None
  end.

(** Every record is stored under the name its payload holds. *)
Definition record_keys_are_names (self : ThemeManager.t) : Prop :=
  Forall (fun f => exists n, record_name (snd f) = Some n /\ fst f = py_str n ++ ".json")
         (ThemeManager.themes_dir self).

(** Python dicts have no two equal keys. *)
Fixpoint unique_keys (v : json) : Prop :=
  match v with
  | JArr l => (fix all (l : list json) : Prop :=
                 match l with
                 | [] => True
                 | x :: l' => unique_keys x /\ all l'
                 end) l
  | JObj d => NoDup (keys d) /\
              (fix all (d : list (string * json)) : Prop :=
                 match d with
                 | [] => True
                 | p :: d' => unique_keys (snd p) /\ all d'
                 end) d
  | _ => True
  end.

(** Two calls with the same outcome: both return, or both raise the same
    exception. *)
Definition same_outcome {A B} (r1 : result A) (r2 : result B) : Prop :=
  match r1, r2 with
  | Ok _, Ok _ => True
  | Raise e1, Raise e2 => e1 = e2
  | _, _ => False
  end.

(* ================================================================== *)
(** * Sample data *)
(* ================================================================== *)

Definition Button : ComponentDefinition :=
  Component "Button" [("label", JStr "string")] [] [("color", JStr "red")] [].

Definition Title : ComponentDefinition := Component "Title" [] [] [] [].

Definition Card : ComponentDefinition := Component "Card" [] [Title] [] [].

Definition sample_palette : json :=
  JObj [ ("primary", JStr "#000"); ("secondary", JStr "#111"); ("accent", JStr "#222");
         ("background", JStr "#fff"); ("text", JStr "#333"); ("error", JStr "#f00");
         ("warning", JStr "#fa0"); ("success", JStr "#0f0"); ("info", JStr "#00f") ].

Definition sample_breakpoints : json :=
  JObj [ ("xs", JStr "0"); ("sm", JStr "576px"); ("md", JStr "768px");
         ("lg", JStr "992px"); ("xl", JStr "1200px"); ("xxl", JStr "1400px") ].

Definition payload (theme_name : string) (schemes breakpoints : json) : dict :=
  [ ("name", JStr theme_name);
    ("color_schemes", schemes);
    ("typography",
      JObj [ ("font_family", JStr "Arial"); ("font_size_base", JStr "16px");
             ("line_height_base", JStr "1.5");
             ("headings", JObj [("h1", JObj [("font-size", JStr "2rem"); ("font-weight", JNum 700)])]);
             ("body", JObj []) ]);
    ("spacing",
      JObj [ ("unit", JStr "px"); ("scale", JArr [JStr "4px"; JStr "8px"]); ("custom", JObj []) ]);
    ("breakpoints", breakpoints) ].

(** A payload that parses; it has no key custom. *)
Definition sample_payload (theme_name : string) : dict :=
  payload theme_name (JObj [("light", sample_palette)]) sample_breakpoints.

(** A palette without the slot info, and breakpoints with a seventh name. *)
Definition short_palette : json :=
  JObj [ ("primary", JStr "#000"); ("secondary", JStr "#111"); ("accent", JStr "#222");
         ("background", JStr "#fff"); ("text", JStr "#333"); ("error", JStr "#f00");
         ("warning", JStr "#fa0"); ("success", JStr "#0f0") ].

Definition long_breakpoints : json :=
  JObj [ ("xs", JStr "0"); ("sm", JStr "576px"); ("md", JStr "768px");
         ("lg", JStr "992px"); ("xl", JStr "1200px"); ("xxl", JStr "1400px");
         ("xxxl", JStr "1600px") ].

(** A manager on an empty directory, and after one [create_theme]. *)
Definition empty_manager : ThemeManager.t :=
  {| ThemeManager.themes_dir := []; ThemeManager.themes := [] |}.

Definition default_manager : ThemeManager.t :=
  snd (ThemeManager.create_theme empty_manager (sample_payload "default")).

(* ================================================================== *)
(** * Measures for the decoder *)
(* ================================================================== *)

(** Fuel that suffices for [scan_once] on the encoding of a value: one for
    the value, and for a list or a dict one more for each item. *)
Fixpoint need (v : json) : nat :=
  match v with
  | JArr l => S (list_sum (map (fun x => S (need x)) l))
  | JObj d => S (list_sum (map (fun p => S (need (snd p))) d))
  | _ => 1
  end.

(** Text that does not go on with a digit. *)
Definition stops_digits (rest : string) : Prop :=
  match rest with
  | EmptyString => True
  | String c _ => digit_value c = None
  end.

(** The characters a number starts with. *)
Definition number_start : list ascii :=
  ["0"; "1"; "2"; "3"; "4"; "5"; "6"; "7"; "8"; "9"; "-"]%char.

(** Text after which a number ends: not a digit, and no fraction or
    exponent. *)
Definition stops_number (rest : string) : Prop :=
  match rest with
  | EmptyString => True
  | String c _ => digit_value c = None /\ starts_fraction rest = false
  end.

(** What the encoder writes between the items of a list or a dict at a
    nesting level, and before its closing bracket. *)
Definition newline_indent (level : nat) : string := nl ++ spaces (2 * S level).
Definition item_separator (level : nat) : string := "," ++ newline_indent level.
Definition closing_indent (level : nat) : string := nl ++ spaces (2 * level).

(** One member of a dict, as the encoder writes it. *)
Definition encode_member (level : nat) (p : string * json) : string :=
  encode_basestring_ascii (fst p) ++ ": " ++ iterencode (S level) (snd p).

(** The items of a list from the first on, through the closing bracket,
    before [tail]. *)
Fixpoint elements_then (level : nat) (x : json) (l : list json) (tail : string) : string :=
  match l with
  | [] => iterencode (S level) x ++ nl ++ spaces (2 * level) ++ "]" ++ tail
  | y :: l' =>
      iterencode (S level) x ++ "," ++ nl ++ spaces (2 * S level) ++ elements_then level y l' tail
  end.

(** The members of a dict after the opening quote of the first key, through
    the closing brace, before [tail]. *)
Fixpoint members_then (level : nat) (p : string * json) (d : list (string * json))
  (tail : string) : string :=
  match d with
  | [] =>
      encode_body (fst p) ++ dquote ++ ": " ++ iterencode (S level) (snd p)
        ++ nl ++ spaces (2 * level) ++ "}" ++ tail
  | q :: d' =>
      encode_body (fst p) ++ dquote ++ ": " ++ iterencode (S level) (snd p)
        ++ "," ++ nl ++ spaces (2 * S level) ++ dquote ++ members_then level q d' tail
  end.

(** [scan_once] decodes the encoding of [v], whatever the level, with fuel
    enough, before text that ends a number. *)
Definition decodes (v : json) : Prop :=
  forall level fuel rest,
    need v <= fuel -> stops_number rest ->
    scan_once fuel (iterencode level v ++ rest) = Ok (v, rest).

(* ================================================================== *)
(** * framework_adapter.py: the project files *)
(* ================================================================== *)

(** The methods of [UIGenerator] that build the files of a project. *)
Module UIGeneratorFiles.

(** The dict [extensions] of [_get_extension]. *)
Definition extensions : list (UIFramework * string) :=
[ (REACT, "tsx"); (VUE, "vue"); (SVELTE, "svelte"); (NEXTJS, "tsx") ].

Fixpoint lookup (f : UIFramework) (l : list (UIFramework * string)) : option string :=
match l with
| [] => None
| (k, e) :: l' => if UIFramework_eqb k f then Some e else lookup f l'
end.

(** [extensions.get(framework, "tsx")] *)
Definition _get_extension (framework : target) : result string :=
match framework with
| Member f => Ok (match lookup f extensions with Some e => e | None => "tsx" end)
| Other v => if hashable v then Ok "tsx" else Raise TypeError
end.

(** The dict that [json.dumps] encodes for the React target. *)
Definition tsconfig : json :=
JObj
  [ ("compilerOptions",
      JObj [ ("target", JStr "es5");
             ("lib", JArr [JStr "dom"; JStr "dom.iterable"; JStr "esnext"]);
             ("allowJs", JBool true);
             ("skipLibCheck", JBool true);
             ("esModuleInterop", JBool true);
             ("allowSyntheticDefaultImports", JBool true);
             ("strict", JBool true);
             ("forceConsistentCasingInFileNames", JBool true);
             ("module", JStr "esnext");
             ("moduleResolution", JStr "node");
             ("resolveJsonModule", JBool true);
             ("isolatedModules", JBool true);
             ("noEmit", JBool true);
             ("jsx", JStr "react-jsx") ]);
    ("include", JArr [JStr "src"]);
    ("exclude", JArr [JStr "node_modules"]) ].

Definition vue_config : string :=
join nl
  [ "";
    "module.exports = {";
    "    configureWebpack: {";
    "        // Vue.js specific configuration";
    "    }";
    "}";
    "" ].

Definition svelte_config : string :=
join nl
  [ "";
    "import adapter from '@sveltejs/adapter-auto';";
    "";
    "export default {";
    "    kit: {";
    "        adapter: adapter()";
    "    }";
    "};";
    "" ].

Definition next_config : string :=
join nl
  [ "";
    "/** @type {import('next').NextConfig} */";
    "const nextConfig = {";
    "    reactStrictMode: true,";
    "    compiler: {";
    "        styledComponents: true";
    "    }";
    "}";
    "";
    "module.exports = nextConfig";
    "" ].

(** [_generate_config_files]: a value that is no member of the enumeration
    equals none of them. *)
Definition _generate_config_files (framework : target) : list (string * string) :=
match framework with
| Member REACT => [("tsconfig.json", json_dump tsconfig)]
| Member VUE => [("vue.config.js", vue_config)]
| Member SVELTE => [("svelte.config.js", svelte_config)]
| Member NEXTJS => [("next.config.js", next_config)]
| Other _ => []
end.

(** One round of the loop over the components. *)
Definition add_component (framework : target) (acc : result (list (string * string)))
  (component : ComponentDefinition) : result (list (string * string)) :=
files <- acc ;;
code <- UIGenerator.generate_component component framework ;;
extension <- _get_extension framework ;;
Ok (dict_set (name_of component ++ "." ++ extension) code files).

(** [files.update(config_files)] *)
Definition update (files config_files : list (string * string)) : list (string * string) :=
fold_left (fun d kv => dict_set (fst kv) (snd kv) d) config_files files.

Definition generate_project_structure (components : list ComponentDefinition)
  (framework : target) (output_dir : string) : result (list (string * string)) :=
files <- fold_left (add_component framework) components (Ok []) ;;
Ok (update files (_generate_config_files framework)).

End UIGeneratorFiles.

(** The module [framework_adapter.py] as it is shipped. *)
Module framework_adapter.

(** The f-strings of the module, one in each adapter.  Whether a
    replacement field is an expression does not depend on the values of the
    fields: the templates are taken at empty texts. *)
Definition fstrings : list (list (list chunk)) :=
[ ReactAdapter.template "" "" "" [];
  VueAdapter.template "" "" "" [];
  SvelteAdapter.template "" "" "" [];
  NextJSAdapter.template "" "" "" [] ].

(** An f-string all of whose replacement fields are expressions. *)
Definition well_formed (lines : list (list chunk)) : bool :=
forallb (fun c => match c with Bad _ => false | _ => true end) (flatten lines).

(** Compiling the module, which its import does first: every replacement
    field of every f-string is parsed. *)
Definition compile : result Datatypes.unit :=
if forallb well_formed fstrings then Ok tt else Raise SyntaxError.

(** The import of the module followed by a call of the generator. *)
Definition generate_component (definition : ComponentDefinition) (framework : target)
  : result string :=
_ <- compile ;; UIGenerator.generate_component definition framework.

Definition generate_project_structure (components : list ComponentDefinition)
  (framework : target) (output_dir : string) : result (list (string * string)) :=
_ <- compile ;; UIGeneratorFiles.generate_project_structure components framework output_dir.

End framework_adapter.

(** The tree without its [framework_specific] mappings. *)
Fixpoint without_specific (d : ComponentDefinition) : ComponentDefinition :=
match d with
| Component n p c s _ => Component n p (map without_specific c) s []
end.

(* ================================================================== *)
(** * More notions for the store *)
(* ================================================================== *)

(** The index is a Python dict: its keys can be hashed and no two of them
    are equal. *)
Fixpoint index_is_dict (d : list (json * Theme)) : Prop :=
match d with
| [] => True
| (k, _) :: d' =>
    hashable k = true /\ ThemeManager.themes_get k d' = None /\ index_is_dict d'
end.

(** Two themes that the exports cannot tell apart: they agree on the color
    schemes, the typography but for [body], the unit and the scale of the
    spacing, and the breakpoints. *)
Definition same_tokens (a b : Theme) : Prop :=
color_schemes a = color_schemes b /\
font_family (typography a) = font_family (typography b) /\
font_size_base (typography a) = font_size_base (typography b) /\
line_height_base (typography a) = line_height_base (typography b) /\
headings (typography a) = headings (typography b) /\
unit (spacing a) = unit (spacing b) /\
scale (spacing a) = scale (spacing b) /\
breakpoints a = breakpoints b.

(** The top-level keys [_parse_theme] reads. *)
Definition top_level_keys : list string :=
["color_schemes"; "typography"; "spacing"; "breakpoints"; "name"; "custom"].

(** The last key of a path. *)
Fixpoint last_key (path : list string) : string :=
match path with
| [] => ""
| [k] => k
| _ :: path' => last_key path'
end.

(** One round of the loop of [_load_themes]. *)
Definition load_record (acc : result (list (json * Theme))) (theme_file : string * string)
  : result (list (json * Theme)) :=
themes <- acc ;;
theme_data <- json_load (snd theme_file) ;;
theme <- match theme_data with
         | JObj d => ThemeManager._parse_theme d
         | _ => Raise TypeError
         end ;;
name <- getitem theme_data "name" ;;
if hashable name then Ok (ThemeManager.themes_set name theme themes) else Raise TypeError.

(** More sample data: the sample payload under a name of any kind, and with
    headings of any kind. *)
Definition payload_named (theme_name : json) : dict :=
dict_set "name" theme_name (sample_payload "default").

Definition payload_with_headings (theme_name : string) (headings : json) : dict :=
[ ("name", JStr theme_name);
  ("color_schemes", JObj [("light", sample_palette)]);
  ("typography",
    JObj [ ("font_family", JStr "Arial"); ("font_size_base", JStr "16px");
           ("line_height_base", JStr "1.5");
           ("headings", headings);
           ("body", JObj []) ]);
  ("spacing",
    JObj [ ("unit", JStr "px"); ("scale", JArr [JStr "4px"; JStr "8px"]); ("custom", JObj []) ]);
  ("breakpoints", sample_breakpoints) ].

(** A directory whose records are within the model: on each of them
    [json_load] returns what [json.load] returns or raises as it raises. *)
Definition within_model (dir : list (string * string)) : Prop :=
forall file content,
  In (file, content) (ThemeManager.glob_json dir) -> json_load content <> Raise Unmodelled.

(* ================================================================== *)
(** * Text lemmas *)
(* ================================================================== *)

Lemma contains_prefix (sub s : string) : String.prefix sub s = true -> contains sub s = true.
Proof. intros H. destruct s; unfold contains; rewrite H; reflexivity. Qed.

Lemma ends_with_char_app (c c' : ascii) (s : string) :
  ends_with_char c (s ++ String c' "") = Ascii.eqb c' c.
Proof.
  induction s as [|a s IH]; [reflexivity|].
  simpl. destruct s; simpl in *; exact IH.
Qed.

Lemma append_assoc (a b c : string) : (a ++ b) ++ c = a ++ (b ++ c).
Proof. induction a; simpl; congruence. Qed.

Lemma append_nil_r (a : string) : a ++ "" = a.
Proof. induction a; simpl; congruence. Qed.

(* ================================================================== *)
(** * The result monad *)
(* ================================================================== *)

Lemma bind_ok {A B} (r : result A) (k : A -> result B) (b : B) :
  bind r k = Ok b -> exists a, r = Ok a /\ k a = Ok b.
Proof. destruct r; simpl; [eauto | discriminate]. Qed.

Lemma bind_raise {A B} (r : result A) (k : A -> result B) (e : exn) :
  bind r k = Raise e -> r = Raise e \/ exists a, r = Ok a /\ k a = Raise e.
Proof. destruct r; simpl; [eauto | intros [= ->]; auto]. Qed.

(* ================================================================== *)
(** * framework_adapter.py *)
(* ================================================================== *)

(** C1 at the Button tree, on the module as it is shipped.  The import of
    framework_adapter.py does not get past compiling it: the f-string of the
    React adapter holds the field [{...props}], which is no expression.
    [generate_component] with the React target therefore raises SyntaxError
    and returns no text for the Button tree, and the body of the React
    adapter stops at the same field: there is no text that could hold the
    definition, the parameter list or the styled wrapper. *)
Theorem react_button_not_rendered :
  framework_adapter.compile = Raise SyntaxError /\
  framework_adapter.generate_component Button (Member REACT) = Raise SyntaxError /\
  ReactAdapter.generate_component Button = Raise SyntaxError /\
  ~ (exists text,
       framework_adapter.generate_component Button (Member REACT) = Ok text /\
       contains "Button" text = true /\
       contains "{ label }" text = true /\
       contains "color: red;" text = true).
Proof.
  split; [reflexivity|]. split; [reflexivity|]. split; [reflexivity|].
  intros (text & H & _). discriminate H.
Qed.


Lemma mapM_total {A B} (f : A -> result B) (l : list A) :
  Forall (fun x => exists y, f x = Ok y) l -> exists ys, mapM f l = Ok ys.
Proof.
  induction 1 as [|x l [y Hy] _ [ys Hys]]; simpl.
  - eauto.
  - rewrite Hy; simpl. rewrite Hys; simpl. eauto.
Qed.

Lemma fstring_chunks_split (pre post : list chunk) (v a b : string) :
  fstring_chunks pre = Ok a ->
  fstring_chunks post = Ok b ->
  fstring_chunks (pre ++ Val v :: post) = Ok (a ++ v ++ b).
Proof.
  revert a. induction pre as [|c pre IH]; simpl; intros a Ha Hb.
  - injection Ha as <-. rewrite Hb. reflexivity.
  - destruct c; try discriminate;
      (destruct (fstring_chunks pre) as [r|] eqn:E; simpl in Ha; [|discriminate];
       injection Ha as <-; rewrite (IH r eq_refl Hb); simpl; now rewrite append_assoc).
Qed.

(** The React adapter returns no text, whatever the tree: the f-string of
    its [generate_component] has the field [{...props}], which is not an
    expression. *)
Lemma react_generate_component_raises (d : ComponentDefinition) :
  ReactAdapter.generate_component d = Raise SyntaxError.
Proof.
  induction d as [n p c s f IH] using ComponentDefinition_ind.
  simpl. destruct IH as [|x c Hx _]; simpl.
  - reflexivity.
  - rewrite Hx. reflexivity.
Qed.

Lemma vue_generate_component_total (d : ComponentDefinition) :
  exists text, VueAdapter.generate_component d = Ok text.
Proof.
  induction d as [n p c s f IH] using ComponentDefinition_ind.
  simpl. destruct (mapM_total _ IH) as [texts ->]. simpl bind.
  eexists. reflexivity.
Qed.

Lemma svelte_generate_component_total (d : ComponentDefinition) :
  exists text, SvelteAdapter.generate_component d = Ok text.
Proof.
  induction d as [n p c s f IH] using ComponentDefinition_ind.
  simpl. destruct (mapM_total _ IH) as [texts ->]. simpl bind.
  eexists. reflexivity.
Qed.

Lemma nextjs_generate_component_total (d : ComponentDefinition) :
  exists text, NextJSAdapter.generate_component d = Ok text.
Proof.
  induction d as [n p c s f IH] using ComponentDefinition_ind.
  simpl. destruct (mapM_total _ IH) as [texts ->]. simpl bind.
  eexists. reflexivity.
Qed.

(** The Vue adapter embeds the renderings of the children, joined in their
    order with nothing between them and unchanged, in a wrapper that does
    not depend on them. *)
Lemma vue_children_embedded (n : string) (p s f : dict) :
  exists before after, forall c,
    exists texts,
      mapM VueAdapter.generate_component c = Ok texts /\
      VueAdapter.generate_component (Component n p c s f)
      = Ok (before ++ join "" texts ++ after).
Proof.
  pose (tpl := flatten (VueAdapter.template n (VueAdapter.generate_props p)
                          (VueAdapter.generate_styles s) [])).
  pose (pre := firstn 8 tpl). pose (post := skipn 9 tpl).
  destruct (fstring_chunks pre) as [a|] eqn:Ha; [|discriminate].
  destruct (fstring_chunks post) as [b|] eqn:Hb; [|discriminate].
  exists a, b. intros c.
  destruct (mapM_total VueAdapter.generate_component (l := c)) as [texts Ht].
  { apply Forall_forall. intros d _. apply vue_generate_component_total. }
  exists texts. split; [exact Ht|].
  simpl. rewrite Ht. simpl bind.
  exact (fstring_chunks_split pre post (join "" texts) Ha Hb).
Qed.

(** The Svelte adapter does the same. *)
Lemma svelte_children_embedded (n : string) (p s f : dict) :
  exists before after, forall c,
    exists texts,
      mapM SvelteAdapter.generate_component c = Ok texts /\
      SvelteAdapter.generate_component (Component n p c s f)
      = Ok (before ++ join "" texts ++ after).
Proof.
  pose (tpl := flatten (SvelteAdapter.template n (SvelteAdapter.generate_props p)
                          (SvelteAdapter.generate_styles s) [])).
  pose (pre := firstn 14 tpl). pose (post := skipn 15 tpl).
  destruct (fstring_chunks pre) as [a|] eqn:Ha; [|discriminate].
  destruct (fstring_chunks post) as [b|] eqn:Hb; [|discriminate].
  exists a, b. intros c.
  destruct (mapM_total SvelteAdapter.generate_component (l := c)) as [texts Ht].
  { apply Forall_forall. intros d _. apply svelte_generate_component_total. }
  exists texts. split; [exact Ht|].
  simpl. rewrite Ht. simpl bind.
  exact (fstring_chunks_split pre post (join "" texts) Ha Hb).
Qed.

(** The Next.js adapter renders its children and drops the renderings: the
    text of a node is the text of the same node without children. *)
Lemma nextjs_children_ignored (n : string) (p s f : dict) (c : list ComponentDefinition) :
  NextJSAdapter.generate_component (Component n p c s f)
  = NextJSAdapter.generate_component (Component n p [] s f).
Proof.
  destruct (mapM_total NextJSAdapter.generate_component (l := c)) as [texts Ht].
  { apply Forall_forall. intros d _. apply nextjs_generate_component_total. }
  simpl. rewrite Ht. reflexivity.
Qed.

(** C2 at a Next.js tree with one child: the text of the parent holds the
    characters [{"".join(children)}] as they stand in the source, and the
    rendering of the child is no part of it. *)
Theorem nextjs_children_not_embedded :
  exists card title,
    UIGenerator.generate_component Card (Member NEXTJS) = Ok card /\
    UIGenerator.generate_component Title (Member NEXTJS) = Ok title /\
    contains ("{" ++ dquote ++ dquote ++ ".join(children)}") card = true /\
    contains title card = false.
Proof.
  eexists; eexists. split; [vm_compute; reflexivity|].
  split; [vm_compute; reflexivity|].
  split; vm_compute; reflexivity.
Qed.

(* ================================================================== *)
(** * theme_manager.py: parsing *)
(* ================================================================== *)

Lemma getitem_ok (v : json) (key : string) (x : json) :
  getitem v key = Ok x -> exists d, v = JObj d /\ dict_get key d = Some x.
Proof.
  destruct v; simpl; try discriminate.
  destruct (dict_get key items0) eqn:E; [|discriminate].
  intros [= <-]. eauto.
Qed.

Lemma getitem_raise (v : json) (key : string) (e : exn) :
  getitem v key = Raise e -> validation_error e.
Proof.
  destruct v; simpl; try (intros [= <-]; exact I).
  destruct (dict_get key items0); [discriminate | intros [= <-]; exact I].
Qed.

Lemma items_raise (v : json) (e : exn) : items v = Raise e -> validation_error e.
Proof. destruct v; simpl; try (intros [= <-]; exact I); discriminate. Qed.

Lemma keywords_ok (fields : list string) (v : json) (d : dict) :
  keywords fields v = Ok d ->
  v = JObj d /\ forallb (fun k => mem k fields) (keys d) = true.
Proof.
  destruct v; simpl; try discriminate.
  destruct (forallb _ _) eqn:E; [|discriminate].
  intros [= <-]. auto.
Qed.

Lemma keywords_raise (fields : list string) (v : json) (e : exn) :
  keywords fields v = Raise e -> e = TypeError.
Proof.
  destruct v; simpl; try (intros [= <-]; reflexivity).
  destruct (forallb _ _); [discriminate | intros [= <-]; reflexivity].
Qed.

Lemma kwarg_raise (d : dict) (field : string) (e : exn) :
  kwarg d field = Raise e -> e = TypeError.
Proof. unfold kwarg. destruct (dict_get field d); [discriminate | intros [= <-]; reflexivity]. Qed.

Lemma dict_get_mem (V : Type) (key : string) (d : list (string * V)) (x : V) :
  dict_get key d = Some x -> mem key (keys d) = true.
Proof.
  induction d as [|[k v] d IH]; simpl; [discriminate|].
  rewrite (String.eqb_sym key k).
  destruct (String.eqb k key); simpl; auto.
Qed.

Lemma kwarg_ok (d : dict) (field : string) (x : json) :
  kwarg d field = Ok x -> mem field (keys d) = true.
Proof.
  unfold kwarg. destruct (dict_get field d) eqn:E; [|discriminate].
  intros _. exact (dict_get_mem _ _ E).
Qed.

Lemma ColorPalette_new_raise (colors : json) (e : exn) :
  ColorPalette_new colors = Raise e -> e = TypeError.
Proof.
  unfold ColorPalette_new. intros H.
  repeat (apply bind_raise in H;
          destruct H as [H | (? & ? & H)];
          [ first [ now apply keywords_raise in H | now apply kwarg_raise in H ] | ]).
  discriminate.
Qed.

Lemma ColorPalette_new_ok (colors : json) (p : ColorPalette) :
  ColorPalette_new colors = Ok p -> supplies_exactly ColorPalette_fields colors = true.
Proof.
  unfold ColorPalette_new. intros H.
  apply bind_ok in H. destruct H as (d & Hd & H).
  apply keywords_ok in Hd. destruct Hd as [-> Hk].
  repeat (let x := fresh "x" in let Hx := fresh "Hx" in
          apply bind_ok in H; destruct H as (x & Hx & H); apply kwarg_ok in Hx).
  unfold supplies_exactly. rewrite Hk. simpl.
  repeat match goal with Hm : mem _ _ = true |- _ => rewrite Hm; clear Hm end.
  reflexivity.
Qed.

Lemma Breakpoints_new_raise (v : json) (e : exn) :
  Breakpoints_new v = Raise e -> e = TypeError.
Proof.
  unfold Breakpoints_new. intros H.
  repeat (apply bind_raise in H;
          destruct H as [H | (? & ? & H)];
          [ first [ now apply keywords_raise in H | now apply kwarg_raise in H ] | ]).
  discriminate.
Qed.

Lemma Breakpoints_new_ok (v : json) (b : Breakpoints) :
  Breakpoints_new v = Ok b -> supplies_exactly Breakpoints_fields v = true.
Proof.
  unfold Breakpoints_new. intros H.
  apply bind_ok in H. destruct H as (d & Hd & H).
  apply keywords_ok in Hd. destruct Hd as [-> Hk].
  repeat (let x := fresh "x" in let Hx := fresh "Hx" in
          apply bind_ok in H; destruct H as (x & Hx & H); apply kwarg_ok in Hx).
  unfold supplies_exactly. rewrite Hk. simpl.
  repeat match goal with Hm : mem _ _ = true |- _ => rewrite Hm; clear Hm end.
  reflexivity.
Qed.

Lemma ColorScheme_of_ok (value : string) (scheme : ColorScheme) :
  ColorScheme_of value = Ok scheme -> value = "light" \/ value = "dark".
Proof.
  unfold ColorScheme_of.
  destruct (String.eqb_spec value "light"); [auto|].
  destruct (String.eqb_spec value "dark"); [auto|discriminate].
Qed.

Lemma add_scheme_raise (schemes : dict) acc (e : exn) :
  fold_left ThemeManager.add_scheme schemes acc = Raise e ->
  (forall e', acc = Raise e' -> validation_error e') ->
  validation_error e.
Proof.
  revert acc. induction schemes as [|[k v] l IH]; simpl; intros acc H Hacc.
  - auto.
  - apply (IH _ H). intros e' He'.
    destruct acc as [d|e0]; simpl in He'.
    + unfold ColorScheme_of in He'.
      destruct (String.eqb k "light"); [|destruct (String.eqb k "dark")]; simpl in He';
        try (injection He' as <-; exact I);
        (destruct (ColorPalette_new v) eqn:E; simpl in He'; [discriminate|];
         injection He' as <-; apply ColorPalette_new_raise in E; subst; exact I).
    + injection He' as <-. auto.
Qed.

Lemma add_scheme_ok (schemes : dict) acc r :
  fold_left ThemeManager.add_scheme schemes acc = Ok r ->
  (exists d, acc = Ok d) /\
  forall scheme colors, In (scheme, colors) schemes ->
    (scheme = "light" \/ scheme = "dark") /\ supplies_exactly ColorPalette_fields colors = true.
Proof.
  revert acc. induction schemes as [|[k v] l IH]; simpl; intros acc H.
  - subst. split; [eauto | intros ? ? []].
  - destruct (IH _ H) as [[d Hd] Hall].
    destruct acc as [d0|e0]; simpl in Hd; [|discriminate].
    split; [eauto|].
    destruct (ColorScheme_of k) as [sc|] eqn:Ek; simpl in Hd; [|discriminate].
    destruct (ColorPalette_new v) as [pal|] eqn:Ev; simpl in Hd; [|discriminate].
    intros scheme colors [[= <- <-]|Hin]; [|auto].
    split; [exact (ColorScheme_of_ok _ Ek) | exact (ColorPalette_new_ok _ Ev)].
Qed.

Lemma parse_unfold (theme_data : dict) :
  ThemeManager._parse_theme theme_data =
  (schemes <- getitem (JObj theme_data) "color_schemes" ;;
   schemes <- items schemes ;;
   color_schemes <- fold_left ThemeManager.add_scheme schemes (Ok []) ;;
   font_family <- (t <- getitem (JObj theme_data) "typography" ;; getitem t "font_family") ;;
   font_size_base <- (t <- getitem (JObj theme_data) "typography" ;; getitem t "font_size_base") ;;
   line_height_base <- (t <- getitem (JObj theme_data) "typography" ;; getitem t "line_height_base") ;;
   headings <- (t <- getitem (JObj theme_data) "typography" ;; getitem t "headings") ;;
   body <- (t <- getitem (JObj theme_data) "typography" ;; getitem t "body") ;;
   unit <- (s <- getitem (JObj theme_data) "spacing" ;; getitem s "unit") ;;
   scale <- (s <- getitem (JObj theme_data) "spacing" ;; getitem s "scale") ;;
   custom <- (s <- getitem (JObj theme_data) "spacing" ;; getitem s "custom") ;;
   breakpoints <- (b <- getitem (JObj theme_data) "breakpoints" ;; Breakpoints_new b) ;;
   name <- getitem (JObj theme_data) "name" ;;
   Ok {| name := name;
         color_schemes := color_schemes;
         typography := {| font_family := font_family; font_size_base := font_size_base;
                          line_height_base := line_height_base; headings := headings;
                          body := body |};
         spacing := {| unit := unit; scale := scale; spacing_custom := custom |};
         breakpoints := breakpoints;
         custom := match dict_get "custom" theme_data with Some c => c | None => JObj [] end |}).
Proof. reflexivity. Qed.

(** Whatever [_parse_theme] raises is a validation error. *)
Lemma parse_raise_validation (raw : dict) (e : exn) :
  ThemeManager._parse_theme raw = Raise e -> validation_error e.
Proof.
  rewrite parse_unfold. intros H.
  apply bind_raise in H. destruct H as [H | (? & _ & H)]; [exact (getitem_raise _ _ H)|].
  apply bind_raise in H. destruct H as [H | (? & _ & H)]; [exact (items_raise _ H)|].
  apply bind_raise in H. destruct H as [H | (? & _ & H)].
  { eapply add_scheme_raise; [exact H | discriminate]. }
  do 8 (apply bind_raise in H; destruct H as [H | (? & _ & H)];
        [ apply bind_raise in H; destruct H as [H | (? & _ & H)];
          exact (getitem_raise _ _ H) | ]).
  apply bind_raise in H. destruct H as [H | (? & _ & H)].
  { apply bind_raise in H. destruct H as [H | (? & _ & H)]; [exact (getitem_raise _ _ H)|].
    apply Breakpoints_new_raise in H. subst. exact I. }
  apply bind_raise in H. destruct H as [H | (? & _ & H)]; [exact (getitem_raise _ _ H)|].
  discriminate.
Qed.


Ltac inv_getitem2 H parent child :=
  let x := fresh "x" in let Hx := fresh "Hx" in
  let t := fresh "t" in let Ht := fresh "Ht" in
  let d := fresh "d" in let E := fresh "E" in
  apply bind_ok in H; destruct H as (x & Hx & H);
  apply bind_ok in Hx; destruct Hx as (t & Ht & Hx);
  apply getitem_ok in Ht; destruct Ht as (d & E & parent); injection E as <-;
  apply getitem_ok in Hx; destruct Hx as (d & E & child); subst t.

(** What a successful parse read from the payload. *)
Lemma parse_ok_inv (raw : dict) (theme : Theme) :
  ThemeManager._parse_theme raw = Ok theme ->
  exists schemes ty sp bp,
    dict_get "color_schemes" raw = Some (JObj schemes) /\
    fold_left ThemeManager.add_scheme schemes (Ok []) = Ok (color_schemes theme) /\
    dict_get "typography" raw = Some (JObj ty) /\
    dict_get "font_family" ty = Some (font_family (typography theme)) /\
    dict_get "font_size_base" ty = Some (font_size_base (typography theme)) /\
    dict_get "line_height_base" ty = Some (line_height_base (typography theme)) /\
    dict_get "headings" ty = Some (headings (typography theme)) /\
    dict_get "body" ty = Some (body (typography theme)) /\
    dict_get "spacing" raw = Some (JObj sp) /\
    dict_get "unit" sp = Some (unit (spacing theme)) /\
    dict_get "scale" sp = Some (scale (spacing theme)) /\
    dict_get "custom" sp = Some (spacing_custom (spacing theme)) /\
    dict_get "breakpoints" raw = Some bp /\
    Breakpoints_new bp = Ok (breakpoints theme) /\
    dict_get "name" raw = Some (name theme) /\
    custom theme = match dict_get "custom" raw with Some c => c | None => JObj [] end.
Proof.
  rewrite parse_unfold. intros H.
  apply bind_ok in H. destruct H as (v1 & H1 & H).
  apply getitem_ok in H1. destruct H1 as (d1 & E1 & G1). injection E1 as <-.
  apply bind_ok in H. destruct H as (schemes & H2 & H).
  destruct v1; try discriminate. injection H2 as ->.
  apply bind_ok in H. destruct H as (cs & H3 & H).
  inv_getitem2 H T1 F1. inv_getitem2 H T2 F2. inv_getitem2 H T3 F3.
  inv_getitem2 H T4 F4. inv_getitem2 H T5 F5.
  rewrite T1 in T2, T3, T4, T5.
  injection T2 as <-. injection T3 as <-. injection T4 as <-. injection T5 as <-.
  inv_getitem2 H S1 U1. inv_getitem2 H S2 U2. inv_getitem2 H S3 U3.
  rewrite S1 in S2, S3. injection S2 as <-. injection S3 as <-.
  apply bind_ok in H. destruct H as (bp & Hb & H).
  apply bind_ok in Hb. destruct Hb as (b & Hb1 & Hb).
  apply getitem_ok in Hb1. destruct Hb1 as (db & Eb & Gb). injection Eb as <-.
  apply bind_ok in H. destruct H as (nm & Hn & H).
  apply getitem_ok in Hn. destruct Hn as (dn & En & Gn). injection En as <-.
  injection H as <-. simpl.
  do 4 eexists. repeat split; try eassumption; reflexivity.
Qed.

Lemma parse_fails_is_validation (raw : dict) :
  (forall theme, ThemeManager._parse_theme raw <> Ok theme) ->
  ValidationFailure (ThemeManager._parse_theme raw).
Proof.
  intros H. destruct (ThemeManager._parse_theme raw) as [theme|e] eqn:E.
  - now elim (H theme).
  - exists e. split; [reflexivity | exact (parse_raise_validation _ E)].
Qed.

(** C3, as the code has it.  When one of the keys [_parse_theme] subscripts
    is absent -- name, color_schemes, typography and its five keys, spacing
    and its three keys, breakpoints -- the parse fails with a validation
    error; the top-level key custom alone is optional, and the empty mapping
    stands in for it when it is absent; a Theme that is returned holds under
    every other field what the payload holds. *)
Theorem parse_missing_key_fails (raw : dict) :
  (forall path, In path required_paths -> lookup_path (JObj raw) path = None ->
     ValidationFailure (ThemeManager._parse_theme raw)) /\
  (forall theme, ThemeManager._parse_theme raw = Ok theme ->
     lookup_path (JObj raw) ["name"] = Some (name theme) /\
     lookup_path (JObj raw) ["typography"; "font_family"] = Some (font_family (typography theme)) /\
     lookup_path (JObj raw) ["typography"; "font_size_base"]
       = Some (font_size_base (typography theme)) /\
     lookup_path (JObj raw) ["typography"; "line_height_base"]
       = Some (line_height_base (typography theme)) /\
     lookup_path (JObj raw) ["typography"; "headings"] = Some (headings (typography theme)) /\
     lookup_path (JObj raw) ["typography"; "body"] = Some (body (typography theme)) /\
     lookup_path (JObj raw) ["spacing"; "unit"] = Some (unit (spacing theme)) /\
     lookup_path (JObj raw) ["spacing"; "scale"] = Some (scale (spacing theme)) /\
     lookup_path (JObj raw) ["spacing"; "custom"] = Some (spacing_custom (spacing theme)) /\
     (exists schemes, lookup_path (JObj raw) ["color_schemes"] = Some (JObj schemes) /\
                      fold_left ThemeManager.add_scheme schemes (Ok [])
                      = Ok (color_schemes theme)) /\
     (exists bp, lookup_path (JObj raw) ["breakpoints"] = Some bp /\
                 Breakpoints_new bp = Ok (breakpoints theme)) /\
     (lookup_path (JObj raw) ["custom"] = None -> custom theme = JObj []) /\
     (forall c, lookup_path (JObj raw) ["custom"] = Some c -> custom theme = c)).
Proof.
  split.
  - intros path Hin Hnone. apply parse_fails_is_validation. intros theme Hok.
    destruct (parse_ok_inv _ Hok)
      as (schemes & ty & sp & bp & C & _ & T & T1 & T2 & T3 & T4 & T5
          & S & S1 & S2 & S3 & B & _ & N & _).
    simpl in Hin.
    repeat (destruct Hin as [<- | Hin];
            [ simpl in Hnone;
              rewrite ?C, ?T, ?S, ?B, ?N, ?T1, ?T2, ?T3, ?T4, ?T5, ?S1, ?S2, ?S3 in Hnone;
              discriminate | ]).
    destruct Hin.
  - intros theme Hok.
    destruct (parse_ok_inv _ Hok)
      as (schemes & ty & sp & bp & C & F & T & T1 & T2 & T3 & T4 & T5
          & S & S1 & S2 & S3 & B & Bn & N & Cu).
    simpl. rewrite C, T, S, B, N, T1, T2, T3, T4, T5, S1, S2, S3.
    repeat (split; [reflexivity|]).
    split; [exists schemes; auto|].
    split; [exists bp; auto|].
    rewrite Cu. destruct (dict_get "custom" raw).
    + split; [discriminate | now intros c [= ->]].
    + split; [reflexivity | discriminate].
Qed.

(** C3, as stated, fails: a payload without the key custom parses, and the
    Theme holds the empty mapping there. *)
Lemma parse_fills_missing_custom :
  lookup_path (JObj (sample_payload "default")) ["custom"] = None /\
  exists theme,
    ThemeManager._parse_theme (sample_payload "default") = Ok theme /\
    custom theme = JObj [].
Proof.
  split; [reflexivity|].
  eexists. split; [vm_compute; reflexivity | reflexivity].
Qed.

Lemma parse_missing_key_fails_witness :
  ValidationFailure (ThemeManager._parse_theme []) /\
  exists theme,
    ThemeManager._parse_theme (sample_payload "default") = Ok theme /\
    custom theme = JObj [].
Proof.
  split.
  - apply (proj1 (parse_missing_key_fails []) ["name"]).
    + simpl. auto.
    + reflexivity.
  - destruct (ThemeManager._parse_theme (sample_payload "default")) as [theme|e] eqn:H.
    2:{ vm_compute in H. discriminate H. }
    exists theme. split; [reflexivity|].
    destruct (proj2 (parse_missing_key_fails (sample_payload "default")) theme H)
      as (_ & _ & _ & _ & _ & _ & _ & _ & _ & _ & _ & Hc & _).
    apply Hc. reflexivity.
Defined.

Lemma mem_In (s : string) (l : list string) : mem s l = true <-> In s l.
Proof.
  unfold mem. rewrite existsb_exists. split.
  - intros (x & Hx & E). apply String.eqb_eq in E. now subst.
  - intros H. exists s. split; [exact H | apply String.eqb_refl].
Qed.

(** [supplies_exactly]: a mapping, and its keys are the given names. *)
Lemma supplies_exactly_spec (fields : list string) (v : json) :
  supplies_exactly fields v = true <->
  exists d, v = JObj d /\ forall k, In k (keys d) <-> In k fields.
Proof.
  split.
  - destruct v; simpl; try discriminate.
    intros H. apply andb_prop in H. destruct H as [H1 H2].
    rewrite forallb_forall in H1, H2.
    exists items0. split; [reflexivity|]. intros k. split; intros Hk.
    + apply mem_In, H1, Hk.
    + apply mem_In, H2, Hk.
  - intros (d & -> & H). simpl. apply andb_true_intro. split; apply forallb_forall; intros k Hk.
    + apply mem_In, H, Hk.
    + apply mem_In, H, Hk.
Qed.

(** C7.  The parse fails with a validation error when a palette of the
    payload does not supply exactly the nine color slots, when a scheme key
    is neither light nor dark, and when the breakpoints do not supply
    exactly the six names. *)
Theorem parse_rejects_wrong_slots (raw : dict) :
  (forall schemes scheme colors,
     lookup_path (JObj raw) ["color_schemes"] = Some (JObj schemes) ->
     In (scheme, colors) schemes ->
     supplies_exactly ColorPalette_fields colors = false ->
     ValidationFailure (ThemeManager._parse_theme raw)) /\
  (forall schemes scheme colors,
     lookup_path (JObj raw) ["color_schemes"] = Some (JObj schemes) ->
     In (scheme, colors) schemes ->
     scheme <> "light" -> scheme <> "dark" ->
     ValidationFailure (ThemeManager._parse_theme raw)) /\
  (forall bp,
     lookup_path (JObj raw) ["breakpoints"] = Some bp ->
     supplies_exactly Breakpoints_fields bp = false ->
     ValidationFailure (ThemeManager._parse_theme raw)).
Proof.
  repeat split.
  - intros schemes scheme colors Hs Hin Hbad.
    apply parse_fails_is_validation. intros theme Hok.
    destruct (parse_ok_inv _ Hok) as (schemes' & ty & sp & bp & C & F & _).
    simpl in Hs. rewrite C in Hs. injection Hs as ->.
    destruct (add_scheme_ok _ _ F) as [_ Hall].
    destruct (Hall _ _ Hin) as [_ Hgood]. congruence.
  - intros schemes scheme colors Hs Hin Hl Hd.
    apply parse_fails_is_validation. intros theme Hok.
    destruct (parse_ok_inv _ Hok) as (schemes' & ty & sp & bp & C & F & _).
    simpl in Hs. rewrite C in Hs. injection Hs as ->.
    destruct (add_scheme_ok _ _ F) as [_ Hall].
    destruct (Hall _ _ Hin) as [[?|?] _]; contradiction.
  - intros bp Hb Hbad.
    apply parse_fails_is_validation. intros theme Hok.
    destruct (parse_ok_inv _ Hok)
      as (schemes & ty & sp & bp' & _ & _ & _ & _ & _ & _ & _ & _ & _ & _ & _ & _ & B & Bn & _).
    simpl in Hb. rewrite B in Hb. injection Hb as ->.
    apply Breakpoints_new_ok in Bn. congruence.
Qed.

Lemma parse_rejects_wrong_slots_witness :
  ValidationFailure
    (ThemeManager._parse_theme (payload "t" (JObj [("light", short_palette)]) sample_breakpoints)) /\
  ValidationFailure
    (ThemeManager._parse_theme (payload "t" (JObj [("sepia", sample_palette)]) sample_breakpoints)) /\
  ValidationFailure
    (ThemeManager._parse_theme (payload "t" (JObj [("light", sample_palette)]) long_breakpoints)).
Proof.
  split; [|split].
  - apply (proj1 (parse_rejects_wrong_slots _) [("light", short_palette)] "light" short_palette).
    + reflexivity.
    + simpl. auto.
    + reflexivity.
  - apply (proj1 (proj2 (parse_rejects_wrong_slots _)) [("sepia", sample_palette)] "sepia"
             sample_palette).
    + reflexivity.
    + simpl. auto.
    + discriminate.
    + discriminate.
  - apply (proj2 (proj2 (parse_rejects_wrong_slots _)) long_breakpoints).
    + reflexivity.
    + reflexivity.
Defined.

(* ================================================================== *)
(** * theme_manager.py: the store *)
(* ================================================================== *)

Lemma dict_get_set (V : Type) (key : string) (value : V) (d : list (string * V)) :
  dict_get key (dict_set key value d) = Some value.
Proof.
  induction d as [|[k v] d IH]; simpl.
  - now rewrite String.eqb_refl.
  - destruct (String.eqb k key) eqn:E; simpl; rewrite E; auto.
Qed.

Lemma dict_get_set_other (V : Type) (key key' : string) (value : V) (d : list (string * V)) :
  key' <> key -> dict_get key' (dict_set key value d) = dict_get key' d.
Proof.
  intros Hne. induction d as [|[k v] d IH]; simpl.
  - destruct (String.eqb_spec key key'); [congruence | reflexivity].
  - destruct (String.eqb_spec k key); simpl.
    + subst k. destruct (String.eqb_spec key key'); [congruence | reflexivity].
    + destruct (String.eqb k key'); auto.
Qed.

Lemma key_eqb_hashable (k key : json) : ThemeManager.key_eqb k key = true -> hashable key = true.
Proof. destruct k, key; simpl; congruence. Qed.

Lemma key_eqb_refl (key : json) : hashable key = true -> ThemeManager.key_eqb key key = true.
Proof.
  destruct key; simpl; try congruence; intros _.
  - apply Bool.eqb_reflx.
  - apply Z.eqb_refl.
  - apply String.eqb_refl.
Qed.

Lemma key_eqb_str (k : json) (n : string) : ThemeManager.key_eqb k (JStr n) = true -> k = JStr n.
Proof.
  destruct k; simpl; try discriminate.
  intros H. apply String.eqb_eq in H. now subst.
Qed.

Lemma themes_get_hashable (key : json) (d : list (json * Theme)) (v : Theme) :
  ThemeManager.themes_get key d = Some v -> hashable key = true.
Proof.
  induction d as [|[k x] d IH]; simpl; [discriminate|].
  destruct (ThemeManager.key_eqb k key) eqn:E; [|exact IH].
  intros _. exact (key_eqb_hashable _ _ E).
Qed.

Lemma themes_get_set (key : json) (value : Theme) (d : list (json * Theme)) :
  hashable key = true ->
  ThemeManager.themes_get key (ThemeManager.themes_set key value d) = Some value.
Proof.
  intros Hh. induction d as [|[k x] d IH]; simpl.
  - now rewrite key_eqb_refl.
  - destruct (ThemeManager.key_eqb k key) eqn:E; simpl; rewrite E; auto.
Qed.

Lemma themes_set_keys (key : json) (value old : Theme) (d : list (json * Theme)) :
  ThemeManager.themes_get key d = Some old ->
  map fst (ThemeManager.themes_set key value d) = map fst d.
Proof.
  induction d as [|[k x] d IH]; simpl; [discriminate|].
  destruct (ThemeManager.key_eqb k key); simpl; [reflexivity|].
  intros H. now rewrite IH.
Qed.

(** The file a name without a slash and without a null character opens is
    the file of that name in the directory. *)
Lemma walk_plain (dir : list (string * string)) (n : string) :
  has_char "/" n = false ->
  forall component, walk dir component n = Ok ((component ++ n) ++ ".json").
Proof.
  induction n as [|c n IH]; cbn [has_char walk]; intros H component.
  - now rewrite append_nil_r.
  - apply Bool.orb_false_elim in H. destruct H as [Hc Hn].
    rewrite Hc, (IH Hn). do 2 f_equal. now rewrite append_assoc.
Qed.

Lemma open_w_plain (dir : list (string * string)) (n : string) :
  plain_name n = true -> open_w dir n = Ok (n ++ ".json").
Proof.
  unfold plain_name, open_w. intros H.
  apply andb_prop in H. destruct H as [Hs Hz].
  apply Bool.negb_true_iff in Hs, Hz. rewrite Hz.
  assert (Ha : absolute n = false).
  { destruct n as [|c n]; [reflexivity|]. cbn [has_char] in Hs.
    apply Bool.orb_false_elim in Hs. exact (proj1 Hs). }
  rewrite Ha. now rewrite (walk_plain dir n Hs "").
Qed.

(** C9, as the code has it.  When the payload parses, its name is already a
    key of the index and gives a file name as it stands (no slash, no null
    character), [create_theme] returns the parsed Theme: the record of that
    name holds the new payload, the others are untouched, and the index
    holds the parsed Theme under the same keys as before. *)
Theorem create_overwrites_existing (self : ThemeManager.t) (raw : dict) (theme old : Theme) :
  ThemeManager._parse_theme raw = Ok theme ->
  ThemeManager.themes_get (name theme) (ThemeManager.themes self) = Some old ->
  plain_name (py_str (name theme)) = true ->
  exists self',
    ThemeManager.create_theme self raw = (Ok theme, self') /\
    ThemeManager.themes_get (name theme) (ThemeManager.themes self') = Some theme /\
    map fst (ThemeManager.themes self') = map fst (ThemeManager.themes self) /\
    dict_get (py_str (name theme) ++ ".json") (ThemeManager.themes_dir self')
      = Some (json_dump (JObj raw)) /\
    forall file, file <> py_str (name theme) ++ ".json" ->
      dict_get file (ThemeManager.themes_dir self') = dict_get file (ThemeManager.themes_dir self).
Proof.
  intros Hp Hold Hplain. pose proof (themes_get_hashable _ _ Hold) as Hh.
  unfold ThemeManager.create_theme. rewrite Hp, (open_w_plain _ _ Hplain), Hh.
  eexists. split; [reflexivity|].
  cbn [ThemeManager.themes ThemeManager.themes_dir]. repeat split.
  - now apply themes_get_set.
  - exact (themes_set_keys _ _ _ Hold).
  - apply dict_get_set.
  - intros file Hne. now apply dict_get_set_other.
Qed.

Lemma create_overwrites_existing_witness :
  exists theme self',
    ThemeManager.create_theme default_manager (payload "default" (JObj []) sample_breakpoints)
      = (Ok theme, self') /\
    ThemeManager.get_theme self' "default" = Some theme.
Proof.
  eexists.
  edestruct (create_overwrites_existing default_manager
               (payload "default" (JObj []) sample_breakpoints))
    as (self' & H1 & H2 & _).
  - vm_compute. reflexivity.
  - vm_compute. reflexivity.
  - vm_compute. reflexivity.
  - exists self'. split; [exact H1 | exact H2].
Defined.

(** C9, as stated, fails.  A record filed under another name carries the
    name a/b, so that a manager started on the directory holds a/b in its
    index; [create_theme] with a payload of that name, which parses, raises
    FileNotFoundError at [open], and index and records stay as they were. *)
Lemma create_existing_name_with_slash_fails :
  exists self theme old,
    ThemeManager.__init__ [("misfiled.json", json_dump (JObj (sample_payload "a/b")))] = Ok self /\
    ThemeManager._parse_theme (sample_payload "a/b") = Ok theme /\
    ThemeManager.themes_get (name theme) (ThemeManager.themes self) = Some old /\
    ThemeManager.create_theme self (sample_payload "a/b") = (Raise FileNotFoundError, self).
Proof.
  eexists; eexists; eexists.
  split; [vm_compute; reflexivity|].
  split; [vm_compute; reflexivity|].
  split; [vm_compute; reflexivity | vm_compute; reflexivity].
Qed.

(** C10.  [export_theme] with a name that is not in the index raises the
    not-found error, whatever the format. *)
Theorem export_absent_name_not_found (self : ThemeManager.t) (name format : string) :
  ThemeManager.get_theme self name = None ->
  ThemeManager.export_theme self name format = Raise (ThemeManager.not_found name).
Proof. intros H. unfold ThemeManager.export_theme. now rewrite H. Qed.

Lemma export_absent_name_not_found_witness :
  ThemeManager.export_theme default_manager "missing" "json"
  = Raise (ValueError "Theme 'missing' not found").
Proof.
  apply (export_absent_name_not_found default_manager "missing" "json").
  reflexivity.
Defined.

(** C8, as the code has it, for the store.  For a name in the index,
    [export_theme] with a format other than css and scss raises the
    unsupported-format error; it takes the manager and returns text or an
    error, so that no state changes.  [update_theme] and [delete_theme] with
    a name that is not in the index raise the not-found error and leave the
    index and the records as they were. *)
Theorem unsupported_and_unknown_rejected :
  (forall self name format theme,
     ThemeManager.get_theme self name = Some theme ->
     format <> "css" -> format <> "scss" ->
     ThemeManager.export_theme self name format = Raise (ThemeManager.unsupported_format format)) /\
  (forall self name theme_data,
     ThemeManager.get_theme self name = None ->
     ThemeManager.update_theme self name theme_data = (Raise (ThemeManager.not_found name), self)) /\
  (forall self name,
     ThemeManager.get_theme self name = None ->
     ThemeManager.delete_theme self name = (Raise (ThemeManager.not_found name), self)).
Proof.
  repeat split.
  - intros self name format theme H Hc Hs. unfold ThemeManager.export_theme. rewrite H.
    destruct (String.eqb_spec format "css"); [contradiction|].
    destruct (String.eqb_spec format "scss"); [contradiction|]. reflexivity.
  - intros self name theme_data H. unfold ThemeManager.update_theme.
    unfold ThemeManager.get_theme in H. now rewrite H.
  - intros self name H. unfold ThemeManager.delete_theme.
    unfold ThemeManager.get_theme in H. now rewrite H.
Qed.

Lemma unsupported_and_unknown_rejected_witness :
  ThemeManager.export_theme default_manager "default" "json"
    = Raise (ValueError "Unsupported format: json") /\
  ThemeManager.update_theme default_manager "missing" (sample_payload "missing")
    = (Raise (ValueError "Theme 'missing' not found"), default_manager) /\
  ThemeManager.delete_theme default_manager "missing"
    = (Raise (ValueError "Theme 'missing' not found"), default_manager).
Proof.
  destruct unsupported_and_unknown_rejected as (H2 & H3 & H4).
  split; [|split].
  - eapply (H2 default_manager "default" "json").
    + vm_compute. reflexivity.
    + discriminate.
    + discriminate.
  - apply (H3 default_manager "missing"). reflexivity.
  - apply (H4 default_manager "missing"). reflexivity.
Defined.

(** C8, as stated, fails: with a name that is not in the index,
    [export_theme] in an unknown format raises the not-found error and not
    the unsupported-format error. *)
Lemma export_unknown_format_absent_name :
  ThemeManager.get_theme default_manager "missing" = None /\
  ThemeManager.export_theme default_manager "missing" "json"
    = Raise (ValueError "Theme 'missing' not found") /\
  ThemeManager.export_theme default_manager "missing" "json"
    <> Raise (ThemeManager.unsupported_format "json").
Proof.
  split; [reflexivity|]. split; [reflexivity|]. vm_compute. discriminate.
Qed.

(** [create_theme] keeps the keys of the index equal to the names of the
    themes, for a name that is a [str], and so does [delete_theme]. *)
Lemma themes_set_keys_are_names (n : string) (theme : Theme) (d : list (json * Theme)) :
  name theme = JStr n ->
  Forall (fun p => fst p = name (snd p)) d ->
  Forall (fun p => fst p = name (snd p)) (ThemeManager.themes_set (JStr n) theme d).
Proof.
  intros Hn. induction 1 as [|[k x] d Hk Hd IH]; simpl.
  - constructor; [simpl; congruence | constructor].
  - destruct (ThemeManager.key_eqb k (JStr n)) eqn:E.
    + apply key_eqb_str in E. subst k. constructor; [simpl; congruence | assumption].
    + constructor; assumption.
Qed.

Lemma create_keeps_index_keys (self : ThemeManager.t) (raw : dict) (n : string) :
  lookup_path (JObj raw) ["name"] = Some (JStr n) ->
  index_keys_are_names self ->
  index_keys_are_names (snd (ThemeManager.create_theme self raw)).
Proof.
  intros Hn Hinv. unfold ThemeManager.create_theme.
  destruct (ThemeManager._parse_theme raw) as [theme|e] eqn:Hp; [|exact Hinv].
  destruct (parse_ok_inv _ Hp)
    as (schemes & ty & sp & bp & _ & _ & _ & _ & _ & _ & _ & _ & _ & _ & _ & _ & _ & _ & N & _).
  simpl in Hn. rewrite N in Hn. injection Hn as Hn.
  rewrite Hn. cbn [py_str hashable].
  destruct (open_w (ThemeManager.themes_dir self) n); [|exact Hinv].
  unfold index_keys_are_names. cbn [snd ThemeManager.themes].
  now apply themes_set_keys_are_names.
Qed.

Lemma delete_keeps_index_keys (self : ThemeManager.t) (n : string) :
  index_keys_are_names self ->
  index_keys_are_names (snd (ThemeManager.delete_theme self n)).
Proof.
  intros Hinv. unfold ThemeManager.delete_theme.
  destruct (ThemeManager.themes_get (JStr n) (ThemeManager.themes self)); [|exact Hinv].
  destruct (dict_get (n ++ ".json") (ThemeManager.themes_dir self)); [|exact Hinv].
  unfold index_keys_are_names in *. simpl.
  induction Hinv as [|[k x] d Hk Hd IH]; simpl; [constructor|].
  destruct (ThemeManager.key_eqb k (JStr n)); [assumption | now constructor].
Qed.

(** C4 at an update whose payload carries another name: before the call the
    index key and the record key are the name of the theme; after it the key
    default holds a Theme named other, and the record default.json a payload
    named other. *)
Theorem update_under_other_name :
  let self := default_manager in
  let self' := snd (ThemeManager.update_theme self "default" (sample_payload "other")) in
  index_keys_are_names self /\ record_keys_are_names self /\
  (exists theme,
     ThemeManager.themes self' = [(JStr "default", theme)] /\ name theme = JStr "other") /\
  (exists content,
     ThemeManager.themes_dir self' = [("default.json", content)] /\
     record_name content = Some (JStr "other")) /\
  ~ index_keys_are_names self' /\ ~ record_keys_are_names self'.
Proof.
  cbv zeta. split; [|split; [|split; [|split; [|split]]]].
  - vm_compute. repeat constructor.
  - unfold record_keys_are_names. constructor; [|constructor].
    exists (JStr "default"). split; vm_compute; reflexivity.
  - eexists. split; [vm_compute; reflexivity | reflexivity].
  - eexists. split; [vm_compute; reflexivity | vm_compute; reflexivity].
  - intros H. vm_compute in H. inversion H as [|? ? Hk _]. discriminate Hk.
  - intros H. unfold record_keys_are_names in H.
    inversion H as [|? ? (n & Hn & Hf) _]. clear H.
    vm_compute in Hn. injection Hn as <-. vm_compute in Hf. discriminate Hf.
Qed.

(* ================================================================== *)
(** * theme_manager.py: the exports *)
(* ================================================================== *)

Lemma prefix_app_l (sub a b : string) :
  String.prefix sub a = true -> String.prefix sub (a ++ b) = true.
Proof.
  revert a. induction sub as [|c sub IH]; intros a; simpl.
  - now destruct (a ++ b).
  - destruct a as [|c' a]; simpl; [discriminate|].
    destruct (ascii_dec c c'); [apply IH | discriminate].
Qed.

Lemma contains_unfold (sub s : string) :
  contains sub s
  = if String.prefix sub s then true
    else match s with
         | EmptyString => false
         | String _ s' => contains sub s'
         end.
Proof. destruct s; reflexivity. Qed.

Lemma contains_app_l (sub a b : string) :
  contains sub a = true -> contains sub (a ++ b) = true.
Proof.
  induction a as [|c a IH]; rewrite contains_unfold; intros H.
  - destruct (String.prefix sub "") eqn:E; [|discriminate].
    apply contains_prefix. exact (prefix_app_l _ _ b E).
  - destruct (String.prefix sub (String c a)) eqn:E.
    + apply contains_prefix. exact (prefix_app_l _ _ b E).
    + change (String c a ++ b) with (String c (a ++ b)). rewrite contains_unfold.
      destruct (String.prefix sub (String c (a ++ b))); [reflexivity | auto].
Qed.

Lemma contains_app_r (sub a b : string) :
  contains sub b = true -> contains sub (a ++ b) = true.
Proof.
  intros H. induction a as [|c a IH]; [exact H|].
  change (String c a ++ b) with (String c (a ++ b)). rewrite contains_unfold.
  destruct (String.prefix sub (String c (a ++ b))); [reflexivity | exact IH].
Qed.

(** A line that has a colon and a space in it and ends with the given
    mark. *)
Ltac find_colon :=
  first [ reflexivity
        | apply contains_app_l; reflexivity
        | apply contains_app_r; find_colon ].

Ltac entry_line :=
  unfold is_entry; apply andb_true_intro; split;
  [ find_colon
  | rewrite <- !append_assoc; rewrite !ends_with_char_app; reflexivity ].

Lemma entries_app (l1 l2 : list string) : entries (l1 ++ l2) = entries l1 + entries l2.
Proof. unfold entries. now rewrite filter_app, length_app. Qed.

Lemma entries_cons_entry (x : string) (l : list string) :
  is_entry x = true -> entries (x :: l) = S (entries l).
Proof. intros H. unfold entries. cbn [filter]. now rewrite H. Qed.

Lemma entries_cons_other (x : string) (l : list string) :
  is_entry x = false -> entries (x :: l) = entries l.
Proof. intros H. unfold entries. cbn [filter]. now rewrite H. Qed.

Lemma entries_map_all (A : Type) (f : A -> string) (l : list A) :
  (forall x, is_entry (f x) = true) -> entries (map f l) = length l.
Proof.
  intros H. unfold entries. induction l as [|x l IH]; simpl; [reflexivity|].
  rewrite H. simpl. now rewrite IH.
Qed.

Lemma entries_concat_map (A : Type) (f : A -> list string) (l : list A) :
  entries (concat (map f l)) = list_sum (map (fun x => entries (f x)) l).
Proof.
  induction l as [|x l IH]; simpl; [reflexivity|].
  now rewrite entries_app, IH.
Qed.

Lemma entries_flat_map (A : Type) (f : A -> list string) (l : list A) (n : nat) :
  (forall x, entries (f x) = n) -> entries (flat_map f l) = n * length l.
Proof.
  intros H. induction l as [|x l IH]; simpl; [unfold entries; simpl; lia|].
  rewrite entries_app, H, IH. lia.
Qed.

Lemma mapM_map_ok (A B C : Type) (f : B -> result C) (g : A -> B) (h : A -> C) (l : list A) :
  (forall x, f (g x) = Ok (h x)) -> mapM f (map g l) = Ok (map h l).
Proof.
  intros H. induction l as [|x l IH]; simpl; [reflexivity|].
  rewrite H. simpl. rewrite IH. reflexivity.
Qed.

Lemma css_color_entry (scheme color_name value : string) :
  is_entry ("  --color-" ++ scheme ++ "-" ++ color_name ++ ": " ++ value ++ ";") = true.
Proof. entry_line. Qed.

Lemma scss_color_entry (scheme color_name value : string) :
  is_entry ("$color-" ++ scheme ++ "-" ++ color_name ++ ": " ++ value ++ ";") = true.
Proof. entry_line. Qed.

Lemma css_heading_entry (heading prop_name value : string) :
  is_entry ("  --typography-" ++ heading ++ "-" ++ prop_name ++ ": " ++ value ++ ";") = true.
Proof. entry_line. Qed.

Lemma scss_map_entry (indent key value : string) :
  is_entry (indent ++ key ++ ": " ++ value ++ ",") = true.
Proof. entry_line. Qed.

Lemma css_named_entry (prefix key value : string) :
  is_entry (prefix ++ key ++ ": " ++ value ++ ";") = true.
Proof. entry_line. Qed.

Lemma literal_entry (label value : string) :
  contains ": " label = true -> is_entry (label ++ value ++ ";") = true.
Proof.
  intros H. unfold is_entry. apply andb_true_intro. split.
  - now apply contains_app_l.
  - rewrite <- !append_assoc, !ends_with_char_app. reflexivity.
Qed.

Lemma scss_heading_opening (heading : string) : is_entry ("  " ++ heading ++ ": (") = false.
Proof.
  unfold is_entry. change ": (" with (": " ++ "(").
  rewrite <- !append_assoc, !ends_with_char_app. simpl. apply andb_false_r.
Qed.

Lemma spacing_lines_length (A : Type) (values : list A) :
  length (combine (seq 0 (length values)) values) = length values.
Proof. rewrite length_combine, length_seq. apply Nat.min_id. Qed.

(** The lines of the two exports, for a theme whose headings are a mapping
    of mappings and whose scale can be iterated. *)
Lemma export_css_lines_ok (theme : Theme) (hs : list (string * dict)) (values : list json) :
  headings (typography theme) = headings_json hs ->
  iterate (scale (spacing theme)) = Ok values ->
  exists css,
    ThemeManager._export_css_lines theme = Ok css /\
    entries css
    = 9 * length (color_schemes theme) + (3 + heading_entries hs) + (1 + length values) + 6.
Proof.
  intros Hh Hv. unfold ThemeManager._export_css_lines.
  rewrite Hh, Hv. unfold headings_json. cbn [bind items].
  erewrite mapM_map_ok with
    (h := fun h : string * dict =>
            map (fun '(prop_name, prop_value) =>
                   "  --typography-" ++ fst h ++ "-" ++ prop_name ++ ": " ++ py_str prop_value ++ ";")
                (snd h));
    [|intros [heading props]; reflexivity].
  cbn [bind]. eexists. split; [reflexivity|].
  rewrite !entries_app.
  rewrite (entries_flat_map _ _ (n := 9)).
  2:{ intros [scheme palette]. rewrite entries_map_all; [reflexivity|].
      intros [color_name color_value]. apply css_color_entry. }
  rewrite entries_concat_map.
  rewrite (entries_map_all (A := nat * json)).
  2:{ intros [i value]. apply (css_named_entry "  --spacing-"). }
  rewrite (entries_map_all (A := string * json)).
  2:{ intros [breakpoint value]. apply (css_named_entry "  --breakpoint-"). }
  rewrite spacing_lines_length.
  replace (map (fun x : string * dict => entries _) hs)
    with (map (fun h : string * dict => length (snd h)) hs).
  2:{ apply map_ext. intros [heading props]. simpl. symmetry. apply entries_map_all.
      intros [prop_name prop_value]. apply css_heading_entry. }
  unfold heading_entries.
  change (entries [":root {"]) with 0. change (entries ["}"]) with 0.
  assert (E1 : forall a b c, entries ["  --font-family: " ++ a ++ ";";
                                       "  --font-size-base: " ++ b ++ ";";
                                       "  --line-height-base: " ++ c ++ ";"] = 3).
  { intros a b c.
    rewrite !entries_cons_entry by (apply literal_entry; reflexivity). reflexivity. }
  assert (E2 : forall a, entries ["  --spacing-unit: " ++ a ++ ";"] = 1).
  { intros a. rewrite entries_cons_entry by (apply literal_entry; reflexivity). reflexivity. }
  rewrite E1, E2. simpl length. unfold dict. lia.
Qed.

Lemma export_scss_lines_ok (theme : Theme) (hs : list (string * dict)) (values : list json) :
  headings (typography theme) = headings_json hs ->
  iterate (scale (spacing theme)) = Ok values ->
  exists scss,
    ThemeManager._export_scss_lines theme = Ok scss /\
    entries scss
    = 9 * length (color_schemes theme) + (3 + heading_entries hs) + (1 + length values) + 6.
Proof.
  intros Hh Hv. unfold ThemeManager._export_scss_lines.
  rewrite Hh, Hv. unfold headings_json. cbn [bind items].
  erewrite mapM_map_ok with
    (h := fun h : string * dict =>
            (("  " ++ fst h ++ ": (")%string
               :: map (fun '(prop_name, prop_value) =>
                         ("    " ++ prop_name ++ ": " ++ py_str prop_value ++ ",")%string)
                      (snd h)
               ++ [ "  )," ])%list);
    [|intros [heading props]; reflexivity].
  cbn [bind]. eexists. split; [reflexivity|].
  rewrite !entries_app.
  rewrite (entries_flat_map _ _ (n := 9)).
  2:{ intros [scheme palette]. rewrite entries_map_all; [reflexivity|].
      intros [color_name color_value]. apply scss_color_entry. }
  rewrite entries_concat_map.
  rewrite (entries_map_all (A := nat * json)).
  2:{ intros [i value]. apply (scss_map_entry "  "). }
  rewrite (entries_map_all (A := string * json)).
  2:{ intros [breakpoint value]. apply (scss_map_entry "  "). }
  rewrite spacing_lines_length.
  replace (map (fun x : string * dict => entries _) hs)
    with (map (fun h : string * dict => length (snd h)) hs).
  2:{ apply map_ext. intros [heading props]. cbn [fst snd].
      rewrite entries_cons_other by apply scss_heading_opening.
      rewrite entries_app. rewrite entries_map_all.
      2:{ intros [prop_name prop_value]. apply (scss_map_entry "    "). }
      change (entries ["  ),"]) with 0. lia. }
  unfold heading_entries.
  change (entries ["$typography: ("]) with 0. change (entries [");"]) with 0.
  change (entries ["$spacing: ("]) with 0. change (entries ["$breakpoints: ("]) with 0.
  assert (E1 : forall a b c, entries ["$font-family: " ++ a ++ ";";
                                       "$font-size-base: " ++ b ++ ";";
                                       "$line-height-base: " ++ c ++ ";"] = 3).
  { intros a b c.
    rewrite !entries_cons_entry by (apply literal_entry; reflexivity). reflexivity. }
  assert (E2 : forall a, entries ["$spacing-unit: " ++ a ++ ";"] = 1).
  { intros a. rewrite entries_cons_entry by (apply literal_entry; reflexivity). reflexivity. }
  rewrite E1, E2. simpl length. unfold dict. lia.
Qed.

(** C6, as the code has it.  For a theme of the store whose headings are a
    mapping of mappings and whose scale can be iterated, the CSS and the
    SCSS export return their lines joined, and both have as many entries:
    nine for each scheme, the three font variables and one for each property
    of each heading, the spacing unit and one for each step of the scale,
    and the six breakpoints. *)
Theorem export_css_scss_same_entries
  (self : ThemeManager.t) (name : string) (theme : Theme)
  (hs : list (string * dict)) (values : list json) :
  ThemeManager.get_theme self name = Some theme ->
  headings (typography theme) = headings_json hs ->
  iterate (scale (spacing theme)) = Ok values ->
  exists css scss,
    ThemeManager.export_theme self name "css" = Ok (join nl css) /\
    ThemeManager.export_theme self name "scss" = Ok (join nl scss) /\
    ThemeManager._export_css_lines theme = Ok css /\
    ThemeManager._export_scss_lines theme = Ok scss /\
    entries css
    = 9 * length (color_schemes theme) + (3 + heading_entries hs) + (1 + length values) + 6 /\
    entries scss = entries css.
Proof.
  intros Hg Hh Hv.
  destruct (export_css_lines_ok theme Hh Hv) as (css & Hc & Nc).
  destruct (export_scss_lines_ok theme Hh Hv) as (scss & Hs & Ns).
  exists css, scss. unfold ThemeManager.export_theme. rewrite Hg.
  cbn [String.eqb Ascii.eqb Bool.eqb].
  unfold ThemeManager._export_css, ThemeManager._export_scss. rewrite Hc, Hs.
  cbn [bind]. repeat split; congruence.
Qed.

Lemma export_css_scss_same_entries_witness :
  exists css scss,
    ThemeManager.export_theme default_manager "default" "css" = Ok (join nl css) /\
    ThemeManager.export_theme default_manager "default" "scss" = Ok (join nl scss) /\
    entries css = 23 /\ entries scss = 23.
Proof.
  destruct (ThemeManager.get_theme default_manager "default") as [theme|] eqn:Hg.
  2:{ vm_compute in Hg. discriminate Hg. }
  destruct (@export_css_scss_same_entries default_manager "default" theme
              [("h1", [("font-size", JStr "2rem"); ("font-weight", JNum 700)])]
              [JStr "4px"; JStr "8px"] Hg)
    as (css & scss & H1 & H2 & _ & _ & H3 & H4).
  - vm_compute in Hg. injection Hg as <-. reflexivity.
  - vm_compute in Hg. injection Hg as <-. reflexivity.
  - exists css, scss. split; [exact H1|]. split; [exact H2|].
    assert (E : entries css = 23).
    { rewrite H3. vm_compute in Hg. injection Hg as <-. reflexivity. }
    split; [exact E | now rewrite H4].
Defined.

(** C6, as stated, fails.  [create_theme] stores a theme whose headings are
    the text bold, since [_parse_theme] takes the headings as they come; for
    that theme of the store neither export returns any entry: both raise
    AttributeError. *)
Lemma stored_theme_without_entries :
  exists theme self,
    ThemeManager.create_theme empty_manager (payload_with_headings "plain" (JStr "bold"))
    = (Ok theme, self) /\
    ThemeManager.get_theme self "plain" = Some theme /\
    ThemeManager.export_theme self "plain" "css" = Raise AttributeError /\
    ThemeManager.export_theme self "plain" "scss" = Raise AttributeError.
Proof.
  eexists; eexists. split; [vm_compute; reflexivity|].
  split; [vm_compute; reflexivity|].
  split; [vm_compute; reflexivity | vm_compute; reflexivity].
Qed.

Lemma mapM_same_outcome (A B C : Type) (f : A -> result B) (g : A -> result C) (l : list A) :
  (forall x, same_outcome (f x) (g x)) -> same_outcome (mapM f l) (mapM g l).
Proof.
  intros H. induction l as [|x l IH]; simpl; [exact I|].
  specialize (H x). destruct (f x), (g x); simpl in *; try contradiction; [|exact H].
  destruct (mapM f l), (mapM g l); simpl in *; try contradiction; [exact I | exact IH].
Qed.

(** The two exports fail together, on the same exception: on a theme whose
    headings or scale are not of the declared kind. *)
Lemma export_css_scss_same_outcome (theme : Theme) :
  same_outcome (ThemeManager._export_css theme) (ThemeManager._export_scss theme).
Proof.
  unfold ThemeManager._export_css, ThemeManager._export_scss,
    ThemeManager._export_css_lines, ThemeManager._export_scss_lines.
  destruct (items (headings (typography theme))) as [hs|e]; simpl; [|reflexivity].
  match goal with
  | |- same_outcome (bind (bind (mapM ?f hs) _) _) (bind (bind (mapM ?g hs) _) _) =>
      assert (H : same_outcome (mapM f hs) (mapM g hs));
      [ apply mapM_same_outcome; intros [heading props];
        destruct (items props); cbn [bind same_outcome]; [exact I | reflexivity]
      | destruct (mapM f hs), (mapM g hs) ]
  end; cbn [bind same_outcome] in *; try contradiction; try exact H.
  destruct (iterate (scale (spacing theme))); cbn [bind same_outcome]; [exact I | reflexivity].
Qed.

(* ================================================================== *)
(** * The json module: decoding what was encoded *)
(* ================================================================== *)

Lemma length_append (a b : string) : String.length (a ++ b) = String.length a + String.length b.
Proof. induction a; simpl; congruence. Qed.

Lemma skip_ws_spaces (n : nat) (s : string) : skip_ws (spaces n ++ s) = skip_ws s.
Proof. induction n; simpl; auto. Qed.

Lemma skip_ws_newline_indent (n : nat) (s : string) : skip_ws (nl ++ spaces n ++ s) = skip_ws s.
Proof. simpl. apply skip_ws_spaces. Qed.

Lemma skip_ws_head (c : ascii) (s : string) : is_ws c = false -> skip_ws (String c s) = String c s.
Proof. intros H. simpl. now rewrite H. Qed.

(** Strings. *)
Lemma scanstring_encode_char (c : ascii) (tail : string) (r : string * string) :
  scanstring tail = Ok r ->
  scanstring (encode_char c ++ tail) = Ok (String c (fst r), snd r).
Proof.
  intros H.
  destruct c as [[] [] [] [] [] [] [] []];
    match goal with
    | |- scanstring (encode_char ?c ++ _) = _ =>
        let e := eval vm_compute in (encode_char c) in
        change (encode_char c) with e
    end;
    cbn; rewrite H; reflexivity.
Qed.

Lemma scanstring_encode_body (s rest : string) :
  scanstring (encode_body s ++ dquote ++ rest) = Ok (s, rest).
Proof.
  induction s as [|c s IH]; [reflexivity|].
  cbn [encode_body]. rewrite append_assoc.
  now rewrite (scanstring_encode_char c _ IH).
Qed.

(** Numbers. *)
Lemma scan_digits_string_of_uint (d : Decimal.uint) (rest : string) :
  stops_digits rest -> scan_digits (NilEmpty.string_of_uint d ++ rest) = (d, rest).
Proof.
  intros Hrest. induction d; cbn [NilEmpty.string_of_uint append];
    try (cbn [scan_digits]; rewrite IHd; reflexivity).
  destruct rest as [|c rest]; [reflexivity|].
  cbn [scan_digits]. simpl in Hrest. now rewrite Hrest.
Qed.

Lemma nzhead_head (d d' : Decimal.uint) : Decimal.nzhead d <> Decimal.D0 d'.
Proof. induction d; simpl; try discriminate. exact IHd. Qed.

Lemma pos_to_uint_head (p : positive) (d' : Decimal.uint) : Pos.to_uint p <> Decimal.D0 d'.
Proof.
  intros H.
  pose proof (DecimalPos.Unsigned.to_of (Pos.to_uint p)) as E.
  rewrite DecimalPos.Unsigned.of_to in E. simpl in E.
  unfold Decimal.unorm in E.
  destruct (Decimal.nzhead (Pos.to_uint p)) eqn:N;
    try (exact (nzhead_head _ N));
    try (rewrite H in E; discriminate E).
  exact (DecimalPos.Unsigned.to_uint_nonzero p E).
Qed.

Lemma stops_number_digits (rest : string) : stops_number rest -> stops_digits rest.
Proof. destruct rest; simpl; tauto. Qed.

Lemma stops_number_fraction (rest : string) : stops_number rest -> starts_fraction rest = false.
Proof. destruct rest; simpl; tauto. Qed.

Lemma scan_natural_pos (p : positive) (rest : string) :
  stops_number rest ->
  scan_natural (NilEmpty.string_of_uint (Pos.to_uint p) ++ rest) = Ok (Pos.to_uint p, rest).
Proof.
  intros Hrest. unfold scan_natural.
  rewrite (scan_digits_string_of_uint _ _ (stops_number_digits _ Hrest)).
  pose proof (DecimalPos.Unsigned.to_uint_nonnil p) as Hnil.
  pose proof (pos_to_uint_head p) as Hhead.
  rewrite (stops_number_fraction _ Hrest).
  destruct (Pos.to_uint p) as [|d|d|d|d|d|d|d|d|d|d]; try reflexivity.
  - now elim Hnil.
  - now elim (Hhead d).
Qed.

Lemma string_of_uint_pos (p : positive) :
  NilZero.string_of_uint (Pos.to_uint p) = NilEmpty.string_of_uint (Pos.to_uint p).
Proof.
  pose proof (DecimalPos.Unsigned.to_uint_nonnil p) as Hnil.
  destruct (Pos.to_uint p); [now elim Hnil | reflexivity ..].
Qed.

Lemma string_of_uint_pos_head (p : positive) :
  exists c s, NilEmpty.string_of_uint (Pos.to_uint p) = String c s /\
              In c number_start /\ c <> "-"%char.
Proof.
  pose proof (DecimalPos.Unsigned.to_uint_nonnil p) as Hnil.
  destruct (Pos.to_uint p); [now elim Hnil | ..];
    (eexists; eexists; split; [reflexivity | split; [simpl; tauto | discriminate]]).
Qed.

Lemma str_int_head (z : Z) :
  exists c s, str_int z = String c s /\ In c number_start.
Proof.
  destruct z as [|p|p]; unfold str_int; simpl.
  - exists "0"%char, "". split; [reflexivity | simpl; tauto].
  - rewrite string_of_uint_pos.
    destruct (string_of_uint_pos_head p) as (c & s & E & Hc & _). eauto.
  - eexists; eexists. split; [reflexivity | simpl; tauto].
Qed.

Lemma scan_number_digits (c : ascii) (s : string) :
  In c number_start -> c <> "-"%char ->
  scan_number (String c s)
  = (r <- scan_natural (String c s) ;; Ok (JNum (Z.of_int (Decimal.Pos (fst r))), snd r)) /\
  String.prefix "Infinity" (String c s) = false.
Proof.
  intros Hin Hc. unfold number_start in Hin. cbn [In] in Hin.
  repeat (destruct Hin as [<- | Hin]; [first [now elim Hc | split; reflexivity]|]).
  destruct Hin.
Qed.

Lemma scan_number_str_int (z : Z) (rest : string) :
  stops_number rest -> scan_number (str_int z ++ rest) = Ok (JNum z, rest).
Proof.
  intros Hrest. destruct z as [|p|p]; unfold str_int; simpl Z.to_int.
  - pose proof (scan_digits_string_of_uint (Decimal.D0 Decimal.Nil) _
                  (stops_number_digits _ Hrest)) as E.
    change (scan_number (String "0" rest) = Ok (JNum 0, rest)).
    change (scan_digits (String "0" rest) = (Decimal.D0 Decimal.Nil, rest)) in E.
    rewrite (proj1 (@scan_number_digits "0" rest ltac:(simpl; tauto) ltac:(discriminate))).
    unfold scan_natural. rewrite E.
    now rewrite (stops_number_fraction _ Hrest).
  - cbn [NilZero.string_of_int]. rewrite string_of_uint_pos.
    destruct (string_of_uint_pos_head p) as (c & s & E & Hin & Hc).
    assert (Hn : scan_number (NilEmpty.string_of_uint (Pos.to_uint p) ++ rest)
                 = (r <- scan_natural (NilEmpty.string_of_uint (Pos.to_uint p) ++ rest) ;;
                    Ok (JNum (Z.of_int (Decimal.Pos (fst r))), snd r))).
    { rewrite E. cbn [append]. exact (proj1 (scan_number_digits (s ++ rest) Hin Hc)). }
    rewrite Hn, (scan_natural_pos _ _ Hrest). cbn [bind fst snd].
    pose proof (DecimalZ.of_to (Zpos p)) as Ez. simpl Z.to_int in Ez. now rewrite Ez.
  - cbn [NilZero.string_of_int append]. rewrite string_of_uint_pos.
    destruct (string_of_uint_pos_head p) as (c & s & E & Hin & Hc).
    unfold scan_number.
    assert (Hi : String.prefix "Infinity" (NilEmpty.string_of_uint (Pos.to_uint p) ++ rest)
                 = false).
    { rewrite E. cbn [append]. exact (proj2 (scan_number_digits (s ++ rest) Hin Hc)). }
    rewrite Hi, (scan_natural_pos _ _ Hrest). cbn [bind fst snd].
    pose proof (DecimalZ.of_to (Zneg p)) as Ez. simpl Z.to_int in Ez. now rewrite Ez.
Qed.

Lemma scan_once_number (fuel : nat) (c : ascii) (s : string) :
  In c number_start -> scan_once (S fuel) (String c s) = scan_number (String c s).
Proof.
  intros H. simpl in H.
  repeat (destruct H as [<- | H]; [reflexivity|]). destruct H.
Qed.

(** The decoder, one step at a time. *)
Lemma scan_elements_eq (fuel : nat) (s : string) :
  scan_elements (S fuel) s
  = (r <- scan_once fuel s ;;
     match skip_ws (snd r) with
     | String "]" rest => Ok ([fst r], rest)
     | String "," rest =>
         r' <- scan_elements fuel (skip_ws rest) ;; Ok (fst r :: fst r', snd r')
     | _ => Raise JSONDecodeError
     end).
Proof. reflexivity. Qed.

Lemma scan_members_eq (fuel : nat) (s : string) :
  scan_members (S fuel) s
  = (k <- scanstring s ;;
     match skip_ws (snd k) with
     | String ":" rest =>
         r <- scan_once fuel (skip_ws rest) ;;
         match skip_ws (snd r) with
         | String "}" rest1 => Ok ([(fst k, fst r)], rest1)
         | String "," rest1 =>
             match skip_ws rest1 with
             | String c rest2 =>
                 if (nat_of_ascii c =? 34)%nat then
                   r' <- scan_members fuel rest2 ;; Ok ((fst k, fst r) :: fst r', snd r')
                 else Raise JSONDecodeError
             | EmptyString => Raise JSONDecodeError
             end
         | _ => Raise JSONDecodeError
         end
     | _ => Raise JSONDecodeError
     end).
Proof. reflexivity. Qed.

Lemma scan_once_array (fuel : nat) (s : string) :
  scan_once (S fuel) (String "[" s)
  = match skip_ws s with
    | String "]" rest1 => Ok (JArr [], rest1)
    | rest1 => r <- scan_elements fuel rest1 ;; Ok (JArr (fst r), snd r)
    end.
Proof. reflexivity. Qed.

Lemma scan_once_object (fuel : nat) (s : string) :
  scan_once (S fuel) (String "{" s)
  = match skip_ws s with
    | String "}" rest1 => Ok (JObj [], rest1)
    | String c1 rest1 =>
        if (nat_of_ascii c1 =? 34)%nat then
          r <- scan_members fuel rest1 ;; Ok (JObj (dict_of_pairs (fst r)), snd r)
        else Raise JSONDecodeError
    | EmptyString => Raise JSONDecodeError
    end.
Proof. reflexivity. Qed.

Lemma scan_once_string (fuel : nat) (s : string) :
  scan_once (S fuel) (dquote ++ s) = (r <- scanstring s ;; Ok (JStr (fst r), snd r)).
Proof. reflexivity. Qed.

(** The encoder, one step at a time. *)
Lemma iterencode_arr (level : nat) (x : json) (l : list json) :
  iterencode level (JArr (x :: l))
  = "[" ++ newline_indent level
        ++ join (item_separator level) (map (iterencode (S level)) (x :: l))
        ++ closing_indent level ++ "]".
Proof. reflexivity. Qed.

Lemma iterencode_obj (level : nat) (p : string * json) (d : list (string * json)) :
  iterencode level (JObj (p :: d))
  = "{" ++ newline_indent level
        ++ join (item_separator level) (map (encode_member level) (p :: d))
        ++ closing_indent level ++ "}".
Proof. reflexivity. Qed.

Lemma join_cons (sep x y : string) (l : list string) :
  join sep (x :: y :: l) = x ++ sep ++ join sep (y :: l).
Proof. reflexivity. Qed.

Lemma join_elements_then (level : nat) (l : list json) (x : json) (tail : string) :
  join (item_separator level) (map (iterencode (S level)) (x :: l))
    ++ closing_indent level ++ "]" ++ tail
  = elements_then level x l tail.
Proof.
  revert x. induction l as [|y l IH]; intros x.
  - cbn [map elements_then]. unfold join, closing_indent. cbn [String.concat].
    now rewrite !append_assoc.
  - cbn [map] in *. rewrite join_cons. cbn [elements_then]. rewrite <- IH.
    unfold item_separator at 1, newline_indent. now rewrite !append_assoc.
Qed.

Lemma join_members_then (level : nat) (d : list (string * json)) (p : string * json)
  (tail : string) :
  join (item_separator level) (map (encode_member level) (p :: d))
    ++ closing_indent level ++ "}" ++ tail
  = dquote ++ members_then level p d tail.
Proof.
  revert p. induction d as [|q d IH]; intros p.
  - cbn [map members_then]. unfold join, closing_indent. cbn [String.concat].
    unfold encode_member, encode_basestring_ascii. now rewrite !append_assoc.
  - cbn [map] in *. rewrite join_cons. cbn [members_then]. rewrite !append_assoc, IH.
    unfold item_separator at 1, newline_indent, encode_member, encode_basestring_ascii.
    now rewrite !append_assoc.
Qed.

(** Every encoding starts with a character that is no white space and no
    closing bracket. *)
Lemma iterencode_head (level : nat) (v : json) :
  exists c s, iterencode level v = String c s /\ is_ws c = false /\ c <> "]"%char.
Proof.
  destruct v as [|[]|z|s|[|x l]|[|p d]];
    try (eexists; eexists; split; [reflexivity | split; [reflexivity | discriminate]]).
  destruct (str_int_head z) as (c & s & E & Hc).
  exists c, s. split; [exact E|]. simpl in Hc.
  repeat (destruct Hc as [<- | Hc]; [split; [reflexivity | discriminate]|]). destruct Hc.
Qed.

Lemma skip_ws_value (level : nat) (v : json) (tail : string) :
  skip_ws (iterencode level v ++ tail) = iterencode level v ++ tail.
Proof.
  destruct (iterencode_head level v) as (c & s & -> & Hws & _).
  now apply skip_ws_head.
Qed.

Lemma stops_number_newline (s : string) : stops_number (nl ++ s).
Proof. split; reflexivity. Qed.

Lemma stops_number_comma (s : string) : stops_number ("," ++ s).
Proof. split; reflexivity. Qed.

Lemma elements_then_head (level : nat) (x : json) (l : list json) (tail : string) :
  exists c s, elements_then level x l tail = String c s /\ is_ws c = false /\ c <> "]"%char.
Proof.
  destruct (iterencode_head (S level) x) as (c & s & E & Hws & Hc).
  destruct l; cbn [elements_then]; rewrite E; cbn [append]; eauto.
Qed.

Lemma scan_once_array_items (fuel : nat) (s t : string) (c : ascii) :
  skip_ws s = String c t -> c <> "]"%char ->
  scan_once (S fuel) (String "[" s)
  = (r <- scan_elements fuel (String c t) ;; Ok (JArr (fst r), snd r)).
Proof.
  intros E Hc. rewrite scan_once_array, E.
  destruct c as [[] [] [] [] [] [] [] []]; try reflexivity. now elim Hc.
Qed.

Lemma scan_once_object_members (fuel : nat) (s t : string) :
  skip_ws s = dquote ++ t ->
  scan_once (S fuel) (String "{" s)
  = (r <- scan_members fuel t ;; Ok (JObj (dict_of_pairs (fst r)), snd r)).
Proof. intros E. rewrite scan_once_object, E. reflexivity. Qed.

(** The elements of a list, up to its closing bracket. *)
Lemma scan_elements_encoded (level : nat) (l : list json) :
  forall (x : json) (fuel : nat) (tail : string),
    Forall decodes (x :: l) ->
    list_sum (map (fun v => S (need v)) (x :: l)) <= fuel ->
    scan_elements fuel (elements_then level x l tail) = Ok (x :: l, tail).
Proof.
  induction l as [|y l IH]; intros x fuel tail Hall Hfuel;
    (destruct fuel as [|fuel]; [simpl in Hfuel; lia|]);
    inversion Hall as [|? ? Hx Hl]; subst; rewrite scan_elements_eq;
    cbn [elements_then].
  - rewrite Hx; [| simpl in Hfuel; lia | apply stops_number_newline].
    cbn [bind fst snd]. rewrite skip_ws_newline_indent. reflexivity.
  - rewrite Hx; [| simpl in Hfuel; lia | apply stops_number_comma].
    cbn [bind fst snd].
    change (skip_ws ("," ++ nl ++ spaces (2 * S level) ++ elements_then level y l tail))
      with (String "," (nl ++ spaces (2 * S level) ++ elements_then level y l tail)).
    cbv beta iota. rewrite skip_ws_newline_indent.
    destruct (elements_then_head level y l tail) as (c & s & E & Hws & _).
    rewrite E, (skip_ws_head _ _ Hws), <- E.
    rewrite (IH y fuel tail Hl); [reflexivity|].
    simpl in Hfuel |- *. lia.
Qed.

(** The members of a dict, up to its closing brace. *)
Lemma scan_members_encoded (level : nat) (d : list (string * json)) :
  forall (p : string * json) (fuel : nat) (tail : string),
    Forall (fun q => decodes (snd q)) (p :: d) ->
    list_sum (map (fun q => S (need (snd q))) (p :: d)) <= fuel ->
    scan_members fuel (members_then level p d tail) = Ok (p :: d, tail).
Proof.
  induction d as [|q d IH]; intros [k v] fuel tail Hall Hfuel;
    (destruct fuel as [|fuel]; [simpl in Hfuel; lia|]);
    inversion Hall as [|? ? Hv Hd]; subst; rewrite scan_members_eq;
    cbn [members_then fst snd] in *; rewrite scanstring_encode_body;
    cbn [bind fst snd];
    match goal with
    | |- context [skip_ws (": " ++ ?s)] =>
        change (skip_ws (": " ++ s)) with (String ":" (" " ++ s));
        cbv beta iota;
        change (skip_ws (" " ++ s)) with (skip_ws s)
    end;
    rewrite skip_ws_value.
  - rewrite Hv; [| simpl in Hfuel; lia | apply stops_number_newline].
    cbn [bind fst snd]. rewrite skip_ws_newline_indent. reflexivity.
  - rewrite Hv; [| simpl in Hfuel; lia | apply stops_number_comma].
    cbn [bind fst snd].
    match goal with
    | |- context [skip_ws ("," ++ ?t)] =>
        change (skip_ws ("," ++ t)) with (String "," t)
    end.
    cbv beta iota. rewrite skip_ws_newline_indent.
    match goal with
    | |- context [skip_ws (dquote ++ ?t)] =>
        change (skip_ws (dquote ++ t)) with (String (ascii_of_nat 34) t)
    end.
    cbv beta iota.
    change (nat_of_ascii (ascii_of_nat 34) =? 34)%nat with true. cbv beta iota.
    rewrite (IH q fuel tail Hd); [reflexivity|].
    simpl in Hfuel |- *. lia.
Qed.

Lemma dict_set_fresh (V : Type) (key : string) (value : V) (d : list (string * V)) :
  ~ In key (keys d) -> dict_set key value d = (d ++ [(key, value)])%list.
Proof.
  induction d as [|[k v] d IH]; simpl; intros H; [reflexivity|].
  destruct (String.eqb_spec k key); [tauto|].
  rewrite IH; tauto.
Qed.

Lemma dict_of_pairs_unique (pairs : list (string * json)) :
  NoDup (keys pairs) -> dict_of_pairs pairs = pairs.
Proof.
  unfold dict_of_pairs.
  assert (G : forall acc,
             NoDup (keys (acc ++ pairs)) ->
             fold_left (fun d p => dict_set (fst p) (snd p) d) pairs acc = (acc ++ pairs)%list).
  { induction pairs as [|[k v] pairs IH]; intros acc H; simpl.
    - now rewrite List.app_nil_r.
    - rewrite dict_set_fresh.
      + rewrite IH; rewrite <- List.app_assoc; [reflexivity | exact H].
      + unfold keys in *. rewrite map_app in H. simpl in H.
        apply NoDup_remove_2 in H. intros Hin. apply H. apply in_or_app. now left. }
  intros H. exact (G [] H).
Qed.

Lemma unique_keys_arr (l : list json) : unique_keys (JArr l) <-> Forall unique_keys l.
Proof.
  induction l as [|x l IH]; simpl.
  - split; constructor.
  - split.
    + intros [Hx Hl]. constructor; [exact Hx | now apply IH].
    + intros H. inversion H; subst. split; [assumption | now apply IH].
Qed.

Lemma unique_keys_obj (d : list (string * json)) :
  unique_keys (JObj d) <-> NoDup (keys d) /\ Forall (fun p => unique_keys (snd p)) d.
Proof.
  simpl. apply and_iff_compat_l.
  induction d as [|p d IH].
  - split; constructor.
  - split.
    + intros [Hp Hd]. constructor; [exact Hp | now apply IH].
    + intros H. inversion H; subst. split; [assumption | now apply IH].
Qed.

(** The decoder reads back what the encoder wrote. *)
Lemma scan_once_iterencode (v : json) : unique_keys v -> decodes v.
Proof.
  induction v as [| b | z | s | l IH | d IH] using json_ind;
    intros Hu level fuel rest Hfuel Hrest;
    (destruct fuel as [|fuel]; [simpl in Hfuel; lia|]).
  - reflexivity.
  - destruct b; reflexivity.
  - cbn [iterencode].
    destruct (str_int_head z) as (c & s & E & Hc).
    rewrite <- (scan_number_str_int z rest Hrest). rewrite E. cbn [append].
    now apply scan_once_number.
  - cbn [iterencode]. unfold encode_basestring_ascii. rewrite !append_assoc.
    rewrite scan_once_string, scanstring_encode_body. reflexivity.
  - apply unique_keys_arr in Hu.
    assert (Hall : Forall decodes l).
    { rewrite Forall_forall in *. intros x Hx. apply IH; auto. }
    destruct l as [|x l]; [reflexivity|].
    rewrite iterencode_arr, !append_assoc, join_elements_then.
    destruct (elements_then_head level x l rest) as (c & s & E & Hws & Hc).
    change ("[" ++ ?t) with (String "[" t).
    rewrite (@scan_once_array_items fuel
               (newline_indent level ++ elements_then level x l rest) s c); [| | exact Hc].
    + rewrite <- E, scan_elements_encoded; [reflexivity | exact Hall |].
      simpl in Hfuel |- *. lia.
    + unfold newline_indent. rewrite append_assoc, skip_ws_newline_indent, E.
      now apply skip_ws_head.
  - apply unique_keys_obj in Hu. destruct Hu as [Hnodup Hu].
    assert (Hall : Forall (fun q => decodes (snd q)) d).
    { rewrite Forall_forall in *. intros q Hq. apply IH; auto. }
    destruct d as [|p d]; [reflexivity|].
    rewrite iterencode_obj, !append_assoc, join_members_then.
    change ("{" ++ ?t) with (String "{" t).
    rewrite (@scan_once_object_members fuel
               (newline_indent level ++ dquote ++ members_then level p d rest)
               (members_then level p d rest)).
    + rewrite scan_members_encoded; [| exact Hall | simpl in Hfuel |- *; lia].
      cbn [bind fst snd]. now rewrite dict_of_pairs_unique.
    + unfold newline_indent. rewrite append_assoc, skip_ws_newline_indent. reflexivity.
Qed.

(** The fuel [json_load] gives is enough: no value needs more than its
    encoding is long. *)
Lemma str_int_length (z : Z) : 1 <= String.length (str_int z).
Proof. destruct (str_int_head z) as (c & s & -> & _). simpl. lia. Qed.

Lemma need_items_length (sep : string) (f : json -> string) (l : list json) (x : json) :
  1 <= String.length sep ->
  Forall (fun v => need v <= String.length (f v)) (x :: l) ->
  list_sum (map (fun v => S (need v)) (x :: l)) <= 1 + String.length (join sep (map f (x :: l))).
Proof.
  intros Hsep. revert x. induction l as [|y l IH]; intros x H;
    inversion H as [|? ? Hx Hl]; subst.
  - simpl. lia.
  - cbn [map] in *. rewrite join_cons, !length_append.
    specialize (IH y Hl). simpl in IH |- *. lia.
Qed.

Lemma need_members_length (sep : string) (level : nat) (d : list (string * json))
  (p : string * json) :
  1 <= String.length sep ->
  Forall (fun q => need (snd q) <= String.length (iterencode (S level) (snd q))) (p :: d) ->
  list_sum (map (fun q => S (need (snd q))) (p :: d))
  <= 1 + String.length (join sep (map (encode_member level) (p :: d))).
Proof.
  intros Hsep. revert p. induction d as [|q d IH]; intros p H;
    inversion H as [|? ? Hp Hd]; subst.
  - cbn [map join String.concat list_sum fold_right]. unfold encode_member.
    rewrite !length_append. lia.
  - cbn [map] in *. rewrite join_cons, !length_append.
    specialize (IH q Hd). unfold encode_member at 1. rewrite !length_append.
    simpl in IH |- *. lia.
Qed.

Lemma need_le_length (v : json) :
  forall level, need v <= String.length (iterencode level v).
Proof.
  induction v as [| b | z | s | l IH | d IH] using json_ind; intros level.
  - simpl. lia.
  - destruct b; simpl; lia.
  - apply str_int_length.
  - cbn [need iterencode]. unfold encode_basestring_ascii. rewrite !length_append. simpl. lia.
  - destruct l as [|x l]; [simpl; lia|].
    rewrite iterencode_arr, !length_append. cbn [need].
    assert (H : list_sum (map (fun v => S (need v)) (x :: l))
                <= 1 + String.length (join (item_separator level)
                                        (map (iterencode (S level)) (x :: l)))).
    { apply need_items_length.
      - unfold item_separator. rewrite length_append. simpl. lia.
      - rewrite Forall_forall in *. intros v Hv. apply (IH v Hv). }
    unfold newline_indent. rewrite length_append. simpl String.length at 1 2. lia.
  - destruct d as [|p d]; [simpl; lia|].
    rewrite iterencode_obj, !length_append. cbn [need].
    assert (H : list_sum (map (fun q => S (need (snd q))) (p :: d))
                <= 1 + String.length (join (item_separator level)
                                        (map (encode_member level) (p :: d)))).
    { apply need_members_length.
      - unfold item_separator. rewrite length_append. simpl. lia.
      - rewrite Forall_forall in *. intros q Hq. apply (IH q Hq). }
    unfold newline_indent. rewrite length_append. simpl String.length at 1 2. lia.
Qed.

(** [json.load] reads back what [json.dump] wrote with [indent=2]. *)
Lemma json_load_json_dump (v : json) : unique_keys v -> json_load (json_dump v) = Ok v.
Proof.
  intros Hu. unfold json_load, json_dump.
  rewrite <- (append_nil_r (iterencode 0 v)) at 2.
  rewrite skip_ws_value.
  pose proof (scan_once_iterencode v Hu) as H. unfold decodes in H.
  rewrite H; [reflexivity | | exact I].
  pose proof (need_le_length v 0). lia.
Qed.

Lemma ends_with_unfold (suffix s : string) :
  ThemeManager.ends_with suffix s
  = if String.eqb s suffix then true
    else match s with
         | EmptyString => false
         | String _ s' => ThemeManager.ends_with suffix s'
         end.
Proof. destruct s; reflexivity. Qed.

Lemma ends_with_app (suffix a : string) : ThemeManager.ends_with suffix (a ++ suffix) = true.
Proof.
  induction a as [|c a IH]; rewrite ends_with_unfold.
  - cbn [append]. now rewrite String.eqb_refl.
  - cbn [append]. destruct (String.eqb (String c (a ++ suffix)) suffix); [reflexivity | exact IH].
Qed.





(* ================================================================== *)
(** * framework_adapter.py: more on the adapters *)
(* ================================================================== *)

Lemma dispatch_vue (d : ComponentDefinition) :
  UIGenerator.generate_component d (Member VUE) = VueAdapter.generate_component d.
Proof. reflexivity. Qed.

Lemma dispatch_svelte (d : ComponentDefinition) :
  UIGenerator.generate_component d (Member SVELTE) = SvelteAdapter.generate_component d.
Proof. reflexivity. Qed.

Lemma dispatch_nextjs (d : ComponentDefinition) :
  UIGenerator.generate_component d (Member NEXTJS) = NextJSAdapter.generate_component d.
Proof. reflexivity. Qed.

Lemma dispatch_react (d : ComponentDefinition) :
  UIGenerator.generate_component d (Member REACT) = ReactAdapter.generate_component d.
Proof. reflexivity. Qed.

(** As it is shipped the module does not compile: of its four f-strings,
    that of the React adapter holds a field that is no expression, and the
    other three are well formed.  So every call of [generate_component] and
    of [generate_project_structure], for every tree and every target, raises
    SyntaxError when the module is imported, and none returns. *)
Theorem shipped_module_raises (definition : ComponentDefinition)
  (components : list ComponentDefinition) (framework : target) (output_dir : string) :
  map framework_adapter.well_formed framework_adapter.fstrings = [false; true; true; true] /\
  framework_adapter.generate_component definition framework = Raise SyntaxError /\
  framework_adapter.generate_project_structure components framework output_dir
  = Raise SyntaxError.
Proof. split; [reflexivity|]. split; reflexivity. Qed.

Lemma fold_add_component_raise (framework : target) (cs : list ComponentDefinition) (e : exn) :
  fold_left (UIGeneratorFiles.add_component framework) cs (Raise e) = Raise e.
Proof. induction cs as [|c cs IH]; simpl; auto. Qed.

(** For the React target the generator returns no text, whatever the tree,
    and no project files as soon as there is one component. *)
Theorem react_target_returns_nothing (d : ComponentDefinition)
  (components : list ComponentDefinition) (output_dir : string) :
  UIGenerator.generate_component d (Member REACT) = Raise SyntaxError /\
  UIGeneratorFiles.generate_project_structure (d :: components) (Member REACT) output_dir
  = Raise SyntaxError.
Proof.
  assert (H : UIGenerator.generate_component d (Member REACT) = Raise SyntaxError).
  { rewrite dispatch_react. apply react_generate_component_raises. }
  split; [exact H|].
  unfold UIGeneratorFiles.generate_project_structure.
  cbn [fold_left]. unfold UIGeneratorFiles.add_component at 2. cbn [bind].
  rewrite H. cbn [bind]. now rewrite fold_add_component_raise.
Qed.
(** The Svelte and the Next.js adapter render the props from their names
    alone: the descriptors of the props do not show. *)
Theorem props_rendered_from_names (props props' : dict) :
  keys props = keys props' ->
  SvelteAdapter.generate_props props = SvelteAdapter.generate_props props' /\
  NextJSAdapter.generate_props props = NextJSAdapter.generate_props props'.
Proof.
  intros H. unfold SvelteAdapter.generate_props, NextJSAdapter.generate_props. cbv zeta.
  assert (E : forall (g : string -> string) (d : dict),
             map (fun '(name, _) => g name) d = map g (keys d)).
  { intros g d. unfold keys. rewrite map_map. apply map_ext. now intros [n t]. }
  rewrite (E (fun n => "export let " ++ n ++ ";") props),
          (E (fun n => "export let " ++ n ++ ";") props'),
          (E (fun n => n) props), (E (fun n => n) props'), H.
  split; reflexivity.
Qed.

Lemma props_rendered_from_names_witness :
  NextJSAdapter.generate_props [("label", JStr "string")]
  = NextJSAdapter.generate_props [("label", JNum 7)].
Proof.
  apply (@props_rendered_from_names [("label", JStr "string")] [("label", JNum 7)]).
  reflexivity.
Defined.

Lemma mapM_map_same (A B : Type) (f : A -> result B) (g : A -> A) (l : list A) :
  Forall (fun x => f (g x) = f x) l -> mapM f (map g l) = mapM f l.
Proof.
  induction 1 as [|x l Hx _ IH]; [reflexivity|].
  cbn [map mapM]. change (mapM f (map g l)) with (mapM f (map g l)) in IH.
  simpl. rewrite Hx. destruct (f x); simpl; [|reflexivity]. now rewrite IH.
Qed.

(** No adapter reads [framework_specific], at the node or below it: the
    generator gives the same outcome for the tree without these mappings. *)
Theorem framework_specific_not_rendered (d : ComponentDefinition) (framework : target) :
  UIGenerator.generate_component (without_specific d) framework
  = UIGenerator.generate_component d framework.
Proof.
  destruct framework as [[]|v].
  5:{ unfold UIGenerator.generate_component. cbn [UIGenerator.adapters_get].
      destruct (hashable v); reflexivity. }
  - rewrite !dispatch_react.
    induction d as [n p c s f IH] using ComponentDefinition_ind.
    cbn [without_specific ReactAdapter.generate_component].
    now rewrite (mapM_map_same _ _ IH).
  - rewrite !dispatch_vue.
    induction d as [n p c s f IH] using ComponentDefinition_ind.
    cbn [without_specific VueAdapter.generate_component].
    now rewrite (mapM_map_same _ _ IH).
  - rewrite !dispatch_svelte.
    induction d as [n p c s f IH] using ComponentDefinition_ind.
    cbn [without_specific SvelteAdapter.generate_component].
    now rewrite (mapM_map_same _ _ IH).
  - rewrite !dispatch_nextjs.
    induction d as [n p c s f IH] using ComponentDefinition_ind.
    cbn [without_specific NextJSAdapter.generate_component].
    now rewrite (mapM_map_same _ _ IH).
Qed.

(* ================================================================== *)
(** * theme_manager.py: the store *)
(* ================================================================== *)

Lemma key_eqb_sym (a b : json) : ThemeManager.key_eqb a b = ThemeManager.key_eqb b a.
Proof.
  destruct a as [|x|x|x|x|x], b as [|y|y|y|y|y]; simpl; try reflexivity.
  - now destruct x, y.
  - apply Z.eqb_sym.
  - apply String.eqb_sym.
Qed.

Lemma themes_get_set_other (n other : string) (value : Theme) (d : list (json * Theme)) :
  other <> n ->
  ThemeManager.themes_get (JStr other) (ThemeManager.themes_set (JStr n) value d)
  = ThemeManager.themes_get (JStr other) d.
Proof.
  intros Hne. induction d as [|[k x] d IH]; simpl.
  - destruct (String.eqb_spec n other); [congruence | reflexivity].
  - destruct (ThemeManager.key_eqb k (JStr n)) eqn:E; simpl.
    + apply key_eqb_str in E. subst k. simpl.
      destruct (String.eqb_spec n other); [congruence | reflexivity].
    + destruct (ThemeManager.key_eqb k (JStr other)); [reflexivity | exact IH].
Qed.

Lemma themes_set_new (key : json) (value : Theme) (d : list (json * Theme)) :
  ThemeManager.themes_get key d = None ->
  ThemeManager.themes_set key value d = (d ++ [(key, value)])%list.
Proof.
  induction d as [|[k x] d IH]; simpl; [reflexivity|].
  destruct (ThemeManager.key_eqb k key); [discriminate|].
  intros H. now rewrite IH.
Qed.

Lemma themes_get_del_other (n other : string) (d : list (json * Theme)) :
  other <> n ->
  ThemeManager.themes_get (JStr other) (ThemeManager.themes_del (JStr n) d)
  = ThemeManager.themes_get (JStr other) d.
Proof.
  intros Hne. induction d as [|[k x] d IH]; simpl; [reflexivity|].
  destruct (ThemeManager.key_eqb k (JStr n)) eqn:E; simpl.
  - apply key_eqb_str in E. subst k. simpl.
    destruct (String.eqb_spec n other); [congruence | reflexivity].
  - destruct (ThemeManager.key_eqb k (JStr other)); [reflexivity | exact IH].
Qed.

Lemma themes_get_del (n : string) (d : list (json * Theme)) :
  index_is_dict d ->
  ThemeManager.themes_get (JStr n) (ThemeManager.themes_del (JStr n) d) = None.
Proof.
  induction d as [|[k x] d IH]; simpl; [reflexivity|].
  intros (_ & Hk & Hd).
  destruct (ThemeManager.key_eqb k (JStr n)) eqn:E; simpl.
  - apply key_eqb_str in E. now subst k.
  - rewrite E. now apply IH.
Qed.

Lemma themes_get_none_set (k key : json) (value : Theme) (d : list (json * Theme)) :
  ThemeManager.key_eqb k key = false ->
  ThemeManager.themes_get k d = None ->
  ThemeManager.themes_get k (ThemeManager.themes_set key value d) = None.
Proof.
  intros Hne. induction d as [|[k0 x] d IH]; simpl.
  - intros _. now rewrite key_eqb_sym, Hne.
  - destruct (ThemeManager.key_eqb k0 k) eqn:E; [discriminate|].
    intros H. destruct (ThemeManager.key_eqb k0 key); simpl; rewrite E; auto.
Qed.

Lemma themes_get_none_del (k key : json) (d : list (json * Theme)) :
  ThemeManager.themes_get k d = None ->
  ThemeManager.themes_get k (ThemeManager.themes_del key d) = None.
Proof.
  induction d as [|[k0 x] d IH]; simpl; [reflexivity|].
  destruct (ThemeManager.key_eqb k0 k) eqn:E; [discriminate|].
  intros H. destruct (ThemeManager.key_eqb k0 key); simpl; [exact H|].
  rewrite E. auto.
Qed.

Lemma themes_set_is_dict (key : json) (value : Theme) (d : list (json * Theme)) :
  hashable key = true -> index_is_dict d ->
  index_is_dict (ThemeManager.themes_set key value d).
Proof.
  intros Hh. induction d as [|[k x] d IH]; simpl.
  - intros _. auto.
  - intros (Hk & Hn & Hd).
    destruct (ThemeManager.key_eqb k key) eqn:E; simpl.
    + auto.
    + split; [exact Hk|]. split; [|now apply IH].
      now apply themes_get_none_set.
Qed.

Lemma themes_del_is_dict (key : json) (d : list (json * Theme)) :
  index_is_dict d -> index_is_dict (ThemeManager.themes_del key d).
Proof.
  induction d as [|[k x] d IH]; simpl; [auto|].
  intros (Hk & Hn & Hd).
  destruct (ThemeManager.key_eqb k key); simpl; [exact Hd|].
  split; [exact Hk|]. split; [|now apply IH].
  now apply themes_get_none_del.
Qed.

Lemma dict_get_In (V : Type) (key : string) (d : list (string * V)) (x : V) :
  dict_get key d = Some x -> In (key, x) d.
Proof.
  induction d as [|[k v] d IH]; simpl; [discriminate|].
  destruct (String.eqb_spec k key).
  - intros [= <-]. subst. now left.
  - intros H. right. now apply IH.
Qed.

Lemma dict_get_del (V : Type) (key : string) (d : list (string * V)) :
  NoDup (keys d) -> dict_get key (dict_del key d) = None.
Proof.
  induction d as [|[k v] d IH]; simpl; [reflexivity|].
  intros Hnd. inversion Hnd as [|? ? Hk Hd]. subst.
  destruct (String.eqb_spec k key); simpl.
  - subst k. destruct (dict_get key d) eqn:G; [|reflexivity].
    elim Hk. apply dict_get_In in G. unfold keys.
    change key with (fst (key, v0)). now apply in_map.
  - destruct (String.eqb_spec k key); [contradiction|]. now apply IH.
Qed.

Lemma dict_get_del_other (V : Type) (key key' : string) (d : list (string * V)) :
  key' <> key -> dict_get key' (dict_del key d) = dict_get key' d.
Proof.
  intros Hne. induction d as [|[k v] d IH]; simpl; [reflexivity|].
  destruct (String.eqb_spec k key); simpl.
  - subst k. destruct (String.eqb_spec key key'); [congruence | reflexivity].
  - destruct (String.eqb k key'); [reflexivity | exact IH].
Qed.

(** [_load_themes] is the loop of [load_record] over the records. *)
Lemma load_themes_fold (dir : list (string * string)) :
  ThemeManager._load_themes dir = fold_left load_record (ThemeManager.glob_json dir) (Ok []).
Proof. reflexivity. Qed.

Lemma fold_load_record_raise (l : list (string * string)) (e : exn) :
  fold_left load_record l (Raise e) = Raise e.
Proof. induction l as [|x l IH]; simpl; auto. Qed.

Lemma load_record_raise_modelled (themes : list (json * Theme)) (file content : string)
  (e : exn) :
  json_load content <> Raise Unmodelled ->
  load_record (Ok themes) (file, content) = Raise e -> e <> Unmodelled.
Proof.
  intros Hm. unfold load_record. cbn [bind snd].
  destruct (json_load content) as [v|e0]; cbn [bind].
  2:{ intros [= <-] ->. now elim Hm. }
  assert (Hv : forall e', validation_error e' -> e' <> Unmodelled).
  { intros e' He' ->. exact He'. }
  destruct (match v with JObj d => ThemeManager._parse_theme d | _ => Raise TypeError end)
    as [theme|e0] eqn:Hp; cbn [bind].
  2:{ intros [= <-]. destruct v; try (injection Hp as <-; discriminate).
      apply Hv. exact (parse_raise_validation _ Hp). }
  destruct (getitem v "name") as [nm|e0] eqn:Hg; cbn [bind].
  2:{ intros [= <-]. apply Hv. exact (getitem_raise _ _ Hg). }
  destruct (hashable nm); [discriminate | intros [= <-]; discriminate].
Qed.

Lemma fold_load_record_in_modelled (l : list (string * string)) (file : string * string) :
  In file l ->
  (forall themes, exists e, load_record (Ok themes) file = Raise e) ->
  (forall f c, In (f, c) l -> json_load c <> Raise Unmodelled) ->
  forall acc, (forall e, acc = Raise e -> e <> Unmodelled) ->
  exists e, fold_left load_record l acc = Raise e /\ e <> Unmodelled.
Proof.
  intros Hin Hfile. induction l as [|x l IH]; [contradiction|].
  intros Hm acc Hacc.
  assert (Hl : forall f c, In (f, c) l -> json_load c <> Raise Unmodelled).
  { intros f c Hc. apply (Hm f c). now right. }
  assert (Hx : forall themes e, load_record (Ok themes) x = Raise e -> e <> Unmodelled).
  { intros themes e. destruct x as [f c]. apply load_record_raise_modelled.
    apply (Hm f c). now left. }
  destruct acc as [themes|e]; cbn [fold_left].
  - destruct Hin as [-> | Hin].
    + destruct (Hfile themes) as [e He]. rewrite He. exists e.
      split; [apply fold_load_record_raise | exact (Hx _ _ He)].
    + apply (IH Hin Hl). intros e He. exact (Hx _ _ He).
  - exists e. change (load_record (Raise e) x) with (@Raise (list (json * Theme)) e).
    split; [apply fold_load_record_raise | now apply Hacc].
Qed.

Lemma dict_set_In (V : Type) (key : string) (value : V) (d : list (string * V))
  (x : string * V) :
  In x (dict_set key value d) -> fst x = key /\ snd x = value \/ In x d.
Proof.
  induction d as [|[k v] d IH]; simpl.
  - intros [<- | []]. auto.
  - destruct (String.eqb_spec k key); simpl.
    + intros [<- | H]; [left; auto | right; now right].
    + intros [<- | H]; [right; now left|].
      destruct (IH H) as [E | E]; [now left | right; now right].
Qed.

(** A record that holds a payload which parses, with a name that can be
    hashed, adds the Theme to the index under that name. *)
Lemma load_record_ok (themes : list (json * Theme)) (file content : string)
  (raw : dict) (theme : Theme) :
  json_load content = Ok (JObj raw) ->
  ThemeManager._parse_theme raw = Ok theme ->
  hashable (name theme) = true ->
  load_record (Ok themes) (file, content)
  = Ok (ThemeManager.themes_set (name theme) theme themes).
Proof.
  intros Hl Hp Hh. unfold load_record. cbn [bind snd]. rewrite Hl. cbn [bind].
  rewrite Hp. cbn [bind].
  destruct (parse_ok_inv _ Hp)
    as (schemes & ty & sp & bp & _ & _ & _ & _ & _ & _ & _ & _ & _ & _ & _ & _ & _ & _ & N & _).
  unfold getitem. rewrite N. cbn [bind]. now rewrite Hh.
Qed.

(** [create_theme] with a payload that parses and a name that is a [str]
    and a file name as it stands (no slash, no null character) returns the
    parsed Theme; afterwards [get_theme] finds it under its name and finds
    under every other name what it found before; a name that was not in the
    index is added after the keys that were. *)
Theorem create_then_get (self : ThemeManager.t) (theme_data : dict) (theme : Theme)
  (n : string) :
  ThemeManager._parse_theme theme_data = Ok theme ->
  name theme = JStr n ->
  plain_name n = true ->
  exists self',
    ThemeManager.create_theme self theme_data = (Ok theme, self') /\
    ThemeManager.get_theme self' n = Some theme /\
    (forall other, other <> n ->
       ThemeManager.get_theme self' other = ThemeManager.get_theme self other) /\
    (ThemeManager.get_theme self n = None ->
     ThemeManager.themes self'
     = (ThemeManager.themes self ++ [(JStr n, theme)])%list).
Proof.
  intros Hp Hn Hplain. unfold ThemeManager.create_theme. rewrite Hp, Hn.
  cbn [hashable py_str]. rewrite (open_w_plain _ _ Hplain).
  eexists. split; [reflexivity|].
  unfold ThemeManager.get_theme. cbn [ThemeManager.themes]. split; [|split].
  - now apply themes_get_set.
  - intros other Hne. now apply themes_get_set_other.
  - apply themes_set_new.
Qed.

Lemma create_then_get_witness :
  exists theme self',
    ThemeManager.create_theme default_manager (sample_payload "night") = (Ok theme, self') /\
    ThemeManager.get_theme self' "night" = Some theme /\
    ThemeManager.get_theme self' "default" = ThemeManager.get_theme default_manager "default".
Proof.
  destruct (ThemeManager._parse_theme (sample_payload "night")) as [theme|] eqn:Hp;
    [|discriminate Hp].
  destruct (@create_then_get default_manager (sample_payload "night") theme "night" Hp)
    as (self' & H1 & H2 & H3 & _).
  - vm_compute in Hp. injection Hp as <-. reflexivity.
  - reflexivity.
  - exists theme, self'. split; [exact H1|]. split; [exact H2|].
    apply H3. discriminate.
Defined.

(** [create_theme] with a payload that parses and a name that cannot be
    hashed (a list or a mapping), whose text is a file name as it stands (no
    slash, no null character), raises a TypeError after the record is
    written: the index is as before, the record is in the directory, and a
    manager started on that directory raises, when every record of the
    directory holds values of the model. *)
Theorem create_unhashable_name (self : ThemeManager.t) (theme_data : dict) (theme : Theme) :
  unique_keys (JObj theme_data) ->
  ThemeManager._parse_theme theme_data = Ok theme ->
  hashable (name theme) = false ->
  plain_name (py_str (name theme)) = true ->
  exists self',
    ThemeManager.create_theme self theme_data = (Raise TypeError, self') /\
    ThemeManager.themes self' = ThemeManager.themes self /\
    dict_get (py_str (name theme) ++ ".json") (ThemeManager.themes_dir self')
    = Some (json_dump (JObj theme_data)) /\
    (within_model (ThemeManager.themes_dir self) ->
     exists e, ThemeManager.__init__ (ThemeManager.themes_dir self') = Raise e /\
               e <> Unmodelled).
Proof.
  intros Hu Hp Hh Hplain. unfold ThemeManager.create_theme.
  rewrite Hp, (open_w_plain _ _ Hplain), Hh.
  eexists. split; [reflexivity|]. cbn [ThemeManager.themes ThemeManager.themes_dir].
  split; [reflexivity|]. split; [apply dict_get_set|].
  intros Hin.
  unfold ThemeManager.__init__. rewrite load_themes_fold.
  match goal with
  | |- exists e, bind (fold_left _ (ThemeManager.glob_json ?dir) _) _ = _ /\ _ =>
      destruct (@fold_load_record_in_modelled (ThemeManager.glob_json dir)
                  (py_str (name theme) ++ ".json", json_dump (JObj theme_data)))
        with (acc := @Ok (list (json * Theme)) []) as (e & He & Hne)
  end.
  - apply filter_In. split.
    + apply dict_get_In, dict_get_set.
    + cbn [fst]. apply ends_with_app.
  - intros themes. exists TypeError. unfold load_record. cbn [bind snd].
    rewrite (json_load_json_dump _ Hu). cbn [bind]. rewrite Hp. cbn [bind].
    destruct (parse_ok_inv _ Hp)
      as (schemes & ty & sp & bp & _ & _ & _ & _ & _ & _ & _ & _ & _ & _ & _ & _ & _ & _ & N & _).
    unfold getitem. rewrite N. cbn [bind]. now rewrite Hh.
  - intros f c Hc. apply filter_In in Hc. destruct Hc as [Hc Hf].
    apply dict_set_In in Hc. cbn [fst snd] in Hc. destruct Hc as [[_ ->] | Hc].
    + rewrite (json_load_json_dump _ Hu). discriminate.
    + apply (Hin f c). apply filter_In. split; [exact Hc | exact Hf].
  - discriminate.
  - exists e. rewrite He. split; [reflexivity | exact Hne].
Qed.

Lemma payload_named_unique_keys : unique_keys (JObj (payload_named (JArr [JStr "a"]))).
Proof.
  unfold payload_named, sample_payload, payload, sample_palette, sample_breakpoints.
  cbn [dict_set String.eqb Ascii.eqb Bool.eqb].
  cbn [unique_keys keys map fst snd].
  repeat match goal with
         | |- _ /\ _ => split
         | |- True => exact I
         | |- NoDup _ => constructor
         | |- ~ In _ _ => cbn [In]; intuition discriminate
         end.
Qed.

Lemma create_unhashable_name_witness :
  exists self',
    ThemeManager.create_theme empty_manager (payload_named (JArr [JStr "a"]))
    = (Raise TypeError, self') /\
    ThemeManager.themes self' = [] /\
    dict_get "['a'].json" (ThemeManager.themes_dir self')
    = Some (json_dump (JObj (payload_named (JArr [JStr "a"])))) /\
    exists e, ThemeManager.__init__ (ThemeManager.themes_dir self') = Raise e /\
              e <> Unmodelled.
Proof.
  destruct (ThemeManager._parse_theme (payload_named (JArr [JStr "a"]))) as [theme|] eqn:Hp;
    [|discriminate Hp].
  assert (Hn : name theme = JArr [JStr "a"]).
  { vm_compute in Hp. injection Hp as <-. reflexivity. }
  destruct (@create_unhashable_name empty_manager (payload_named (JArr [JStr "a"])) theme
              payload_named_unique_keys Hp) as (self' & H1 & H2 & H3 & H4).
  - rewrite Hn. reflexivity.
  - rewrite Hn. reflexivity.
  - exists self'. split; [exact H1|]. split; [exact H2|]. split.
    + rewrite Hn in H3. exact H3.
    + apply H4. intros f c [].
Defined.

(** [update_theme] with a name of the index that is a file name as it
    stands (no slash, no null character) and a payload that parses returns
    the parsed Theme and files it under the name of the call, whatever name
    the payload carries: the index has the same keys, the other names find
    what they found before, the record of the name of the call holds the
    payload, and the other records are untouched. *)
Theorem update_replaces_entry (self : ThemeManager.t) (n : string) (theme_data : dict)
  (theme old : Theme) :
  ThemeManager.get_theme self n = Some old ->
  ThemeManager._parse_theme theme_data = Ok theme ->
  plain_name n = true ->
  exists self',
    ThemeManager.update_theme self n theme_data = (Ok theme, self') /\
    ThemeManager.get_theme self' n = Some theme /\
    map fst (ThemeManager.themes self') = map fst (ThemeManager.themes self) /\
    (forall other, other <> n ->
       ThemeManager.get_theme self' other = ThemeManager.get_theme self other) /\
    dict_get (n ++ ".json") (ThemeManager.themes_dir self') = Some (json_dump (JObj theme_data)) /\
    (forall file, file <> n ++ ".json" ->
       dict_get file (ThemeManager.themes_dir self') = dict_get file (ThemeManager.themes_dir self)).
Proof.
  unfold ThemeManager.get_theme. intros Hold Hp Hplain.
  unfold ThemeManager.update_theme. rewrite Hold, Hp, (open_w_plain _ _ Hplain).
  eexists. split; [reflexivity|].
  cbn [ThemeManager.themes ThemeManager.themes_dir].
  split; [now apply themes_get_set|].
  split; [exact (themes_set_keys _ _ _ Hold)|].
  split; [intros other Hne; now apply themes_get_set_other|].
  split; [apply dict_get_set|].
  intros file Hne. now apply dict_get_set_other.
Qed.

Lemma update_replaces_entry_witness :
  exists theme self',
    ThemeManager.update_theme default_manager "default" (sample_payload "other")
    = (Ok theme, self') /\
    ThemeManager.get_theme self' "default" = Some theme /\
    ThemeManager.get_theme self' "other" = None.
Proof.
  destruct (ThemeManager._parse_theme (sample_payload "other")) as [theme|] eqn:Hp;
    [|discriminate Hp].
  destruct (ThemeManager.get_theme default_manager "default") as [old|] eqn:Hg;
    [|discriminate Hg].
  destruct (@update_replaces_entry default_manager "default" (sample_payload "other")
              theme old Hg Hp) as (self' & H1 & H2 & _ & H4 & _).
  - reflexivity.
  - exists theme, self'. split; [exact H1|]. split; [exact H2|].
    rewrite H4; [reflexivity | discriminate].
Defined.

(** [delete_theme] with a name of the index whose record is there removes
    both: afterwards [get_theme] finds nothing under the name and the record
    is gone, and the other names and the other records are as before.  The
    index and the directory have no key twice. *)
Theorem delete_removes_entry (self : ThemeManager.t) (n : string) (old : Theme)
  (content : string) :
  index_is_dict (ThemeManager.themes self) ->
  NoDup (keys (ThemeManager.themes_dir self)) ->
  ThemeManager.get_theme self n = Some old ->
  dict_get (n ++ ".json") (ThemeManager.themes_dir self) = Some content ->
  exists self',
    ThemeManager.delete_theme self n = (Ok tt, self') /\
    ThemeManager.get_theme self' n = None /\
    (forall other, other <> n ->
       ThemeManager.get_theme self' other = ThemeManager.get_theme self other) /\
    dict_get (n ++ ".json") (ThemeManager.themes_dir self') = None /\
    (forall file, file <> n ++ ".json" ->
       dict_get file (ThemeManager.themes_dir self') = dict_get file (ThemeManager.themes_dir self)).
Proof.
  unfold ThemeManager.get_theme. intros Hd Hnd Hold Hfile.
  unfold ThemeManager.delete_theme. rewrite Hold, Hfile.
  eexists. split; [reflexivity|].
  cbn [ThemeManager.themes ThemeManager.themes_dir].
  split; [now apply themes_get_del|].
  split; [intros other Hne; now apply themes_get_del_other|].
  split; [now apply dict_get_del|].
  intros file Hne. now apply dict_get_del_other.
Qed.

Lemma delete_removes_entry_witness :
  exists self',
    ThemeManager.delete_theme default_manager "default" = (Ok tt, self') /\
    ThemeManager.get_theme self' "default" = None /\
    dict_get "default.json" (ThemeManager.themes_dir self') = None.
Proof.
  destruct (ThemeManager.get_theme default_manager "default") as [old|] eqn:Hg;
    [|discriminate Hg].
  destruct (dict_get "default.json" (ThemeManager.themes_dir default_manager))
    as [content|] eqn:Hf; [|discriminate Hf].
  destruct (@delete_removes_entry default_manager "default" old content)
    as (self' & H1 & H2 & _ & H4 & _).
  - vm_compute. auto.
  - vm_compute. repeat constructor. intros [].
  - exact Hg.
  - exact Hf.
  - exists self'. auto.
Defined.

(** Files whose name does not end in [.json] play no part in
    [_load_themes]. *)
Theorem load_ignores_other_files (before after : list (string * string))
  (file content : string) :
  ThemeManager.ends_with ".json" file = false ->
  ThemeManager._load_themes (before ++ (file, content) :: after)
  = ThemeManager._load_themes (before ++ after).
Proof.
  intros H. unfold ThemeManager._load_themes, ThemeManager.glob_json.
  rewrite !filter_app. cbn [filter fst]. now rewrite H.
Qed.

Lemma load_ignores_other_files_witness :
  ThemeManager._load_themes
    (ThemeManager.themes_dir default_manager ++ [("notes.txt", "not a theme")])
  = ThemeManager._load_themes (ThemeManager.themes_dir default_manager ++ []).
Proof.
  apply (@load_ignores_other_files (ThemeManager.themes_dir default_manager) []
           "notes.txt" "not a theme").
  reflexivity.
Defined.

(** When the records of a directory load, a further record that holds a
    payload which parses, with a name that can be hashed, loads too: the
    index holds its Theme under that name, in the place of the Theme of an
    earlier record of the same name, and the other keys keep their
    Themes. *)
Theorem load_later_record_wins (dir : list (string * string)) (index : list (json * Theme))
  (file content : string) (raw : dict) (theme : Theme) :
  ThemeManager._load_themes dir = Ok index ->
  ThemeManager.ends_with ".json" file = true ->
  json_load content = Ok (JObj raw) ->
  ThemeManager._parse_theme raw = Ok theme ->
  hashable (name theme) = true ->
  ThemeManager._load_themes (dir ++ [(file, content)])
  = Ok (ThemeManager.themes_set (name theme) theme index) /\
  ThemeManager.themes_get (name theme) (ThemeManager.themes_set (name theme) theme index)
  = Some theme /\
  (forall n other, name theme = JStr n -> other <> n ->
     ThemeManager.themes_get (JStr other) (ThemeManager.themes_set (name theme) theme index)
     = ThemeManager.themes_get (JStr other) index).
Proof.
  intros Hd He Hl Hp Hh. split; [|split].
  - rewrite load_themes_fold in *. unfold ThemeManager.glob_json in *.
    rewrite filter_app, fold_left_app, Hd. cbn [filter fst]. rewrite He.
    cbn [fold_left]. now apply load_record_ok with (raw := raw).
  - now apply themes_get_set.
  - intros n other Hn Hne. rewrite Hn. now apply themes_get_set_other.
Qed.

Lemma load_later_record_wins_witness :
  exists theme,
    ThemeManager._parse_theme (sample_payload "default") = Ok theme /\
    ThemeManager._load_themes
      (ThemeManager.themes_dir default_manager
         ++ [("copy.json", json_dump (JObj (sample_payload "default")))])
    = Ok (ThemeManager.themes_set (name theme) theme (ThemeManager.themes default_manager)).
Proof.
  destruct (ThemeManager._parse_theme (sample_payload "default")) as [theme|] eqn:Hp;
    [|discriminate Hp].
  exists theme. split; [reflexivity|].
  apply (@load_later_record_wins (ThemeManager.themes_dir default_manager)
           (ThemeManager.themes default_manager) "copy.json"
           (json_dump (JObj (sample_payload "default"))) (sample_payload "default") theme).
  - vm_compute. reflexivity.
  - reflexivity.
  - vm_compute. reflexivity.
  - exact Hp.
  - vm_compute in Hp. injection Hp as <-. reflexivity.
Defined.

(** In a directory whose records are within the model, one record that is
    not the text of a payload which parses (a text [json.load] raises on, a
    value that is no object, or a payload [_parse_theme] rejects) makes
    [ThemeManager(themes_dir)] raise: no manager is started on the
    directory, whatever the other records. *)
Theorem broken_record_blocks_start (dir : list (string * string)) (file content : string) :
  within_model dir ->
  In (file, content) dir ->
  ThemeManager.ends_with ".json" file = true ->
  (forall raw theme, json_load content = Ok (JObj raw) ->
                     ThemeManager._parse_theme raw <> Ok theme) ->
  exists e, ThemeManager.__init__ dir = Raise e /\ e <> Unmodelled.
Proof.
  intros Hm Hin He Hbad. unfold ThemeManager.__init__. rewrite load_themes_fold.
  destruct (@fold_load_record_in_modelled (ThemeManager.glob_json dir) (file, content))
    with (acc := @Ok (list (json * Theme)) []) as (e & H & Hne).
  - apply filter_In. split; [exact Hin | exact He].
  - intros themes. unfold load_record. cbn [bind snd].
    destruct (json_load content) as [v|e]; cbn [bind]; [|eauto].
    destruct v as [| | | | |raw]; cbn [bind]; eauto.
    destruct (ThemeManager._parse_theme raw) as [theme|e] eqn:Hp; cbn [bind]; [|eauto].
    now elim (Hbad raw theme).
  - exact Hm.
  - discriminate.
  - exists e. rewrite H. split; [reflexivity | exact Hne].
Qed.

Lemma broken_record_blocks_start_witness :
  exists e,
    ThemeManager.__init__
      (ThemeManager.themes_dir default_manager ++ [("draft.json", "{")]) = Raise e /\
    e <> Unmodelled.
Proof.
  apply (@broken_record_blocks_start
           (ThemeManager.themes_dir default_manager ++ [("draft.json", "{")])
           "draft.json" "{").
  - intros f c Hc. vm_compute in Hc. destruct Hc as [[= <- <-] | [[= <- <-] | []]].
    + vm_compute. discriminate.
    + vm_compute. discriminate.
  - apply in_or_app. right. now left.
  - reflexivity.
  - intros raw theme H. vm_compute in H. discriminate H.
Defined.



Lemma load_record_ok_inv (acc : result (list (json * Theme))) (theme_file : string * string)
  (index : list (json * Theme)) :
  load_record acc theme_file = Ok index ->
  exists themes raw theme,
    acc = Ok themes /\
    json_load (snd theme_file) = Ok (JObj raw) /\
    ThemeManager._parse_theme raw = Ok theme /\
    hashable (name theme) = true /\
    index = ThemeManager.themes_set (name theme) theme themes.
Proof.
  unfold load_record. destruct acc as [themes|e]; cbn [bind]; [|discriminate].
  destruct (json_load (snd theme_file)) as [v|e]; cbn [bind]; [|discriminate].
  destruct v as [| | | | |raw]; cbn [bind]; try discriminate.
  destruct (ThemeManager._parse_theme raw) as [theme|e] eqn:Hp; cbn [bind]; [|discriminate].
  destruct (parse_ok_inv _ Hp)
    as (schemes & ty & sp & bp & _ & _ & _ & _ & _ & _ & _ & _ & _ & _ & _ & _ & _ & _ & N & _).
  unfold getitem. rewrite N. cbn [bind].
  destruct (hashable (name theme)) eqn:Hh; [|discriminate].
  intros [= <-]. exists themes, raw, theme. auto.
Qed.

Lemma themes_set_keys_equal (key : json) (theme : Theme) (d : list (json * Theme)) :
  hashable key = true -> key = name theme ->
  Forall (fun p => ThemeManager.key_eqb (fst p) (name (snd p)) = true) d ->
  Forall (fun p => ThemeManager.key_eqb (fst p) (name (snd p)) = true)
         (ThemeManager.themes_set key theme d).
Proof.
  intros Hh Hk. induction 1 as [|[k x] d Hx Hd IH]; simpl.
  - constructor; [|constructor]. simpl. rewrite <- Hk. now apply key_eqb_refl.
  - destruct (ThemeManager.key_eqb k key) eqn:E.
    + constructor; [|assumption]. simpl. now rewrite <- Hk.
    + constructor; assumption.
Qed.

Lemma fold_load_record_invariant (l : list (string * string)) :
  forall (acc : result (list (json * Theme))) (index : list (json * Theme)),
  (forall d, acc = Ok d ->
     index_is_dict d /\
     Forall (fun p => ThemeManager.key_eqb (fst p) (name (snd p)) = true) d) ->
  fold_left load_record l acc = Ok index ->
  index_is_dict index /\
  Forall (fun p => ThemeManager.key_eqb (fst p) (name (snd p)) = true) index.
Proof.
  induction l as [|x l IH]; cbn [fold_left]; intros acc index Hacc H.
  - now apply Hacc.
  - refine (IH _ _ _ H).
    intros d Hd. apply load_record_ok_inv in Hd.
    destruct Hd as (themes & raw & theme & -> & _ & _ & Hh & ->).
    destruct (Hacc themes eq_refl) as [H1 H2]. split.
    + now apply themes_set_is_dict.
    + now apply themes_set_keys_equal.
Qed.

(** A manager that [ThemeManager(themes_dir)] returns holds the directory
    as it found it and an index that is a dict: its keys can be hashed, no
    two of them are equal, and every key equals the name of its Theme. *)
Theorem started_manager_index (dir : list (string * string)) (self : ThemeManager.t) :
  ThemeManager.__init__ dir = Ok self ->
  ThemeManager.themes_dir self = dir /\
  index_is_dict (ThemeManager.themes self) /\
  Forall (fun p => ThemeManager.key_eqb (fst p) (name (snd p)) = true)
         (ThemeManager.themes self).
Proof.
  unfold ThemeManager.__init__. rewrite load_themes_fold.
  destruct (fold_left load_record (ThemeManager.glob_json dir) (Ok [])) as [index|e] eqn:H;
    cbn [bind]; [|discriminate].
  intros [= <-]. cbn [ThemeManager.themes ThemeManager.themes_dir].
  split; [reflexivity|].
  refine (@fold_load_record_invariant _ _ _ _ H).
  intros d [= <-]. split; [exact I | constructor].
Qed.

Lemma started_manager_index_witness :
  index_is_dict (ThemeManager.themes default_manager).
Proof.
  apply (@started_manager_index (ThemeManager.themes_dir default_manager) default_manager).
  vm_compute. reflexivity.
Defined.

(** [create_theme], [update_theme] and [delete_theme] keep the index a
    dict, whether they return or raise. *)
Theorem index_stays_dict (self : ThemeManager.t) :
  index_is_dict (ThemeManager.themes self) ->
  (forall theme_data,
     index_is_dict (ThemeManager.themes (snd (ThemeManager.create_theme self theme_data)))) /\
  (forall n theme_data,
     index_is_dict (ThemeManager.themes (snd (ThemeManager.update_theme self n theme_data)))) /\
  (forall n,
     index_is_dict (ThemeManager.themes (snd (ThemeManager.delete_theme self n)))).
Proof.
  intros H. split; [|split].
  - intros theme_data. unfold ThemeManager.create_theme.
    destruct (ThemeManager._parse_theme theme_data) as [theme|e]; [|exact H].
    destruct (open_w (ThemeManager.themes_dir self) (py_str (name theme))); [|exact H].
    destruct (hashable (name theme)) eqn:Hh; cbn [snd ThemeManager.themes]; [|exact H].
    now apply themes_set_is_dict.
  - intros n theme_data. unfold ThemeManager.update_theme.
    destruct (ThemeManager.themes_get (JStr n) (ThemeManager.themes self)); [|exact H].
    destruct (ThemeManager._parse_theme theme_data) as [theme|e]; [|exact H].
    destruct (open_w (ThemeManager.themes_dir self) n); [|exact H].
    cbn [snd ThemeManager.themes]. now apply themes_set_is_dict.
  - intros n. unfold ThemeManager.delete_theme.
    destruct (ThemeManager.themes_get (JStr n) (ThemeManager.themes self)); [|exact H].
    destruct (dict_get (n ++ ".json") (ThemeManager.themes_dir self)); [|exact H].
    cbn [snd ThemeManager.themes]. now apply themes_del_is_dict.
Qed.

Lemma index_stays_dict_witness :
  index_is_dict
    (ThemeManager.themes (snd (ThemeManager.create_theme default_manager (sample_payload "night")))) /\
  index_is_dict
    (ThemeManager.themes (snd (ThemeManager.delete_theme default_manager "default"))).
Proof.
  destruct (@index_stays_dict default_manager) as (H1 & _ & H3).
  - vm_compute. auto.
  - split; [apply H1 | apply H3].
Defined.

(** [create_theme] with a name that is a [str], and [delete_theme], keep
    every key of the index the name of its Theme. *)
Theorem index_keys_stay_names (self : ThemeManager.t) :
  index_keys_are_names self ->
  (forall theme_data n,
     lookup_path (JObj theme_data) ["name"] = Some (JStr n) ->
     index_keys_are_names (snd (ThemeManager.create_theme self theme_data))) /\
  (forall n, index_keys_are_names (snd (ThemeManager.delete_theme self n))).
Proof.
  intros H. split.
  - intros theme_data n Hn. now apply create_keeps_index_keys with (n := n).
  - intros n. now apply delete_keeps_index_keys.
Qed.

Lemma index_keys_stay_names_witness :
  index_keys_are_names
    (snd (ThemeManager.create_theme default_manager (sample_payload "night"))) /\
  index_keys_are_names (snd (ThemeManager.delete_theme default_manager "default")).
Proof.
  destruct (@index_keys_stay_names default_manager) as (H1 & H2).
  - vm_compute. repeat constructor.
  - split; [apply (H1 (sample_payload "night") "night"); reflexivity | apply H2].
Defined.

(* ================================================================== *)
(** * theme_manager.py: what the parse reads and the exports write *)
(* ================================================================== *)

(** The exports read the color schemes, the typography but for [body], the
    unit and the scale of the spacing, and the breakpoints: two themes that
    agree on these have the same CSS and the same SCSS, so that the name,
    the body, the custom spacing and the custom mapping are never
    exported. *)
Theorem export_reads_tokens_only (a b : Theme) :
  same_tokens a b ->
  ThemeManager._export_css a = ThemeManager._export_css b /\
  ThemeManager._export_scss a = ThemeManager._export_scss b.
Proof.
  intros (H1 & H2 & H3 & H4 & H5 & H6 & H7 & H8).
  unfold ThemeManager._export_css, ThemeManager._export_scss,
    ThemeManager._export_css_lines, ThemeManager._export_scss_lines.
  rewrite H1, H2, H3, H4, H5, H6, H7, H8. split; reflexivity.
Qed.

Lemma export_reads_tokens_only_witness :
  exists a b,
    ThemeManager._parse_theme (sample_payload "default") = Ok a /\
    ThemeManager._parse_theme (("custom", JObj [("radius", JStr "4px")]) :: sample_payload "night")
    = Ok b /\
    a <> b /\
    ThemeManager._export_css a = ThemeManager._export_css b /\
    ThemeManager._export_scss a = ThemeManager._export_scss b.
Proof.
  destruct (ThemeManager._parse_theme (sample_payload "default")) as [a|] eqn:Ha;
    [|discriminate Ha].
  destruct (ThemeManager._parse_theme
              (("custom", JObj [("radius", JStr "4px")]) :: sample_payload "night"))
    as [b|] eqn:Hb; [|discriminate Hb].
  exists a, b. split; [reflexivity|]. split; [reflexivity|].
  vm_compute in Ha. injection Ha as <-. vm_compute in Hb. injection Hb as <-.
  split; [discriminate|].
  apply export_reads_tokens_only. repeat split.
Defined.

(** A payload whose headings are no mapping, with a name that is a [str]
    and a file name as it stands (no slash, no null character), is accepted
    by [create_theme]; [export_theme] then raises AttributeError for the
    stored Theme, in both formats. *)
Theorem accepted_headings_not_exportable (self : ThemeManager.t) (theme_data : dict)
  (theme : Theme) (n : string) (h : json) :
  ThemeManager._parse_theme theme_data = Ok theme ->
  name theme = JStr n ->
  plain_name n = true ->
  lookup_path (JObj theme_data) ["typography"; "headings"] = Some h ->
  (forall d, h <> JObj d) ->
  exists self',
    ThemeManager.create_theme self theme_data = (Ok theme, self') /\
    ThemeManager.export_theme self' n "css" = Raise AttributeError /\
    ThemeManager.export_theme self' n "scss" = Raise AttributeError.
Proof.
  intros Hp Hn Hplain Hh Hno. unfold ThemeManager.create_theme. rewrite Hp, Hn.
  cbn [hashable py_str]. rewrite (open_w_plain _ _ Hplain).
  eexists. split; [reflexivity|].
  assert (Hi : items (headings (typography theme)) = Raise AttributeError).
  { destruct (parse_ok_inv _ Hp)
      as (schemes & ty & sp & bp & _ & _ & T & _ & _ & _ & H & _).
    cbn [lookup_path] in Hh. rewrite T, H in Hh. injection Hh as ->.
    destruct h as [| | | | |d]; try reflexivity. now elim (Hno d). }
  unfold ThemeManager.export_theme, ThemeManager.get_theme.
  cbn [ThemeManager.themes]. rewrite themes_get_set by reflexivity.
  unfold ThemeManager._export_css, ThemeManager._export_scss,
    ThemeManager._export_css_lines, ThemeManager._export_scss_lines.
  rewrite Hi. split; reflexivity.
Qed.

Lemma accepted_headings_not_exportable_witness :
  exists theme self',
    ThemeManager.create_theme empty_manager (payload_with_headings "plain" (JStr "bold"))
    = (Ok theme, self') /\
    ThemeManager.export_theme self' "plain" "css" = Raise AttributeError /\
    ThemeManager.export_theme self' "plain" "scss" = Raise AttributeError.
Proof.
  destruct (ThemeManager._parse_theme (payload_with_headings "plain" (JStr "bold")))
    as [theme|] eqn:Hp; [|discriminate Hp].
  exists theme.
  apply (@accepted_headings_not_exportable empty_manager
           (payload_with_headings "plain" (JStr "bold")) theme "plain" (JStr "bold") Hp).
  - vm_compute in Hp. injection Hp as <-. reflexivity.
  - reflexivity.
  - reflexivity.
  - discriminate.
Defined.

(** Both exports declare every color slot of every scheme and every
    breakpoint of the theme, with the value printed as [str] prints it. *)
Theorem export_declares_colors_and_breakpoints (theme : Theme) (css scss : list string) :
  ThemeManager._export_css_lines theme = Ok css ->
  ThemeManager._export_scss_lines theme = Ok scss ->
  (forall scheme palette slot value,
     In (scheme, palette) (color_schemes theme) ->
     In (slot, value) (ColorPalette_dict palette) ->
     In ("  --color-" ++ ColorScheme_value scheme ++ "-" ++ slot ++ ": " ++ py_str value ++ ";")
        css /\
     In ("$color-" ++ ColorScheme_value scheme ++ "-" ++ slot ++ ": " ++ py_str value ++ ";")
        scss) /\
  (forall breakpoint value,
     In (breakpoint, value) (Breakpoints_dict (breakpoints theme)) ->
     In ("  --breakpoint-" ++ breakpoint ++ ": " ++ py_str value ++ ";") css /\
     In ("  " ++ breakpoint ++ ": " ++ py_str value ++ ",") scss).
Proof.
  unfold ThemeManager._export_css_lines, ThemeManager._export_scss_lines.
  destruct (items (headings (typography theme))) as [hs|]; cbn [bind]; [|discriminate].
  match goal with
  | |- bind (mapM ?f hs) _ = _ -> bind (mapM ?g hs) _ = _ -> _ =>
      destruct (mapM f hs) as [l1|]; cbn [bind]; [|discriminate];
      destruct (mapM g hs) as [l2|]; cbn [bind]; [|intros _; discriminate]
  end.
  destruct (iterate (scale (spacing theme))) as [values|]; cbn [bind]; [|discriminate].
  intros E1 E2.
  apply (f_equal (fun r => match r with Ok x => x | Raise _ => [] end)) in E1, E2.
  cbv beta iota in E1, E2. subst css scss. split.
  - intros scheme palette slot value Hs Hv. split.
    + apply in_or_app. right. apply in_or_app. left.
      apply in_flat_map. exists (scheme, palette). split; [exact Hs|].
      apply in_map_iff. exists (slot, value). split; [reflexivity | exact Hv].
    + apply in_or_app. left.
      apply in_flat_map. exists (scheme, palette). split; [exact Hs|].
      apply in_map_iff. exists (slot, value). split; [reflexivity | exact Hv].
  - intros breakpoint value Hb. split.
    + do 6 (apply in_or_app; right). apply in_or_app. left.
      apply in_map_iff. exists (breakpoint, value). split; [reflexivity | exact Hb].
    + do 10 (apply in_or_app; right). apply in_or_app. left.
      apply in_map_iff. exists (breakpoint, value). split; [reflexivity | exact Hb].
Qed.

Lemma export_declares_colors_and_breakpoints_witness :
  exists theme css scss,
    ThemeManager.get_theme default_manager "default" = Some theme /\
    ThemeManager._export_css_lines theme = Ok css /\
    ThemeManager._export_scss_lines theme = Ok scss /\
    In "  --breakpoint-md: 768px;" css /\ In "  md: 768px," scss.
Proof.
  destruct (ThemeManager.get_theme default_manager "default") as [theme|] eqn:Hg;
    [|discriminate Hg].
  destruct (ThemeManager._export_css_lines theme) as [css|] eqn:H1.
  2:{ vm_compute in Hg. injection Hg as <-. vm_compute in H1. discriminate H1. }
  destruct (ThemeManager._export_scss_lines theme) as [scss|] eqn:H2.
  2:{ vm_compute in Hg. injection Hg as <-. vm_compute in H2. discriminate H2. }
  exists theme, css, scss. split; [reflexivity|]. split; [exact H1|].
  split; [exact H2|].
  destruct (@export_declares_colors_and_breakpoints theme css scss H1 H2) as [_ Hb].
  apply (Hb "md" (JStr "768px")).
  vm_compute in Hg. injection Hg as <-. do 2 right. left. reflexivity.
Defined.

(** [_parse_theme] reads six top-level keys and no other: two payloads that
    hold the same under these six parse alike. *)
Theorem parse_reads_six_keys (theme_data theme_data' : dict) :
  (forall key, In key top_level_keys -> dict_get key theme_data = dict_get key theme_data') ->
  ThemeManager._parse_theme theme_data = ThemeManager._parse_theme theme_data'.
Proof.
  intros H.
  assert (G : forall key, In key top_level_keys ->
                getitem (JObj theme_data) key = getitem (JObj theme_data') key).
  { intros key Hk. unfold getitem. now rewrite (H key Hk). }
  rewrite !parse_unfold.
  rewrite (G "color_schemes"), (G "typography"), (G "spacing"), (G "breakpoints"),
    (G "name"), (H "custom")
    by (unfold top_level_keys; cbn [In]; tauto).
  reflexivity.
Qed.

Lemma parse_reads_six_keys_witness :
  ThemeManager._parse_theme (sample_payload "default")
  = ThemeManager._parse_theme ((sample_payload "default") ++ [("version", JNum 2)])%list.
Proof.
  apply (@parse_reads_six_keys (sample_payload "default")
           ((sample_payload "default") ++ [("version", JNum 2)])%list).
  intros key Hk. unfold top_level_keys in Hk. cbn [In] in Hk.
  repeat (destruct Hk as [<- | Hk]; [reflexivity|]). contradiction.
Defined.

Lemma getitem_key_error (v : json) (key k : string) :
  getitem v key = Raise (KeyError k) ->
  k = key /\ exists d, v = JObj d /\ dict_get key d = None.
Proof.
  destruct v as [| | | | |d]; simpl; try discriminate.
  destruct (dict_get key d) eqn:E; [discriminate|].
  intros [= <-]. eauto.
Qed.

Lemma add_scheme_raise_kind (schemes : dict) acc (e : exn) :
  fold_left ThemeManager.add_scheme schemes acc = Raise e ->
  acc = Raise e \/
  e = TypeError \/
  exists scheme colors,
    e = EnumValueError scheme /\ In (scheme, colors) schemes /\
    scheme <> "light" /\ scheme <> "dark".
Proof.
  revert acc. induction schemes as [|[k v] l IH]; cbn [fold_left]; intros acc H.
  - now left.
  - destruct (IH _ H) as [Hacc | [Ht | (scheme & colors & He & Hin & Hne)]].
    + destruct acc as [d|e0]; cbn [ThemeManager.add_scheme bind] in Hacc.
      * unfold ColorScheme_of in Hacc.
        destruct (String.eqb_spec k "light") as [E1|E1]; cbn [bind] in Hacc.
        { destruct (ColorPalette_new v) eqn:E; cbn [bind] in Hacc; [discriminate|].
          injection Hacc as <-. apply ColorPalette_new_raise in E. auto. }
        destruct (String.eqb_spec k "dark") as [E2|E2]; cbn [bind] in Hacc.
        { destruct (ColorPalette_new v) eqn:E; cbn [bind] in Hacc; [discriminate|].
          injection Hacc as <-. apply ColorPalette_new_raise in E. auto. }
        injection Hacc as <-. right. right. exists k, v.
        split; [reflexivity|]. split; [now left | auto].
      * left. exact Hacc.
    + auto.
    + right. right. exists scheme, colors. split; [exact He|].
      split; [now right | exact Hne].
Qed.

Ltac raise_top H path :=
  apply getitem_key_error in H;
  let G := fresh "G" in
  destruct H as (-> & ? & [= <-] & G);
  exists path; split; [unfold required_paths; cbn [In]; tauto|];
  split; [reflexivity|]; cbn [lookup_path]; now rewrite G.

Ltac raise_nested H path :=
  apply bind_raise in H;
  let T := fresh "T" in
  let G := fresh "G" in
  let G0 := fresh "P" in
  destruct H as [H | (? & T & H)];
  [ let p := eval cbv in (firstn 1 path) in raise_top H p
  | apply getitem_ok in T; destruct T as (? & [= <-] & G0);
    apply getitem_key_error in H; destruct H as (-> & ? & -> & G);
    exists path; split; [unfold required_paths; cbn [In]; tauto|];
    split; [reflexivity|]; cbn [lookup_path]; now rewrite G0, G ].

(** A KeyError of [_parse_theme] names a key the payload lacks: one of the
    required paths ends in that key and is absent from the payload. *)
Theorem key_error_names_absent_key (theme_data : dict) (key : string) :
  ThemeManager._parse_theme theme_data = Raise (KeyError key) ->
  exists path,
    In path required_paths /\ last_key path = key /\
    lookup_path (JObj theme_data) path = None.
Proof.
  rewrite parse_unfold. intros H.
  apply bind_raise in H. destruct H as [H | (x & _ & H)];
    [raise_top H ["color_schemes"]|].
  apply bind_raise in H. destruct H as [H | (? & _ & H)].
  { destruct x; discriminate H. }
  apply bind_raise in H. destruct H as [H | (? & _ & H)].
  { apply add_scheme_raise_kind in H.
    destruct H as [H | [H | (? & ? & H & _)]]; discriminate H. }
  apply bind_raise in H. destruct H as [H | (? & _ & H)];
    [raise_nested H ["typography"; "font_family"]|].
  apply bind_raise in H. destruct H as [H | (? & _ & H)];
    [raise_nested H ["typography"; "font_size_base"]|].
  apply bind_raise in H. destruct H as [H | (? & _ & H)];
    [raise_nested H ["typography"; "line_height_base"]|].
  apply bind_raise in H. destruct H as [H | (? & _ & H)];
    [raise_nested H ["typography"; "headings"]|].
  apply bind_raise in H. destruct H as [H | (? & _ & H)];
    [raise_nested H ["typography"; "body"]|].
  apply bind_raise in H. destruct H as [H | (? & _ & H)];
    [raise_nested H ["spacing"; "unit"]|].
  apply bind_raise in H. destruct H as [H | (? & _ & H)];
    [raise_nested H ["spacing"; "scale"]|].
  apply bind_raise in H. destruct H as [H | (? & _ & H)];
    [raise_nested H ["spacing"; "custom"]|].
  apply bind_raise in H. destruct H as [H | (? & _ & H)].
  { apply bind_raise in H. destruct H as [H | (? & _ & H)];
      [raise_top H ["breakpoints"]|].
    apply Breakpoints_new_raise in H. discriminate H. }
  apply bind_raise in H. destruct H as [H | (? & _ & H)]; [raise_top H ["name"]|].
  discriminate H.
Qed.

Lemma key_error_names_absent_key_witness :
  exists path,
    In path required_paths /\ last_key path = "scale" /\
    lookup_path
      (JObj (dict_set "spacing" (JObj [("unit", JStr "px")]) (sample_payload "default")))
      path = None.
Proof.
  apply (@key_error_names_absent_key
           (dict_set "spacing" (JObj [("unit", JStr "px")]) (sample_payload "default"))
           "scale").
  vm_compute. reflexivity.
Defined.

(** The error of [ColorScheme(scheme)] comes from a key of the color
    schemes of the payload that is neither light nor dark, and names it. *)
Theorem enum_error_names_scheme (theme_data : dict) (scheme : string) :
  ThemeManager._parse_theme theme_data = Raise (EnumValueError scheme) ->
  exists schemes colors,
    lookup_path (JObj theme_data) ["color_schemes"] = Some (JObj schemes) /\
    In (scheme, colors) schemes /\ scheme <> "light" /\ scheme <> "dark".
Proof.
  rewrite parse_unfold. intros H.
  apply bind_raise in H. destruct H as [H | (x & X & H)].
  { unfold getitem in H. destruct (dict_get "color_schemes" theme_data); discriminate H. }
  apply getitem_ok in X. destruct X as (d & [= <-] & X).
  apply bind_raise in H. destruct H as [H | (schemes & S & H)].
  { destruct x; discriminate H. }
  destruct x as [| | | | |d]; try discriminate S. injection S as ->.
  apply bind_raise in H. destruct H as [H | (? & _ & H)].
  { apply add_scheme_raise_kind in H.
    destruct H as [H | [H | (s & colors & [= <-] & Hin & Hne)]]; try discriminate H.
    exists schemes, colors. cbn [lookup_path]. rewrite X. auto. }
  do 8 (apply bind_raise in H; destruct H as [H | (? & _ & H)];
        [ apply bind_raise in H; destruct H as [H | (? & _ & H)];
          match type of H with
          | getitem ?v ?k = _ =>
              unfold getitem in H; destruct v; try discriminate H;
              match type of H with
              | context [dict_get ?a ?b] => destruct (dict_get a b); discriminate H
              end
          end | ]).
  apply bind_raise in H. destruct H as [H | (? & _ & H)].
  { apply bind_raise in H. destruct H as [H | (? & _ & H)].
    - unfold getitem in H. destruct (dict_get "breakpoints" theme_data); discriminate H.
    - apply Breakpoints_new_raise in H. discriminate H. }
  apply bind_raise in H. destruct H as [H | (? & _ & H)].
  { unfold getitem in H. destruct (dict_get "name" theme_data); discriminate H. }
  discriminate H.
Qed.

Lemma enum_error_names_scheme_witness :
  exists schemes colors,
    lookup_path (JObj (payload "default" (JObj [("sepia", sample_palette)]) sample_breakpoints))
      ["color_schemes"] = Some (JObj schemes) /\
    In ("sepia", colors) schemes /\ "sepia" <> "light" /\ "sepia" <> "dark".
Proof.
  apply (@enum_error_names_scheme
           (payload "default" (JObj [("sepia", sample_palette)]) sample_breakpoints) "sepia").
  vm_compute. reflexivity.
Defined.
